(** * SPT liquefaction software: column resolver and liquefaction engine

    A shallow embedding of the two pieces of application logic of
    [SPT-英文.py] (class [SPTLiquefactionSoftware]):

    - [_standardize_text] and [_auto_recognize_column_names], which map the
      headers of an imported table onto the canonical column names of
      [column_name_mapping];
    - [calculate_liquefaction_index], the calculation of the design
      earthquake coefficient, the seismic parameters, the per-layer critical
      blow count, liquefaction probability, weight and contribution, the
      liquefaction index and its grade;

    and of the callers around them: the guards of [preview_file],
    [import_calculation] and [batch_calculate_all_imported_sites] and the
    data these two build from the rows of a site; [get_manual_input_data],
    [manual_calculation] and the layer buttons [add_soil_layer],
    [delete_last_layer], [clear_manual_input]; the possibility tiers and the
    average of [_update_result_display]; the table of
    [_update_anti_liquefaction_measures]; the worksheet names and the
    measures sheet of [export_calculation_results].

    Conventions of the embedding.
    - A Python [str] is the list of its Unicode code points ([pystr]).
    - A Python [float] is a real number: arithmetic is exact, so rounding is
      outside the model; an equation below gives the formula the code
      evaluates, read over the reals. A Python [int] is a [Z].
    - Operations that can raise ([/], [math.sqrt], [math.log], [math.exp],
      the explicit [raise ValueError], the lookup [row[None]]) live in the
      error monad [result]; [math.exp] raises [OverflowError] above the
      largest argument whose exponential is a finite float.
    - An insertion-ordered [dict] is an association list that keeps the
      position of the first insertion of a key.
    - The three display strings of the result dictionary
      ([seismic_param_choice_result] and the two others) are formatted floats
      and are left out of [site_result]. *)

From Stdlib Require Import Reals Lra Lia ZArith NArith List String Ascii Bool.
Import ListNotations.

(** ** Python values *)

Module Py.

(** A Python string, as the sequence of its code points. *)
Definition pystr : Type := list N.

(** A string literal of the source that is plain ASCII. *)
Definition str (s : string) : pystr :=
  map N_of_ascii (list_ascii_of_string s).

(** GREEK SMALL LETTER RHO, the first character of the literal for the clay
    content choice. *)
Definition rho : N := 961%N.

Definition pystr_eqb (a b : pystr) : bool :=
  if list_eq_dec N.eq_dec a b then true else false.

(** [a.startswith]-like test used by [contains]. *)
Fixpoint is_prefix (p s : pystr) : bool :=
  match p, s with
  | [], _ => true
  | _ :: _, [] => false
  | a :: p', b :: s' => N.eqb a b && is_prefix p' s'
  end.

(** [needle in hay] on strings: substring test. *)
Fixpoint contains (needle hay : pystr) : bool :=
  is_prefix needle hay
  || match hay with
     | [] => false
     | _ :: hay' => contains needle hay'
     end.

(** Exceptions the modelled code can raise. *)
Inductive value_error : Type :=
| AmaxOutOfRange (amax : R)   (* the explicit [raise ValueError(...)] *)
| MathDomainError.            (* [math.sqrt] / [math.log] outside their domain *)

Inductive exn : Type :=
| ValueError (why : value_error)
| ZeroDivisionError
| OverflowError.              (* [math.exp] of an argument that is too large *)

Inductive result (A : Type) : Type :=
| Ok (a : A)
| Raise (e : exn).
Arguments Ok {A} a.
Arguments Raise {A} e.

Definition bind {A B : Type} (m : result A) (k : A -> result B) : result B :=
  match m with
  | Ok a => k a
  | Raise e => Raise e
  end.

Definition fmap {A B : Type} (f : A -> B) (m : result A) : result B :=
  bind m (fun a => Ok (f a)).

(** [max(a, b)] and [min(a, b)] of two floats: the first argument is kept
    unless the second is strictly better. *)
Definition max (a b : R) : R := if Rlt_dec a b then b else a.
Definition min (a b : R) : R := if Rlt_dec b a then b else a.

(** [a / b] *)
Definition div (a b : R) : result R :=
  if Req_dec_T b 0 then Raise ZeroDivisionError else Ok (a / b)%R.

(** [math.sqrt(x)] *)
Definition sqrt (x : R) : result R :=
  if Rlt_dec x 0 then Raise (ValueError MathDomainError) else Ok (R_sqrt.sqrt x).

(** [math.log(x)] *)
Definition log (x : R) : result R :=
  if Rle_dec x 0 then Raise (ValueError MathDomainError) else Ok (ln x).

(** The largest float whose exponential is still a finite float: [math.exp]
    raises [OverflowError] ("math range error") on every float above it. As a
    double it is [0x40862E42FEFA39EF], which lies just below the decimal
    written here, with no float in between. *)
Definition exp_max : R := 709.782712893384.

(** [math.exp(x)] *)
Definition math_exp (x : R) : result R :=
  if Rlt_dec exp_max x then Raise OverflowError else Ok (exp x).

(** An insertion-ordered dictionary. *)
Section Dict.

Context {K V : Type} (eqb : K -> K -> bool).

Definition dict : Type := list (K * V).

(** [d.get(k)], [None] for a missing key; also the test [k in d]. *)
Fixpoint dict_get (d : dict) (k : K) : option V :=
  match d with
  | [] => None
  | (k', v) :: d' => if eqb k' k then Some v else dict_get d' k
  end.

(** [d[k] = v]: an existing key keeps its position. *)
Fixpoint dict_set (d : dict) (k : K) (v : V) : dict :=
  match d with
  | [] => [(k, v)]
  | (k', v') :: d' =>
      if eqb k' k then (k', v) :: d' else (k', v') :: dict_set d' k v
  end.

(** [d.get(k, default)] *)
Definition dict_get_default (d : dict) (k : K) (default : V) : V :=
  match dict_get d k with
  | Some v => v
  | None => default
  end.

End Dict.

End Py.

Declare Scope py_scope.
Delimit Scope py_scope with py.
Notation "x <- m ;; k" := (Py.bind m (fun x => k))
  (at level 61, m at next level, right associativity) : py_scope.
Notation "' pat <- m ;; k" :=
  (Py.bind m (fun x => match x with pat => k end))
  (at level 61, pat pattern, m at next level, right associativity) : py_scope.

(** ** The column resolver *)

Module Resolver.
Import Py.

(** The six canonical column names, the keys of [column_name_mapping]. *)
Definition Site_Number : pystr := str "Site Number".
Definition Saturated_Depth : pystr := str "Saturated Sand Depth ds(m)".
Definition Blow_Count : pystr := str "Measured SPT Blow Count N".
Definition Particle_Content : pystr := str "Clay/Fine Particle Content(%)".
Definition Peak_Acceleration : pystr := str "Surface Peak Acceleration amax(g)".
Definition Seismic_Intensity : pystr := str "Seismic Intensity".

(** [self.column_name_mapping], in the order of the dictionary literal. *)
Definition column_name_mapping : list (pystr * list pystr) :=
  [ (Site_Number,
      [str "Site Number"; str "Site ID"; str "Measurement Point Number";
       str "ID"; str "Point No"; str "Point ID"]);
    (Saturated_Depth,
      [str "Saturated Sand Depth ds(m)"; str "Saturation Depth(m)"; str "ds";
       str "Saturated Burial Depth"; str "Sand Depth ds"; str "Burial Depth ds"]);
    (Blow_Count,
      [str "Measured SPT Blow Count N"; str "N value";
       str "Measured Penetration Value"; str "Standard Penetration N";
       str "N"; str "Blow Count N"]);
    (Particle_Content,
      [str "Clay Content " ++ rho :: str "c(%)"; rho :: str "c";
       str "Clay Content"; str "Clay Percentage";
       str "Fine Particle Content Fc(%)"; str "Fc";
       str "Fine Particle Percentage"; str "Fine Particle Content"]);
    (Peak_Acceleration,
      [str "Surface Peak Acceleration amax(g)"; str "amax";
       str "Peak Acceleration"; str "Acceleration Peak"]);
    (Seismic_Intensity,
      [str "Seismic Intensity"; str "Intensity"; str "Earthquake Grade"]) ].

Definition between (lo hi c : N) : bool := (N.leb lo c && N.leb c hi)%bool.

(** A character outside the class [[^a-zA-Z0-9一-龥]], that is one
    which [re.sub] leaves in place. *)
Definition kept (c : N) : bool :=
  between 97 122 c || between 65 90 c || between 48 57 c
  || between 19968 40869 c.

(** [str.lower] on a character that [kept] accepted: the ASCII capitals are
    the only ones with a lower-case form. *)
Definition lower (c : N) : N :=
  if between 65 90 c then (c + 32)%N else c.

Definition _standardize_text (text : pystr) : pystr :=
  match text with
  | [] => []
  | _ => map lower (filter kept text)
  end.

(** The dictionary comprehension
    [{self._standardize_text(c): c for c in column_name_list}]. *)
Definition standardize_columns (column_name_list : list pystr)
  : dict (K := pystr) (V := pystr) :=
  fold_left
    (fun d col_name => dict_set pystr_eqb d (_standardize_text col_name) col_name)
    column_name_list [].

(** Truth value of [best_match]: [None] and the empty string are false. *)
Definition truthy (best_match : option pystr) : bool :=
  match best_match with
  | None | Some [] => false
  | Some (_ :: _) => true
  end.

(** Step 2, the [for alias in alias_list] loop with its [break]. *)
Fixpoint match_aliases (standardized_columns : dict (K := pystr) (V := pystr))
    (alias_list : list pystr) : option pystr :=
  match alias_list with
  | [] => None
  | alias :: rest =>
      match dict_get pystr_eqb standardized_columns (_standardize_text alias) with
      | Some original => Some original
      | None => match_aliases standardized_columns rest
      end
  end.

(** Step 3, the loop over [standardized_columns.items()] with its [break];
    [best_match] keeps its value when no column is hit. *)
Fixpoint fuzzy_match (standardized_standard_col : pystr)
    (alias_list : list pystr) (items : list (pystr * pystr))
    (best_match : option pystr) : option pystr :=
  match items with
  | [] => best_match
  | (standardized_col, original_col_name) :: rest =>
      if contains standardized_standard_col standardized_col
         || existsb (fun alias => contains (_standardize_text alias) standardized_col)
                    alias_list
      then Some original_col_name
      else fuzzy_match standardized_standard_col alias_list rest best_match
  end.

(** The body of the loop over [self.column_name_mapping.items()]. *)
Definition recognize_column (standardized_columns : dict (K := pystr) (V := pystr))
    (standard_col_name : pystr) (alias_list : list pystr) : option pystr :=
  let standardized_standard_col := _standardize_text standard_col_name in
  match dict_get pystr_eqb standardized_columns standardized_standard_col with
  | Some original => Some original
  | None =>
      let best_match := match_aliases standardized_columns alias_list in
      if truthy best_match then best_match
      else fuzzy_match standardized_standard_col alias_list
             standardized_columns best_match
  end.

Definition _auto_recognize_column_names (column_name_list : list pystr)
  : list (pystr * option pystr) :=
  let standardized_columns := standardize_columns column_name_list in
  map (fun '(standard_col_name, alias_list) =>
         (standard_col_name,
          recognize_column standardized_columns standard_col_name alias_list))
      column_name_mapping.

(** [mapping_result[field]] *)
Definition resolved (mapping_result : list (pystr * option pystr))
    (field : pystr) : option (option pystr) :=
  dict_get pystr_eqb mapping_result field.

End Resolver.

(** ** The liquefaction engine *)

Module Engine.
Import Py.
Local Open Scope R_scope.
Local Open Scope py_scope.

(** One entry of [data["soil_layer_data"]]. *)
Record soil_layer : Type := {
  ds : R;                   (* saturated sand depth *)
  SPT_N : R;                (* key ["N"]: measured SPT blow count *)
  content_value : R;        (* clay / fine particle content *)
  seismic_param_value : R   (* read by the loop, never used *)
}.

(** The argument [data] of [calculate_liquefaction_index]. *)
Record site_data : Type := {
  acceleration_intensity_choice : pystr;
  seismic_intensity : Z;
  surface_peak_acceleration_amax : R;
  discrimination_depth : Z;
  groundwater_depth_dw : R;
  surface_wave_magnitude_Ms : R;
  design_earthquake_group : pystr;
  beta_calculation_method : pystr;
  particle_content_choice : pystr;
  soil_layer_data : list soil_layer
}.

(** One entry of [soil_layer_calculation_details]. *)
Record layer_detail : Type := {
  d_ds : R;
  d_N : R;
  d_content_value : R;
  Ncr : R;
  PL : R;
  Ncr_PL : R;
  wi : R;
  contribution_value : R
}.

(** The dictionary returned by [calculate_liquefaction_index]. *)
Record site_result : Type := {
  r_seismic_intensity : Z;
  r_surface_peak_acceleration_amax : R;
  r_discrimination_depth : Z;
  r_groundwater_depth_dw : R;
  r_surface_wave_magnitude_Ms : R;
  r_design_earthquake_group : pystr;
  design_earthquake_adjustment_coefficient_beta : R;
  r_particle_content_choice : pystr;
  r_acceleration_intensity_choice : pystr;
  r_beta_calculation_method : pystr;
  liquefaction_index_ILE : R;
  liquefaction_grade : pystr;
  soil_layer_calculation_details : list layer_detail
}.

(** The string literals the code compares against. *)
Definition s_amax : pystr := str "amax".
Definition s_group : pystr := str "group".
Definition s_rho_c : pystr := rho :: str "c".

Definition Req_bool (a b : R) : bool := if Req_dec_T a b then true else false.

(** Step 1: design earthquake adjustment coefficient. *)
Definition step1_beta (data : site_data) : R :=
  if pystr_eqb (beta_calculation_method data) s_group then
    if pystr_eqb (design_earthquake_group data) (str "1") then 0.80
    else if pystr_eqb (design_earthquake_group data) (str "2") then 0.95
    else if pystr_eqb (design_earthquake_group data) (str "3") then 1.05
    else 0.80
  else
    let b := 0.20 * surface_wave_magnitude_Ms data - 0.50 in
    max 0.80 (min 1.05 b).

Definition amax_mapping : dict (K := Z) (V := R) :=
  [ (7%Z, 0.1); (8%Z, 0.2); (9%Z, 0.4) ].

Definition N_prime_mapping : dict (K := R) (V := Z) :=
  [ (0.10, 16%Z); (0.15, 20%Z); (0.20, 23%Z); (0.30, 31%Z); (0.40, 37%Z) ].

(** [amax_mapping.get(seismic_intensity, 0.1)] *)
Definition intensity_amax (seismic_intensity : Z) : R :=
  dict_get_default Z.eqb amax_mapping seismic_intensity 0.1.

(** [N_prime_mapping.get(amax, 16)] *)
Definition intensity_N_prime (amax : R) : Z :=
  dict_get_default Req_bool N_prime_mapping amax 16%Z.

(** Step 2: the pair [(amax, N_prime)]; the test of the source is
    [not (0.09 <= amax <= 0.41)]. *)
Definition step2_seismic (data : site_data) : result (R * Z) :=
  if pystr_eqb (acceleration_intensity_choice data) s_amax then
    let amax := surface_peak_acceleration_amax data in
    if Rle_dec 0.09 amax then
      if Rle_dec amax 0.41 then Ok (amax, 16%Z)
      else Raise (ValueError (AmaxOutOfRange amax))
    else Raise (ValueError (AmaxOutOfRange amax))
  else
    let amax := intensity_amax (seismic_intensity data) in
    let N_prime := intensity_N_prime amax in
    Ok (amax, N_prime).

(** Step 1.1: critical blow count before the floor. *)
Definition step_Ncr (data : site_data) (beta amax : R) (N_prime : Z)
    (soil : soil_layer) : result R :=
  let dw := groundwater_depth_dw data in
  if pystr_eqb (acceleration_intensity_choice data) s_amax then
    term1 <- div (69 * amax) (amax + 0.40) ;;
    let term2 := 1 - 0.02 * dw in
    q3 <- div (0.79 * ds soil) (ds soil + 6.2) ;;
    let term3 := 0.21 + q3 in
    if pystr_eqb (particle_content_choice data) s_rho_c then
      q4 <- div 3 (content_value soil) ;;
      term4 <- sqrt q4 ;;
      Ok (beta * term1 * term2 * term3 * term4)
    else
      q4 <- div 12 (content_value soil - 3) ;;
      term4 <- sqrt q4 ;;
      Ok (term1 * term2 * term3 * term4)
  else
    let term1 := 0.79 * IZR N_prime in
    let term2 := 1 - 0.02 * dw in
    q3 <- div (ds soil) (ds soil + 6.2) ;;
    let term3 := 0.27 + q3 in
    Ok (term1 * term2 * term3).

(** Step 1.2: liquefaction probability. *)
Definition step_PL (N Ncr : R) : result R :=
  let exponent_term := 0.32 * (N - Ncr) in
  e <- math_exp exponent_term ;;
  p <- div 1.0 (1.0 + e) ;;
  Ok (max 0.0 (min 1.0 p)).

(** Step 1.3: critical value at the liquefaction probability. *)
Definition step_Ncr_PL (N Ncr PL : R) : result R :=
  v <- (if Rle_dec PL 0.001 then Ok (N + 20.0)
        else if Rge_dec PL 0.999 then Ok (N - 20.0)
        else
          odds <- div PL (1.0 - PL) ;;
          l <- log odds ;;
          q <- div l 0.32 ;;
          Ok (Ncr - q)) ;;
  Ok (max 0.1 v).

(** Step 1.4: depth weight. *)
Definition step_wi (ds : R) : R :=
  if Rle_dec ds 5 then 10.0
  else if Rle_dec ds 15 then 5.0
  else if Rle_dec ds 20 then 2.0
  else 0.0.

(** Standard layer thickness. *)
Definition di : R := 3.0.

(** The body of [for soil_layer in soil_layer_data], up to the entry that is
    appended to the details. *)
Definition soil_layer_step (data : site_data) (beta amax : R) (N_prime : Z)
    (soil : soil_layer) : result layer_detail :=
  Ncr0 <- step_Ncr data beta amax N_prime soil ;;
  let Ncr := max 1.0 Ncr0 in
  PL <- step_PL (SPT_N soil) Ncr ;;
  Ncr_PL <- step_Ncr_PL (SPT_N soil) Ncr PL ;;
  let wi := step_wi (ds soil) in
  let contribution_value := PL * di * wi in
  Ok {| d_ds := ds soil; d_N := SPT_N soil;
        d_content_value := content_value soil;
        Ncr := Ncr; PL := PL; Ncr_PL := Ncr_PL; wi := wi;
        contribution_value := contribution_value |}.

(** The loop, threading [total_liquefaction_index_ILE] and the list of
    details built so far. *)
Fixpoint soil_layer_loop (data : site_data) (beta amax : R) (N_prime : Z)
    (layers : list soil_layer) (total : R) (details : list layer_detail)
  : result (R * list layer_detail) :=
  match layers with
  | [] => Ok (total, details)
  | soil :: rest =>
      d <- soil_layer_step data beta amax N_prime soil ;;
      soil_layer_loop data beta amax N_prime rest
        (total + contribution_value d) (details ++ [d])
  end.

(** Step 1.5: grade of a liquefaction index. *)
Definition step_grade (ILE : R) (discrimination_depth : Z) : pystr :=
  if Rle_dec ILE 0 then str "No Liquefaction"
  else if Z.eqb discrimination_depth 15 then
    if Rle_dec ILE 5 then str "Slight Liquefaction"
    else if Rle_dec ILE 15 then str "Moderate Liquefaction"
    else str "Severe Liquefaction"
  else
    if Rle_dec ILE 6 then str "Slight Liquefaction"
    else if Rle_dec ILE 18 then str "Moderate Liquefaction"
    else str "Severe Liquefaction".

Definition calculate_liquefaction_index (data : site_data) : result site_result :=
  let beta := step1_beta data in
  '(amax, N_prime) <- step2_seismic data ;;
  '(total, details) <-
     soil_layer_loop data beta amax N_prime (soil_layer_data data) 0.0 [] ;;
  Ok {| r_seismic_intensity := seismic_intensity data;
        r_surface_peak_acceleration_amax := surface_peak_acceleration_amax data;
        r_discrimination_depth := discrimination_depth data;
        r_groundwater_depth_dw := groundwater_depth_dw data;
        r_surface_wave_magnitude_Ms := surface_wave_magnitude_Ms data;
        r_design_earthquake_group := design_earthquake_group data;
        design_earthquake_adjustment_coefficient_beta := beta;
        r_particle_content_choice := particle_content_choice data;
        r_acceleration_intensity_choice := acceleration_intensity_choice data;
        r_beta_calculation_method := beta_calculation_method data;
        liquefaction_index_ILE := total;
        liquefaction_grade := step_grade total (discrimination_depth data);
        soil_layer_calculation_details := details |}.

(** The site that [get_manual_input_data] builds from
    [_create_default_site_data]: amax mode at 0.1 g, depth 15 m, group 1, clay
    content, five layers. *)
Definition default_layer (ds N : R) : soil_layer :=
  {| ds := ds; SPT_N := N; content_value := 3.0; seismic_param_value := 0.1 |}.

Definition default_layers : list soil_layer :=
  [ default_layer 1.5 12; default_layer 4.5 14; default_layer 7.5 16;
    default_layer 10.5 18; default_layer 13.5 20 ].

Definition default_site_data : site_data :=
  {| acceleration_intensity_choice := s_amax;
     seismic_intensity := 7;
     surface_peak_acceleration_amax := 0.1;
     discrimination_depth := 15;
     groundwater_depth_dw := 2.0;
     surface_wave_magnitude_Ms := 6.5;
     design_earthquake_group := str "1";
     beta_calculation_method := s_group;
     particle_content_choice := s_rho_c;
     soil_layer_data := default_layers |}.

(** The same site with another peak acceleration. *)
Definition with_amax (data : site_data) (amax : R) : site_data :=
  {| acceleration_intensity_choice := acceleration_intensity_choice data;
     seismic_intensity := seismic_intensity data;
     surface_peak_acceleration_amax := amax;
     discrimination_depth := discrimination_depth data;
     groundwater_depth_dw := groundwater_depth_dw data;
     surface_wave_magnitude_Ms := surface_wave_magnitude_Ms data;
     design_earthquake_group := design_earthquake_group data;
     beta_calculation_method := beta_calculation_method data;
     particle_content_choice := particle_content_choice data;
     soil_layer_data := soil_layer_data data |}.

(** The same site with other inputs of step 1 and another peak acceleration
    field. *)
Definition with_beta_inputs (data : site_data) (method group : pystr)
    (Ms amax : R) : site_data :=
  {| acceleration_intensity_choice := acceleration_intensity_choice data;
     seismic_intensity := seismic_intensity data;
     surface_peak_acceleration_amax := amax;
     discrimination_depth := discrimination_depth data;
     groundwater_depth_dw := groundwater_depth_dw data;
     surface_wave_magnitude_Ms := Ms;
     design_earthquake_group := group;
     beta_calculation_method := method;
     particle_content_choice := particle_content_choice data;
     soil_layer_data := soil_layer_data data |}.

(** The default site in intensity mode. *)
Definition intensity_site_data (intensity : Z) : site_data :=
  {| acceleration_intensity_choice := str "intensity";
     seismic_intensity := intensity;
     surface_peak_acceleration_amax := 0.1;
     discrimination_depth := 15;
     groundwater_depth_dw := 2.0;
     surface_wave_magnitude_Ms := 6.5;
     design_earthquake_group := str "1";
     beta_calculation_method := s_group;
     particle_content_choice := s_rho_c;
     soil_layer_data := default_layers |}.

(** *** What the inputs of a well-formed site satisfy

    A layer depth is positive; the blow count is at most 2000, which keeps
    the exponent [0.32 * (N - Ncr)] of step 1.2 below [exp_max] whatever
    [Ncr >= 1] is; the content value has been raised to the floor of its mode
    (3 for clay content, 15 for fine particle content) by the callers; in
    amax mode the peak acceleration passes the range test. *)
Definition valid_layer (data : site_data) (soil : soil_layer) : Prop :=
  0 < ds soil /\
  SPT_N soil <= 2000 /\
  (if pystr_eqb (particle_content_choice data) s_rho_c
   then 3 <= content_value soil else 15 <= content_value soil).

Definition valid_site (data : site_data) : Prop :=
  (acceleration_intensity_choice data = s_amax ->
     0.09 <= surface_peak_acceleration_amax data <= 0.41) /\
  Forall (valid_layer data) (soil_layer_data data).

(** Sum of the contributions of a list of details. *)
Definition sum_contributions (details : list layer_detail) : R :=
  fold_right (fun d acc => contribution_value d + acc) 0 details.

(** The computed part of a result: per-layer details, index and grade. The
    other fields of the dictionary repeat inputs or report beta. *)
Definition engine_outputs (r : site_result) : list layer_detail * R * pystr :=
  (soil_layer_calculation_details r, liquefaction_index_ILE r,
   liquefaction_grade r).

End Engine.

(** ** The formulas as the specification words them *)

Module Document.
Import Py Engine.
Local Open Scope R_scope.

(** Step 3 of the specification, before the floor: the formula selected by
    the seismic parameter mode and, in amax mode, by the content mode. *)
Definition Ncr_formula (amax_mode clay_content : bool)
    (beta amax N_prime dw ds content : R) : R :=
  if amax_mode then
    if clay_content then
      beta * (69 * amax / (amax + 0.40)) * (1 - 0.02 * dw)
      * (0.21 + 0.79 * ds / (ds + 6.2)) * R_sqrt.sqrt (3 / content)
    else
      (69 * amax / (amax + 0.40)) * (1 - 0.02 * dw)
      * (0.21 + 0.79 * ds / (ds + 6.2)) * R_sqrt.sqrt (12 / (content - 3))
  else
    0.79 * N_prime * (1 - 0.02 * dw) * (0.27 + ds / (ds + 6.2)).

(** Step 4 of the specification. *)
Definition PL_formula (N Ncr : R) : R :=
  Rmax 0 (Rmin 1 (1 / (1 + exp (0.32 * (N - Ncr))))).

(** The bounds of section 8 on one layer result. *)
Definition layer_bounds (d : layer_detail) : Prop :=
  0 <= PL d <= 1 /\ 1.0 <= Ncr d /\ 0.1 <= Ncr_PL d /\
  (wi d = 0 \/ wi d = 2 \/ wi d = 5 \/ wi d = 10).

(** What a successful pass of the layer loop appends to the details. *)
Record step_result (data : site_data) (beta amax : R) (N_prime : Z)
    (soil : soil_layer) (d : layer_detail) : Prop := {
  sr_Ncr0 : exists Ncr0,
      step_Ncr data beta amax N_prime soil = Ok Ncr0 /\ Ncr d = Rmax 1 Ncr0;
  sr_PL : PL d = 1 / (1 + exp (0.32 * (SPT_N soil - Ncr d)));
  sr_Ncr_PL : step_Ncr_PL (SPT_N soil) (Ncr d) (PL d) = Ok (Ncr_PL d);
  sr_wi : wi d = step_wi (ds soil);
  sr_contribution : contribution_value d = PL d * 3.0 * wi d;
  sr_ds : d_ds d = ds soil;
  sr_N : d_N d = SPT_N soil;
  sr_content : d_content_value d = content_value soil
}.

(** What a returned dictionary holds. *)
Record calculation (data : site_data) (r : site_result) : Prop := {
  c_seismic : exists amax N_prime,
      step2_seismic data = Ok (amax, N_prime) /\
      Forall2
        (fun soil d => soil_layer_step data (step1_beta data) amax N_prime soil = Ok d)
        (soil_layer_data data) (soil_layer_calculation_details r);
  c_beta : design_earthquake_adjustment_coefficient_beta r = step1_beta data;
  c_ILE : liquefaction_index_ILE r
          = sum_contributions (soil_layer_calculation_details r);
  c_grade : liquefaction_grade r
            = step_grade (liquefaction_index_ILE r) (discrimination_depth data)
}.

End Document.

(** ** The checks the import tab runs on a recognized mapping *)

Module Checks.
Import Py Resolver.

(** The characters a standardized text is made of: lower-case ASCII letters,
    digits and the ideographs of the kept range. *)
Definition standard_char (c : N) : bool :=
  between 97 122 c || between 48 57 c || between 19968 40869 c.

(** The test "the header [c] has the standardized form [k]". *)
Definition has_form (k : pystr) (c : pystr) : bool :=
  pystr_eqb (_standardize_text c) k.

(** [self.current_column_mapping.get(col_name)]: [None] for a missing key
    and for a column that was not recognized. *)
Definition mapping_get (mapping : list (pystr * option pystr))
    (col_name : pystr) : option pystr :=
  match dict_get pystr_eqb mapping col_name with
  | Some best_match => best_match
  | None => None
  end.

(** The list [core_columns] of [preview_file], [import_calculation] and
    [batch_calculate_all_imported_sites]. *)
Definition core_columns : list pystr :=
  [ str "Site Number"; str "Saturated Sand Depth ds(m)";
    str "Measured SPT Blow Count N"; str "Clay/Fine Particle Content(%)" ].

(** [[c for c in core_columns if not self.current_column_mapping.get(c)]] *)
Definition missing_columns (mapping : list (pystr * option pystr))
  : list pystr :=
  filter (fun col_name => negb (truthy (mapping_get mapping col_name)))
         core_columns.

(** [a or b] on two optional strings. *)
Definition py_or (a b : option pystr) : option pystr :=
  if truthy a then a else b.

(** The seismic parameter column of [preview_file] and of the batch
    calculation: the amax column, or else the intensity column. *)
Definition seismic_param_column_any (mapping : list (pystr * option pystr))
  : option pystr :=
  py_or (mapping_get mapping (str "Surface Peak Acceleration amax(g)"))
        (mapping_get mapping (str "Seismic Intensity")).

(** The seismic parameter column of [import_calculation]: the column of the
    selected seismic parameter. *)
Definition seismic_param_column_for (choice : pystr)
    (mapping : list (pystr * option pystr)) : option pystr :=
  if pystr_eqb choice (str "amax")
  then mapping_get mapping (str "Surface Peak Acceleration amax(g)")
  else mapping_get mapping (str "Seismic Intensity").

(** The canonical name of the column of the selected seismic parameter. *)
Definition seismic_param_name (choice : pystr) : pystr :=
  if pystr_eqb choice (str "amax")
  then str "Surface Peak Acceleration amax(g)" else str "Seismic Intensity".

(** What the two guards at the head of the three functions come to: a warning
    naming the missing columns, a warning about the seismic column, or the
    rest of the function. *)
Inductive check : Type :=
| Warn_missing_columns (missing : list pystr)
| Warn_seismic_column
| Proceed.

Definition guard (mapping : list (pystr * option pystr))
    (seismic_param_column : option pystr) : check :=
  match missing_columns mapping with
  | _ :: _ as missing => Warn_missing_columns missing
  | [] => if truthy seismic_param_column then Proceed else Warn_seismic_column
  end.

(** Guards of [preview_file] and [batch_calculate_all_imported_sites]. *)
Definition batch_guard (mapping : list (pystr * option pystr)) : check :=
  guard mapping (seismic_param_column_any mapping).

(** Guards of [import_calculation]. *)
Definition import_guard (choice : pystr)
    (mapping : list (pystr * option pystr)) : check :=
  guard mapping (seismic_param_column_for choice mapping).

End Checks.

(** ** Sites that differ in one input *)

Module Scenarios.
Import Py Engine.
Local Open Scope R_scope.

(** The same site with another groundwater depth. *)
Definition with_groundwater (data : site_data) (dw : R) : site_data :=
  {| acceleration_intensity_choice := acceleration_intensity_choice data;
     seismic_intensity := seismic_intensity data;
     surface_peak_acceleration_amax := surface_peak_acceleration_amax data;
     discrimination_depth := discrimination_depth data;
     groundwater_depth_dw := dw;
     surface_wave_magnitude_Ms := surface_wave_magnitude_Ms data;
     design_earthquake_group := design_earthquake_group data;
     beta_calculation_method := beta_calculation_method data;
     particle_content_choice := particle_content_choice data;
     soil_layer_data := soil_layer_data data |}.

(** The same site with another seismic intensity. *)
Definition with_intensity (data : site_data) (intensity : Z) : site_data :=
  {| acceleration_intensity_choice := acceleration_intensity_choice data;
     seismic_intensity := intensity;
     surface_peak_acceleration_amax := surface_peak_acceleration_amax data;
     discrimination_depth := discrimination_depth data;
     groundwater_depth_dw := groundwater_depth_dw data;
     surface_wave_magnitude_Ms := surface_wave_magnitude_Ms data;
     design_earthquake_group := design_earthquake_group data;
     beta_calculation_method := beta_calculation_method data;
     particle_content_choice := particle_content_choice data;
     soil_layer_data := soil_layer_data data |}.

(** The same site with other layers. *)
Definition with_layers (data : site_data) (layers : list soil_layer)
  : site_data :=
  {| acceleration_intensity_choice := acceleration_intensity_choice data;
     seismic_intensity := seismic_intensity data;
     surface_peak_acceleration_amax := surface_peak_acceleration_amax data;
     discrimination_depth := discrimination_depth data;
     groundwater_depth_dw := groundwater_depth_dw data;
     surface_wave_magnitude_Ms := surface_wave_magnitude_Ms data;
     design_earthquake_group := design_earthquake_group data;
     beta_calculation_method := beta_calculation_method data;
     particle_content_choice := particle_content_choice data;
     soil_layer_data := layers |}.

(** Two layer results of the same layer, the second at least as critical as
    the first. *)
Definition no_less_critical (d1 d2 : layer_detail) : Prop :=
  Ncr d1 <= Ncr d2 /\ PL d1 <= PL d2 /\
  wi d1 = wi d2 /\ contribution_value d1 <= contribution_value d2.

End Scenarios.

(** ** The result tab: possibility tiers and measures *)

Module Display.
Import Py Engine.
Local Open Scope R_scope.
Local Open Scope py_scope.

(** The tier of a layer in the details table of [_update_result_display]. *)
Definition liquefaction_possibility (PL : R) : pystr :=
  if Rge_dec PL 0.5 then str "High"
  else if Rle_dec 0.3 PL then
    if Rlt_dec PL 0.5 then str "Medium" else str "Low"
  else str "Low".

(** The tier of the average probability in [_update_result_display] and in
    the summary sheet of [export_calculation_results], and of a layer in the
    detail sheets. *)
Definition overall_liquefaction_possibility (average_PL : R) : pystr :=
  if Rge_dec average_PL 0.5 then str "High Possibility"
  else if Rle_dec 0.3 average_PL then
    if Rlt_dec average_PL 0.5 then str "Medium Possibility"
    else str "Low Possibility"
  else str "Low Possibility".

(** [sum(PL_list)] *)
Definition py_sum (l : list R) : R := fold_left Rplus l 0.

(** [sum(PL_list) / len(PL_list) if PL_list else 0.0], as the real number
    the float approximates. The float mean can differ from it in the last
    bits, and can fall just below the smallest layer value; what is proved of
    it below is what the float mean shares: the bounds 0 and 1, and the
    threshold 0.5 when every layer reaches it, since a sum of halves and its
    division by the count are exact in floats. *)
Definition average_PL (PL_list : list R) : result R :=
  match PL_list with
  | [] => Ok 0.0
  | _ :: _ => div (py_sum PL_list) (INR (List.length PL_list))
  end.

(** The overall possibility shown for a result. *)
Definition overall_possibility (r : site_result) : result pystr :=
  a <- average_PL (map PL (soil_layer_calculation_details r)) ;;
  Ok (overall_liquefaction_possibility a).

(** A dictionary access [d[key]] that can raise [KeyError]. *)
Inductive lookup (A : Type) : Type :=
| Found (a : A)
| KeyError (key : pystr).
Arguments Found {A} a.
Arguments KeyError {A} key.

(** [measures_mapping] of [_update_anti_liquefaction_measures]. *)
Definition measures_mapping
  : dict (K := pystr) (V := dict (K := pystr) (V := pystr)) :=
  [ (str "Class B",
      [ (str "Slight Liquefaction",
          str "Partially eliminate liquefaction settlement, or treat foundation and superstructure");
        (str "Moderate Liquefaction",
          str "Completely eliminate liquefaction settlement, or partially eliminate liquefaction settlement and treat foundation and superstructure");
        (str "Severe Liquefaction",
          str "Completely eliminate liquefaction settlement") ]);
    (str "Class C",
      [ (str "Slight Liquefaction",
          str "Treat foundation and superstructure, or may not treat");
        (str "Moderate Liquefaction",
          str "Treat foundation and superstructure, or take stricter measures");
        (str "Severe Liquefaction",
          str "Completely eliminate liquefaction settlement, or partially eliminate liquefaction settlement and treat foundation and superstructure") ]);
    (str "Class D",
      [ (str "Slight Liquefaction", str "No measures needed");
        (str "Moderate Liquefaction", str "No measures needed");
        (str "Severe Liquefaction",
          str "Treat foundation and superstructure, or take other economical and reasonable measures") ]) ].

(** [measures_data] of [export_calculation_results], one row per class. *)
Definition measures_data : list (dict (K := pystr) (V := pystr)) :=
  [ [ (str "Building Class", str "Class B");
      (str "Slight Liquefaction",
        str "Partially eliminate liquefaction settlement, or treat foundation and superstructure");
      (str "Moderate Liquefaction",
        str "Completely eliminate liquefaction settlement, or partially eliminate liquefaction settlement and treat foundation and superstructure");
      (str "Severe Liquefaction",
        str "Completely eliminate liquefaction settlement") ];
    [ (str "Building Class", str "Class C");
      (str "Slight Liquefaction",
        str "Treat foundation and superstructure, or may not treat");
      (str "Moderate Liquefaction",
        str "Treat foundation and superstructure, or take stricter measures");
      (str "Severe Liquefaction",
        str "Completely eliminate liquefaction settlement, or partially eliminate liquefaction settlement and treat foundation and superstructure") ];
    [ (str "Building Class", str "Class D");
      (str "Slight Liquefaction", str "No measures needed");
      (str "Moderate Liquefaction", str "No measures needed");
      (str "Severe Liquefaction",
        str "Treat foundation and superstructure, or take other economical and reasonable measures") ] ].

(** [measures_mapping[building_class].get(current_grade,
    "No corresponding measures")] *)
Definition recommended_measure (building_class current_grade : pystr)
  : lookup pystr :=
  match dict_get pystr_eqb measures_mapping building_class with
  | None => KeyError building_class
  | Some by_grade =>
      Found (dict_get_default pystr_eqb by_grade current_grade
               (str "No corresponding measures"))
  end.

Definition newline : pystr := [10%N].

(** The text that [_update_anti_liquefaction_measures] puts into the
    measures widget; the note ends with a title between the angle quotes
    U+300A and U+300B. *)
Definition measures_text (current_grade building_class : pystr)
  : lookup pystr :=
  if existsb (pystr_eqb current_grade)
       [str "Not Calculated"; str "No Liquefaction"]
  then Found (str "Please calculate valid liquefaction grade first")
  else
    match recommended_measure building_class current_grade with
    | KeyError key => KeyError key
    | Found measure =>
        Found (str "Building Seismic Fortification Class: " ++ building_class
               ++ newline
               ++ str "Liquefaction Grade: " ++ current_grade
               ++ newline ++ newline
               ++ str "Recommended Anti-liquefaction Measures:" ++ newline
               ++ measure
               ++ newline ++ newline
               ++ str "Note: These measures are based on" ++ [12298%N]
               ++ str "SPT-based Liquefaction Index Calculation Method"
               ++ [12299%N] ++ str " standards.")
    end.

(** The cell of [measures_data] in the row of a class and the column of a
    grade. *)
Definition exported_measure (building_class grade : pystr) : option pystr :=
  match find (fun row =>
                match dict_get pystr_eqb row (str "Building Class") with
                | Some c => pystr_eqb c building_class
                | None => false
                end) measures_data with
  | Some row => dict_get pystr_eqb row grade
  | None => None
  end.

End Display.

(** ** The export: worksheet names *)

Module Sheets.
Import Py.

(** A character of the class [[\\/*?:[\]]]: backslash, slash, asterisk,
    question mark, colon and the two square brackets. *)
Definition illegal (c : N) : bool :=
  existsb (N.eqb c) [92; 47; 42; 63; 58; 91; 93]%N.

(** [re.sub(r'[\\/*?:[\]]', '_', str(site_number)[:31])] *)
Definition worksheet_name (site_number : pystr) : pystr :=
  map (fun c => if illegal c then 95%N else c) (firstn 31 site_number).

End Sheets.

(** ** The manual input tab *)

Module Manual.
Import Py Engine.
Local Open Scope R_scope.

(** The values [get_manual_input_data] reads from the widgets, after the
    conversions [int(...)] and [float(...)] of the source: the three choices,
    the Tk variables, and for every row of entries the depth, the blow count
    and the content value. A text that does not convert raises inside the
    [try] and is reported, without any data being returned. *)
Record manual_inputs : Type := {
  manual_acceleration_intensity_choice : pystr;
  manual_particle_content_choice : pystr;
  manual_beta_calculation_choice : pystr;
  amax_var : R;
  intensity_var : Z;
  depth_var : Z;
  groundwater_var : R;
  magnitude_var : R;
  earthquake_group_var : pystr;
  soil_layer_entries : list (R * R * R)
}.

(** [max(3.0, content_value)] for the clay content, [max(15.0, ...)]
    otherwise. *)
Definition floored_content (particle_content_choice : pystr)
    (content_value : R) : R :=
  if pystr_eqb particle_content_choice s_rho_c
  then max 3.0 content_value else max 15.0 content_value.

(** The dictionary [get_manual_input_data] returns beside the site number. *)
Definition get_manual_input_data (g : manual_inputs) : site_data :=
  let acceleration_intensity_choice := manual_acceleration_intensity_choice g in
  let particle_content_choice := manual_particle_content_choice g in
  let '(seismic_param_value, intensity, amax) :=
    if pystr_eqb acceleration_intensity_choice s_amax
    then (amax_var g, 7%Z, amax_var g)
    else (IZR (intensity_var g), intensity_var g, 0.1) in
  let soil_layer_list :=
    map (fun '(ds, N, content_value) =>
           {| ds := ds; SPT_N := N;
              content_value := floored_content particle_content_choice content_value;
              seismic_param_value := seismic_param_value |})
        (soil_layer_entries g) in
  {| acceleration_intensity_choice := acceleration_intensity_choice;
     seismic_intensity := intensity;
     surface_peak_acceleration_amax := amax;
     discrimination_depth := depth_var g;
     groundwater_depth_dw := groundwater_var g;
     surface_wave_magnitude_Ms := magnitude_var g;
     design_earthquake_group := earthquake_group_var g;
     beta_calculation_method := manual_beta_calculation_choice g;
     particle_content_choice := particle_content_choice;
     soil_layer_data := soil_layer_list |}.

(** The result [manual_calculation] stores for the site. *)
Definition manual_calculation (g : manual_inputs) : result site_result :=
  calculate_liquefaction_index (get_manual_input_data g).

(** The same inputs with other rows of entries. *)
Definition with_entries (g : manual_inputs) (entries : list (R * R * R))
  : manual_inputs :=
  {| manual_acceleration_intensity_choice := manual_acceleration_intensity_choice g;
     manual_particle_content_choice := manual_particle_content_choice g;
     manual_beta_calculation_choice := manual_beta_calculation_choice g;
     amax_var := amax_var g;
     intensity_var := intensity_var g;
     depth_var := depth_var g;
     groundwater_var := groundwater_var g;
     magnitude_var := magnitude_var g;
     earthquake_group_var := earthquake_group_var g;
     soil_layer_entries := entries |}.

(** Rows of entries whose content values are replaced by their floored
    values. *)
Definition floored_entries (particle_content_choice : pystr)
    (entries : list (R * R * R)) : list (R * R * R) :=
  map (fun '(ds, N, content_value) =>
         (ds, N, floored_content particle_content_choice content_value))
      entries.

(** The inputs [clear_manual_input] resets the tab to. *)
Definition cleared_inputs : manual_inputs :=
  {| manual_acceleration_intensity_choice := s_amax;
     manual_particle_content_choice := s_rho_c;
     manual_beta_calculation_choice := s_group;
     amax_var := 0.1;
     intensity_var := 7;
     depth_var := 15;
     groundwater_var := 2.0;
     magnitude_var := 6.5;
     earthquake_group_var := str "1";
     soil_layer_entries :=
       [ (1.5, 12, 3.0); (4.5, 14, 3.0); (7.5, 16, 3.0);
         (10.5, 18, 3.0); (13.5, 20, 3.0) ] |}.

(** A layer as the site list keeps it: the keys ["ds"], ["N"] and
    ["content_value"]. *)
Record stored_layer : Type := {
  s_ds : R;
  s_N : R;
  s_content_value : R
}.

(** The five layers of [_create_default_site_data] and of
    [clear_manual_input]. *)
Definition default_stored_layers : list stored_layer :=
  [ {| s_ds := 1.5; s_N := 12; s_content_value := 3.0 |};
    {| s_ds := 4.5; s_N := 14; s_content_value := 3.0 |};
    {| s_ds := 7.5; s_N := 16; s_content_value := 3.0 |};
    {| s_ds := 10.5; s_N := 18; s_content_value := 3.0 |};
    {| s_ds := 13.5; s_N := 20; s_content_value := 3.0 |} ].

(** [add_soil_layer] on the layer list of the current site, for the content
    type read from the choice variable. *)
Definition add_soil_layer (content_type : pystr)
    (soil_layer_data : list stored_layer) : list stored_layer :=
  let last_ds :=
    match rev soil_layer_data with
    | last_layer :: _ => s_ds last_layer
    | [] => 1.5
    end in
  let new_ds := last_ds + 3.0 in
  let new_N := 12 + INR (List.length soil_layer_data) * 2 in
  let default_content :=
    if pystr_eqb content_type s_rho_c then 3.0 else 15.0 in
  soil_layer_data
  ++ [ {| s_ds := new_ds; s_N := new_N; s_content_value := default_content |} ].

(** [delete_last_layer]: a list of at most one layer is left as it is (a
    warning is shown), otherwise [pop()]. *)
Definition delete_last_layer (soil_layer_data : list stored_layer)
  : list stored_layer :=
  if Nat.leb (List.length soil_layer_data) 1 then soil_layer_data
  else removelast soil_layer_data.

(** The buttons of the layer frame. *)
Inductive layer_action : Type :=
| Add_layer (content_type : pystr)
| Delete_last_layer
| Clear_input.

Definition layer_step (soil_layer_data : list stored_layer)
    (a : layer_action) : list stored_layer :=
  match a with
  | Add_layer content_type => add_soil_layer content_type soil_layer_data
  | Delete_last_layer => delete_last_layer soil_layer_data
  | Clear_input => default_stored_layers
  end.

(** The layer of index [i] in the progression the defaults start. *)
Definition progression (i : nat) (l : stored_layer) : Prop :=
  s_ds l = 1.5 + 3.0 * INR i /\ s_N l = 12 + INR i * 2.

End Manual.

(** ** The import tab: building the data of a site from its rows *)

Module Imported.
Import Py Resolver Engine Checks Manual.
Local Open Scope R_scope.

(** A row of the group of a site, read through the recognized columns: the
    depth and the blow count, and the content and seismic parameter cells,
    which may be empty ([pd.notna] false). The seismic cell is that of the
    column of the selected seismic parameter; when the table has no such
    column there is no cell to read, see [batch_calculation]. *)
Record table_row : Type := {
  row_ds : R;
  row_N : R;
  row_content : option R;
  row_seismic : option R
}.

(** The parameters of the import tab. *)
Record import_inputs : Type := {
  import_acceleration_intensity_choice : pystr;
  import_particle_content_choice : pystr;
  import_beta_calculation_choice : pystr;
  import_depth_var : Z;
  import_groundwater_var : R;
  import_magnitude_var : R;
  import_earthquake_group_var : pystr
}.

(** [int(x)] on a float: truncation towards zero. *)
Definition py_int (x : R) : Z :=
  if Rle_dec 0 x then Int_part x else (- Int_part (- x))%Z.

(** [max(3.0, float(c)) if pd.notna(c) else 3.0], and with 15.0. *)
Definition imported_content (particle_content_choice : pystr)
    (cell : option R) : R :=
  match cell with
  | Some c => floored_content particle_content_choice c
  | None => if pystr_eqb particle_content_choice s_rho_c then 3.0 else 15.0
  end.

(** [float(v) if pd.notna(v) else 0.1] *)
Definition seismic_as_amax (cell : option R) : R :=
  match cell with Some v => v | None => 0.1 end.

(** [int(v) if pd.notna(v) else 7] *)
Definition seismic_as_intensity (cell : option R) : Z :=
  match cell with Some v => py_int v | None => 7%Z end.

(** The dictionary [import_calculation] passes to the calculation for a
    site whose rows are [earlier ++ [last]]. The seismic parameter of the site
    is the value left in [seismic_param_value] by the last pass of the loop. *)
Definition import_calculation_data (g : import_inputs)
    (earlier : list table_row) (last : table_row) : site_data :=
  let choice := import_acceleration_intensity_choice g in
  let particle_content_choice := import_particle_content_choice g in
  let layer (row : table_row) :=
    {| ds := row_ds row; SPT_N := row_N row;
       content_value := imported_content particle_content_choice (row_content row);
       seismic_param_value :=
         if pystr_eqb choice s_amax
         then seismic_as_amax (row_seismic row)
         else IZR (seismic_as_intensity (row_seismic row)) |} in
  {| acceleration_intensity_choice := choice;
     seismic_intensity :=
       if negb (pystr_eqb choice (str "intensity")) then 7%Z
       else seismic_as_intensity (row_seismic last);
     surface_peak_acceleration_amax :=
       if negb (pystr_eqb choice s_amax) then 0.1
       else seismic_as_amax (row_seismic last);
     discrimination_depth := import_depth_var g;
     groundwater_depth_dw := import_groundwater_var g;
     surface_wave_magnitude_Ms := import_magnitude_var g;
     design_earthquake_group := import_earthquake_group_var g;
     beta_calculation_method := import_beta_calculation_choice g;
     particle_content_choice := particle_content_choice;
     soil_layer_data := map layer (earlier ++ [last]) |}.

(** The dictionary [batch_calculate_all_imported_sites] builds for the same
    site when the column of the selected seismic parameter is recognized: an
    empty seismic cell is read as 0.1 whatever the choice, and the conversion
    is made once, on the value of the last row. *)
Definition batch_calculation_data (g : import_inputs)
    (earlier : list table_row) (last : table_row) : site_data :=
  let choice := import_acceleration_intensity_choice g in
  let particle_content_choice := import_particle_content_choice g in
  let layer (row : table_row) :=
    {| ds := row_ds row; SPT_N := row_N row;
       content_value := imported_content particle_content_choice (row_content row);
       seismic_param_value := seismic_as_amax (row_seismic row) |} in
  {| acceleration_intensity_choice := choice;
     seismic_intensity :=
       if negb (pystr_eqb choice (str "intensity")) then 7%Z
       else py_int (seismic_as_amax (row_seismic last));
     surface_peak_acceleration_amax :=
       if negb (pystr_eqb choice s_amax) then 0.1
       else seismic_as_amax (row_seismic last);
     discrimination_depth := import_depth_var g;
     groundwater_depth_dw := import_groundwater_var g;
     surface_wave_magnitude_Ms := import_magnitude_var g;
     design_earthquake_group := import_earthquake_group_var g;
     beta_calculation_method := import_beta_calculation_choice g;
     particle_content_choice := particle_content_choice;
     soil_layer_data := map layer (earlier ++ [last]) |}.




(** Two layers that agree on all the calculation reads. *)
Definition same_measurements (a b : soil_layer) : Prop :=
  ds a = ds b /\ SPT_N a = SPT_N b /\ content_value a = content_value b.

(** Two rows that differ at most in the seismic parameter cell. *)
Definition same_but_seismic (a b : table_row) : Prop :=
  row_ds a = row_ds b /\ row_N a = row_N b /\ row_content a = row_content b.

(** The parameters of the import tab after [clear_import], with a given
    seismic parameter choice. *)
Definition sample_import_inputs (choice : pystr) : import_inputs :=
  {| import_acceleration_intensity_choice := choice;
     import_particle_content_choice := s_rho_c;
     import_beta_calculation_choice := s_group;
     import_depth_var := 15;
     import_groundwater_var := 2.0;
     import_magnitude_var := 6.5;
     import_earthquake_group_var := str "1" |}.


(** A row with an empty content cell. *)
Definition sample_row (ds N : R) (seismic : option R) : table_row :=
  {| row_ds := ds; row_N := N; row_content := None; row_seismic := seismic |}.

(** The same row with another seismic cell. *)
Definition with_seismic_cell (row : table_row) (cell : option R) : table_row :=
  {| row_ds := row_ds row; row_N := row_N row;
     row_content := row_content row; row_seismic := cell |}.

End Imported.

(** * Properties *)

Import Py Resolver Engine Document Checks Scenarios Display Sheets Manual Imported.
Local Open Scope R_scope.

(** ** Facts about the Python operations *)

Section PyFacts.

Lemma max_Rmax (a b : R) : Py.max a b = Rmax a b.
Proof.
  unfold Py.max, Rmax.
  destruct (Rlt_dec a b), (Rle_dec a b); lra.
Qed.

Lemma min_Rmin (a b : R) : Py.min a b = Rmin a b.
Proof.
  unfold Py.min, Rmin.
  destruct (Rlt_dec b a), (Rle_dec a b); lra.
Qed.

Lemma div_defined (a b : R) : b <> 0 -> div a b = Ok (a / b).
Proof.
  intros Hb. unfold div. destruct (Req_dec_T b 0); [contradiction | reflexivity].
Qed.

Lemma div_inv (a b v : R) : div a b = Ok v -> b <> 0 /\ v = a / b.
Proof.
  unfold div. destruct (Req_dec_T b 0); [discriminate |].
  intros [= <-]. now split.
Qed.

Lemma div_raises (a b : R) (e : exn) :
  div a b = Raise e -> e = ZeroDivisionError.
Proof.
  unfold div. destruct (Req_dec_T b 0); [| discriminate]. now intros [= <-].
Qed.

Lemma sqrt_defined (x : R) : 0 <= x -> sqrt x = Ok (R_sqrt.sqrt x).
Proof.
  intros Hx. unfold sqrt. destruct (Rlt_dec x 0); [lra | reflexivity].
Qed.

Lemma sqrt_inv (x v : R) : sqrt x = Ok v -> 0 <= x /\ v = R_sqrt.sqrt x.
Proof.
  unfold sqrt. destruct (Rlt_dec x 0); [discriminate |].
  intros [= <-]. split; [lra | reflexivity].
Qed.

Lemma sqrt_raises (x : R) (e : exn) :
  sqrt x = Raise e -> e = ValueError MathDomainError.
Proof.
  unfold sqrt. destruct (Rlt_dec x 0); [| discriminate]. now intros [= <-].
Qed.

Lemma log_defined (x : R) : 0 < x -> log x = Ok (ln x).
Proof.
  intros Hx. unfold log. destruct (Rle_dec x 0); [lra | reflexivity].
Qed.

Lemma log_inv (x v : R) : log x = Ok v -> 0 < x /\ v = ln x.
Proof.
  unfold log. destruct (Rle_dec x 0); [discriminate |].
  intros [= <-]. split; [lra | reflexivity].
Qed.

Lemma bind_Ok {A B : Type} (m : result A) (k : A -> result B) (b : B) :
  bind m k = Ok b -> exists a, m = Ok a /\ k a = Ok b.
Proof.
  destruct m as [a | e]; simpl; [| discriminate]. intros H. now exists a.
Qed.

Lemma bind_Raise {A B : Type} (m : result A) (k : A -> result B) (e : exn) :
  bind m k = Raise e -> m = Raise e \/ exists a, m = Ok a /\ k a = Raise e.
Proof.
  destruct m as [a | e']; simpl.
  - intros H. right. now exists a.
  - intros [= ->]. now left.
Qed.

Lemma pystr_eqb_eq (a b : pystr) : pystr_eqb a b = true <-> a = b.
Proof.
  unfold pystr_eqb. destruct (list_eq_dec N.eq_dec a b); split; congruence.
Qed.

Lemma pystr_eqb_refl (a : pystr) : pystr_eqb a a = true.
Proof. now apply pystr_eqb_eq. Qed.

Lemma pystr_eqb_neq (a b : pystr) : pystr_eqb a b = false <-> a <> b.
Proof.
  unfold pystr_eqb. destruct (list_eq_dec N.eq_dec a b); split; congruence.
Qed.

End PyFacts.

(** ** The logistic curve of step 1.2 *)

Section Logistic.

Lemma logistic_pos (x : R) : 0 < 1 / (1 + exp x).
Proof.
  pose proof (exp_pos x). apply Rdiv_lt_0_compat; lra.
Qed.

Lemma logistic_lt_1 (x : R) : 1 / (1 + exp x) < 1.
Proof.
  pose proof (exp_pos x) as Hx.
  apply Rmult_lt_reg_r with (r := 1 + exp x); [lra |].
  unfold Rdiv. rewrite Rmult_assoc, Rinv_l; lra.
Qed.

Lemma logistic_decreasing (x y : R) :
  x < y -> 1 / (1 + exp y) < 1 / (1 + exp x).
Proof.
  intros Hxy.
  pose proof (exp_pos x) as Hx. pose proof (exp_increasing x y Hxy) as Hinc.
  unfold Rdiv. rewrite !Rmult_1_l.
  apply Rinv_lt_contravar; [| lra].
  apply Rmult_lt_0_compat; lra.
Qed.

(** Step 1.2 below the overflow threshold: the division is defined and the
    clamp to [0, 1] changes nothing. *)
Lemma step_PL_value (N Ncr : R) :
  0.32 * (N - Ncr) <= exp_max ->
  step_PL N Ncr = Ok (1 / (1 + exp (0.32 * (N - Ncr)))).
Proof.
  intros Hx. unfold step_PL, math_exp.
  destruct (Rlt_dec exp_max (0.32 * (N - Ncr))) as [Hover | _]; [lra |].
  simpl.
  pose proof (exp_pos (0.32 * (N - Ncr))) as He.
  pose proof (logistic_pos (0.32 * (N - Ncr))) as Hp.
  pose proof (logistic_lt_1 (0.32 * (N - Ncr))) as Hq.
  replace 1.0 with 1 by lra.
  rewrite div_defined by lra. simpl.
  rewrite max_Rmax, min_Rmin, Rmin_right, Rmax_right; [reflexivity | lra | lra].
Qed.

(** Step 1.2 is decided by the exponent: a probability up to [exp_max], the
    [OverflowError] of [math.exp] above it. *)
Lemma step_PL_cases (N Ncr : R) :
  (0.32 * (N - Ncr) <= exp_max /\
   step_PL N Ncr = Ok (1 / (1 + exp (0.32 * (N - Ncr))))) \/
  (exp_max < 0.32 * (N - Ncr) /\ step_PL N Ncr = Raise OverflowError).
Proof.
  destruct (Rle_dec (0.32 * (N - Ncr)) exp_max) as [Hx | Hx].
  - left. split; [exact Hx | now apply step_PL_value].
  - right. split; [lra |]. unfold step_PL, math_exp.
    destruct (Rlt_dec exp_max (0.32 * (N - Ncr))); [reflexivity | lra].
Qed.

Lemma step_PL_inv (N Ncr p : R) :
  step_PL N Ncr = Ok p ->
  0.32 * (N - Ncr) <= exp_max /\ p = 1 / (1 + exp (0.32 * (N - Ncr))).
Proof.
  intros H. destruct (step_PL_cases N Ncr) as [[Hx E] | [_ E]];
    rewrite E in H; [| discriminate].
  injection H as <-. now split.
Qed.

Lemma step_PL_raises (N Ncr : R) (e : exn) :
  step_PL N Ncr = Raise e -> e = OverflowError /\ exp_max < 0.32 * (N - Ncr).
Proof.
  intros H. destruct (step_PL_cases N Ncr) as [[_ E] | [Hx E]];
    rewrite E in H; [discriminate |].
  injection H as <-. now split.
Qed.

(** A blow count of at most 2000 stays below the threshold, the critical
    value being floored at 1. *)
Lemma exponent_below_exp_max (N Ncr0 : R) :
  N <= 2000 -> 0.32 * (N - Py.max 1.0 Ncr0) <= exp_max.
Proof.
  intros HN. rewrite max_Rmax. pose proof (Rmax_l 1.0 Ncr0).
  unfold exp_max. lra.
Qed.

End Logistic.

(** ** One pass of the layer loop *)

Section LayerStep.

Variable data : site_data.
Variables beta amax : R.
Variable N_prime : Z.

(** Step 1.3 never raises on a probability. *)
Lemma step_Ncr_PL_defined (N Ncr PL : R) :
  0 <= PL <= 1 -> exists v, step_Ncr_PL N Ncr PL = Ok v.
Proof.
  intros HPL. unfold step_Ncr_PL.
  destruct (Rle_dec PL 0.001) as [Hlo | Hlo]; [eexists; reflexivity |].
  destruct (Rge_dec PL 0.999) as [Hhi | Hhi]; [eexists; reflexivity |].
  assert (Hden : 1.0 - PL <> 0) by lra.
  rewrite (div_defined PL _ Hden). simpl.
  assert (Hodds : 0 < PL / (1.0 - PL)) by (apply Rdiv_lt_0_compat; lra).
  rewrite (log_defined _ Hodds). simpl.
  rewrite div_defined by lra. simpl. eexists; reflexivity.
Qed.

(** The three branches of step 1.3, with the floor. *)
Lemma step_Ncr_PL_cases (N Ncr PL v : R) :
  step_Ncr_PL N Ncr PL = Ok v ->
  (PL <= 0.001 -> v = Rmax 0.1 (N + 20.0)) /\
  (PL >= 0.999 -> v = Rmax 0.1 (N - 20.0)) /\
  (0.001 < PL < 0.999 -> v = Rmax 0.1 (Ncr - ln (PL / (1 - PL)) / 0.32)).
Proof.
  unfold step_Ncr_PL. intros H.
  destruct (Rle_dec PL 0.001) as [Hlo | Hlo].
  - simpl in H. injection H as <-. rewrite max_Rmax. repeat split; intros; lra.
  - destruct (Rge_dec PL 0.999) as [Hhi | Hhi].
    + simpl in H. injection H as <-. rewrite max_Rmax. repeat split; intros; lra.
    + apply bind_Ok in H as (w & Hw & H). injection H as <-.
      apply bind_Ok in Hw as (odds & Hodds & Hw).
      apply bind_Ok in Hw as (l & Hl & Hw).
      apply bind_Ok in Hw as (q & Hq & Hw). injection Hw as <-.
      apply div_inv in Hodds as [_ ->]. apply log_inv in Hl as [_ ->].
      apply div_inv in Hq as [_ ->].
      rewrite max_Rmax. replace (1.0 - PL) with (1 - PL) by lra.
      repeat split; intros; lra.
Qed.

Lemma step_Ncr_PL_floor (N Ncr PL v : R) :
  step_Ncr_PL N Ncr PL = Ok v -> 0.1 <= v.
Proof.
  unfold step_Ncr_PL. intros H.
  apply bind_Ok in H as (w & _ & H). injection H as <-.
  rewrite max_Rmax. apply Rmax_l.
Qed.

Lemma step_wi_cases (ds : R) :
  (ds <= 5 -> step_wi ds = 10.0) /\
  (5 < ds <= 15 -> step_wi ds = 5.0) /\
  (15 < ds <= 20 -> step_wi ds = 2.0) /\
  (20 < ds -> step_wi ds = 0.0).
Proof.
  unfold step_wi.
  destruct (Rle_dec ds 5), (Rle_dec ds 15), (Rle_dec ds 20);
    repeat split; intros; lra.
Qed.

Lemma step_wi_values (ds : R) :
  step_wi ds = 0 \/ step_wi ds = 2 \/ step_wi ds = 5 \/ step_wi ds = 10.
Proof.
  unfold step_wi.
  destruct (Rle_dec ds 5), (Rle_dec ds 15), (Rle_dec ds 20); lra.
Qed.

Lemma soil_layer_step_inv (soil : soil_layer) (d : layer_detail) :
  soil_layer_step data beta amax N_prime soil = Ok d ->
  step_result data beta amax N_prime soil d.
Proof.
  unfold soil_layer_step. intros H.
  apply bind_Ok in H as (Ncr0 & HNcr0 & H).
  apply bind_Ok in H as (p & Hp & H).
  apply bind_Ok in H as (v & Hv & H). injection H as <-.
  apply step_PL_inv in Hp as [_ ->].
  rewrite max_Rmax in *. replace 1.0 with 1 in * by lra.
  constructor; simpl; try reflexivity; try assumption.
  exists Ncr0. now split.
Qed.

(** A pass succeeds as soon as the critical value is defined and the
    exponent of step 1.2 does not overflow. *)
Lemma soil_layer_step_defined (soil : soil_layer) (Ncr0 : R) :
  step_Ncr data beta amax N_prime soil = Ok Ncr0 ->
  0.32 * (SPT_N soil - Py.max 1.0 Ncr0) <= exp_max ->
  exists d, soil_layer_step data beta amax N_prime soil = Ok d.
Proof.
  intros H Hx. unfold soil_layer_step. rewrite H. simpl.
  rewrite step_PL_value by exact Hx. simpl.
  set (p := 1 / (1 + exp (0.32 * (SPT_N soil - Py.max 1.0 Ncr0)))).
  destruct (step_Ncr_PL_defined (SPT_N soil) (Py.max 1.0 Ncr0) p) as [v Hv].
  { pose proof (logistic_pos (0.32 * (SPT_N soil - Py.max 1.0 Ncr0))).
    pose proof (logistic_lt_1 (0.32 * (SPT_N soil - Py.max 1.0 Ncr0))).
    unfold p. lra. }
  rewrite Hv. simpl. eexists; reflexivity.
Qed.

(** The only exceptions of a pass come from step 1.1, or are the overflow
    of step 1.2 on a blow count above 2000. *)
Lemma soil_layer_step_raises (soil : soil_layer) (e : exn) :
  soil_layer_step data beta amax N_prime soil = Raise e ->
  step_Ncr data beta amax N_prime soil = Raise e \/
  (e = OverflowError /\ 2000 < SPT_N soil).
Proof.
  intros H. destruct (step_Ncr data beta amax N_prime soil) as [Ncr0 |] eqn:E.
  - right.
    destruct (step_PL_cases (SPT_N soil) (Py.max 1.0 Ncr0))
      as [[Hx _] | [Hx Hover]].
    + destruct (soil_layer_step_defined soil Ncr0 E Hx) as [d Hd]. congruence.
    + unfold soil_layer_step in H. rewrite E in H. simpl in H.
      rewrite Hover in H. simpl in H. injection H as <-.
      split; [reflexivity |].
      destruct (Rlt_dec 2000 (SPT_N soil)) as [HN | HN]; [exact HN |].
      pose proof (exponent_below_exp_max (SPT_N soil) Ncr0 ltac:(lra)). lra.
  - left. unfold soil_layer_step in H. rewrite E in H. simpl in H. congruence.
Qed.

Lemma step_Ncr_raises (soil : soil_layer) (e : exn) :
  step_Ncr data beta amax N_prime soil = Raise e ->
  e = ZeroDivisionError \/ e = ValueError MathDomainError.
Proof.
  unfold step_Ncr. intros H.
  repeat match type of H with
  | (if ?c then _ else _) = _ => destruct c
  | bind _ _ = Raise _ => apply bind_Raise in H; destruct H as [H | (? & ? & H)]
  | div _ _ = Raise _ => apply div_raises in H; auto
  | sqrt _ = Raise _ => apply sqrt_raises in H; auto
  | Ok _ = Raise _ => discriminate H
  end.
Qed.

End LayerStep.

(** ** The layer loop and the whole calculation *)

Section Loop.

Variable data : site_data.
Variables beta amax : R.
Variable N_prime : Z.

Let step := soil_layer_step data beta amax N_prime.
Let loop := soil_layer_loop data beta amax N_prime.

Lemma soil_layer_loop_Ok (layers : list soil_layer) :
  forall total details t details',
    loop layers total details = Ok (t, details') ->
    exists new,
      details' = details ++ new /\
      Forall2 (fun soil d => step soil = Ok d) layers new /\
      t = total + sum_contributions new.
Proof.
  induction layers as [| soil rest IH]; intros total details t details' H.
  - injection H as <- <-. exists []. rewrite app_nil_r. simpl.
    repeat split; [constructor | lra].
  - cbn in H. apply bind_Ok in H as (d & Hd & H).
    apply IH in H as (new & -> & Hall & ->).
    exists (d :: new). rewrite <- app_assoc. simpl.
    repeat split; [now constructor | lra].
Qed.

Lemma soil_layer_loop_defined (layers : list soil_layer) :
  Forall (fun soil => exists d, step soil = Ok d) layers ->
  forall total details, exists out, loop layers total details = Ok out.
Proof.
  induction 1 as [| soil rest [d Hd] _ IH]; intros total details.
  - eexists; reflexivity.
  - cbn. fold step. rewrite Hd. cbn. apply IH.
Qed.

Lemma soil_layer_loop_raises (layers : list soil_layer) :
  forall total details e,
    loop layers total details = Raise e ->
    Exists (fun soil => step soil = Raise e) layers.
Proof.
  induction layers as [| soil rest IH]; intros total details e H.
  - discriminate.
  - cbn in H. apply bind_Raise in H as [H | (d & Hd & H)].
    + now constructor.
    + apply Exists_cons_tl. eapply IH, H.
Qed.

End Loop.

Section Calculation.

Variable data : site_data.

Lemma calculate_inv (r : site_result) :
  calculate_liquefaction_index data = Ok r -> calculation data r.
Proof.
  unfold calculate_liquefaction_index. intros H.
  apply bind_Ok in H as ([amax N_prime] & Hs & H).
  apply bind_Ok in H as ([total details] & Hl & H). injection H as <-.
  apply soil_layer_loop_Ok in Hl as (new & -> & Hall & ->). simpl in *.
  constructor; simpl; try reflexivity.
  - now exists amax, N_prime.
  - lra.
Qed.

(** Step 2 on its own. *)
Lemma step2_amax_mode :
  acceleration_intensity_choice data = s_amax ->
  let amax := surface_peak_acceleration_amax data in
  (0.09 <= amax <= 0.41 -> step2_seismic data = Ok (amax, 16%Z)) /\
  (amax < 0.09 \/ 0.41 < amax ->
   step2_seismic data = Raise (ValueError (AmaxOutOfRange amax))).
Proof.
  intros Hmode amax. unfold step2_seismic. rewrite Hmode, pystr_eqb_refl.
  fold amax.
  destruct (Rle_dec 0.09 amax), (Rle_dec amax 0.41); split; intros; try lra;
    reflexivity.
Qed.

Lemma step2_intensity_mode :
  acceleration_intensity_choice data <> s_amax ->
  step2_seismic data
  = Ok (intensity_amax (seismic_intensity data),
        intensity_N_prime (intensity_amax (seismic_intensity data))).
Proof.
  intros Hmode. unfold step2_seismic.
  apply pystr_eqb_neq in Hmode. now rewrite Hmode.
Qed.

(** The derived peak acceleration is one of the three table values. *)
Lemma intensity_amax_values (i : Z) :
  intensity_amax i = 0.1 \/ intensity_amax i = 0.2 \/ intensity_amax i = 0.4.
Proof.
  unfold intensity_amax, dict_get_default, amax_mapping, dict_get.
  destruct (Z.eqb 7 i); [now left |].
  destruct (Z.eqb 8 i); [now (right; left) |].
  destruct (Z.eqb 9 i); [now (right; right) | now left].
Qed.

Lemma step2_amax_nonneg (amax : R) (N_prime : Z) :
  step2_seismic data = Ok (amax, N_prime) -> 0.09 <= amax <= 0.41.
Proof.
  unfold step2_seismic.
  destruct (pystr_eqb _ _).
  - destruct (Rle_dec 0.09 _); [| discriminate].
    destruct (Rle_dec _ 0.41); [| discriminate].
    intros [= <- _]. lra.
  - intros [= <- _].
    destruct (intensity_amax_values (seismic_intensity data)) as [-> | [-> | ->]];
      lra.
Qed.

(** Step 1.1 is defined on a layer with a positive depth and a content
    value at its floor or above. *)
Lemma step_Ncr_defined (beta amax : R) (N_prime : Z) (soil : soil_layer) :
  0 <= amax -> 0 < ds soil ->
  (if pystr_eqb (particle_content_choice data) s_rho_c
   then 3 <= content_value soil else 15 <= content_value soil) ->
  exists v, step_Ncr data beta amax N_prime soil = Ok v.
Proof.
  intros Hamax Hds Hcontent. unfold step_Ncr.
  destruct (pystr_eqb (acceleration_intensity_choice data) s_amax).
  - rewrite div_defined by lra. simpl.
    rewrite div_defined by lra. simpl.
    destruct (pystr_eqb (particle_content_choice data) s_rho_c).
    + rewrite div_defined by lra. simpl.
      rewrite sqrt_defined; [simpl; eexists; reflexivity |].
      apply Rlt_le, Rdiv_lt_0_compat; lra.
    + rewrite div_defined by lra. simpl.
      rewrite sqrt_defined; [simpl; eexists; reflexivity |].
      apply Rlt_le, Rdiv_lt_0_compat; lra.
  - rewrite div_defined by lra. simpl. eexists; reflexivity.
Qed.

(** A valid site is calculated without an exception. *)
Lemma calculate_defined :
  valid_site data -> exists r, calculate_liquefaction_index data = Ok r.
Proof.
  intros [Hamax Hlayers]. unfold calculate_liquefaction_index.
  assert (Hs : exists amax N_prime, step2_seismic data = Ok (amax, N_prime)).
  { destruct (list_eq_dec N.eq_dec (acceleration_intensity_choice data) s_amax)
      as [Hmode | Hmode].
    - destruct (step2_amax_mode Hmode) as [Hok _]. eauto.
    - rewrite (step2_intensity_mode Hmode). eauto. }
  destruct Hs as (amax & N_prime & Hs). rewrite Hs. simpl.
  pose proof (step2_amax_nonneg _ _ Hs) as Hrange.
  destruct (soil_layer_loop_defined data (step1_beta data) amax N_prime
              (soil_layer_data data)) with (total := 0.0) (details := @nil layer_detail)
    as [[total details] Hloop].
  { eapply Forall_impl; [| exact Hlayers].
    intros soil (Hds & HN & Hcontent).
    destruct (step_Ncr_defined (step1_beta data) amax N_prime soil) as [v Hv];
      [lra | assumption | assumption |].
    eapply soil_layer_step_defined; [exact Hv |].
    apply exponent_below_exp_max, HN. }
  rewrite Hloop. simpl. eexists; reflexivity.
Qed.

(** An exception of the calculation that is not the range error of step 2
    comes out of step 1.1 of a layer, or is the overflow of step 1.2 on a
    layer whose blow count exceeds 2000. *)
Lemma calculate_raises (e : exn) :
  calculate_liquefaction_index data = Raise e ->
  step2_seismic data = Raise e \/
  e = ZeroDivisionError \/ e = ValueError MathDomainError \/
  (e = OverflowError /\ Exists (fun soil => 2000 < SPT_N soil)
                           (soil_layer_data data)).
Proof.
  unfold calculate_liquefaction_index. intros H.
  apply bind_Raise in H as [H | ([amax N_prime] & Hs & H)]; [now left | right].
  apply bind_Raise in H as [H | ([total details] & _ & H)]; [| discriminate].
  apply soil_layer_loop_raises in H.
  apply Exists_exists in H as (soil & Hin & H).
  apply soil_layer_step_raises in H as [H | [-> HN]].
  - apply step_Ncr_raises in H as [-> | ->]; auto.
  - right; right. split; [reflexivity |].
    apply Exists_exists. now exists soil.
Qed.

(** Step 2 raises in amax mode only, on a peak acceleration out of range. *)
Lemma step2_seismic_raises (e : exn) :
  step2_seismic data = Raise e ->
  let amax := surface_peak_acceleration_amax data in
  e = ValueError (AmaxOutOfRange amax) /\
  acceleration_intensity_choice data = s_amax /\
  ~ 0.09 <= amax <= 0.41.
Proof.
  intros H amax.
  destruct (list_eq_dec N.eq_dec (acceleration_intensity_choice data) s_amax)
    as [Hmode | Hmode].
  - destruct (step2_amax_mode Hmode) as [Hin Hout]. fold amax in Hin, Hout.
    destruct (Rle_dec 0.09 amax) as [H1 | H1];
      [destruct (Rle_dec amax 0.41) as [H2 | H2] |].
    + rewrite Hin in H by lra. discriminate H.
    + rewrite Hout in H by lra. injection H as <-. repeat split; [exact Hmode | lra].
    + rewrite Hout in H by lra. injection H as <-. repeat split; [exact Hmode | lra].
  - rewrite (step2_intensity_mode Hmode) in H. discriminate H.
Qed.

(** The outcome of the calculation on layers with positive depths and
    contents at their floor or above: the only exceptions are the range error
    of step 2 and the overflow of step 1.2 on a blow count above 2000; with
    blow counts of at most 2000 the calculation returns exactly when the
    range test passes. *)
Lemma calculate_outcome :
  Forall (fun soil =>
            0 < ds soil /\
            (if pystr_eqb (particle_content_choice data) s_rho_c
             then 3 <= content_value soil else 15 <= content_value soil))
         (soil_layer_data data) ->
  let amax := surface_peak_acceleration_amax data in
  (forall e,
      calculate_liquefaction_index data = Raise e ->
      (e = ValueError (AmaxOutOfRange amax) /\
       acceleration_intensity_choice data = s_amax /\
       ~ 0.09 <= amax <= 0.41) \/
      (e = OverflowError /\
       Exists (fun soil => 2000 < SPT_N soil) (soil_layer_data data))) /\
  (Forall (fun soil => SPT_N soil <= 2000) (soil_layer_data data) ->
   ((exists r, calculate_liquefaction_index data = Ok r) <->
    (acceleration_intensity_choice data = s_amax -> 0.09 <= amax <= 0.41))).
Proof.
  intros Hlayers amax. split.
  - intros e H. unfold calculate_liquefaction_index in H.
    apply bind_Raise in H as [H | ([amax' N_prime] & Hs & H)];
      [left; now apply step2_seismic_raises |].
    apply bind_Raise in H as [H | ([total details] & _ & H)]; [| discriminate].
    apply soil_layer_loop_raises in H.
    apply Exists_exists in H as (soil & Hin & H).
    apply soil_layer_step_raises in H as [H | [-> HN]].
    + exfalso. rewrite Forall_forall in Hlayers.
      destruct (Hlayers soil Hin) as [Hds Hcontent].
      pose proof (step2_amax_nonneg _ _ Hs) as Hrange.
      destruct (step_Ncr_defined (step1_beta data) amax' N_prime soil)
        as [v Hv]; [lra | assumption | assumption |].
      congruence.
    + right. split; [reflexivity |]. apply Exists_exists. now exists soil.
  - intros HN. split.
    + intros [r Hr] Hmode.
      destruct (step2_amax_mode Hmode) as [_ Hout]. fold amax in Hout.
      destruct (Rle_dec 0.09 amax) as [H1 | H1];
        [destruct (Rle_dec amax 0.41) as [H2 | H2]; [lra |] |];
        exfalso; unfold calculate_liquefaction_index in Hr;
        rewrite Hout in Hr by lra; discriminate Hr.
    + intros Hrange. apply calculate_defined. split; [exact Hrange |].
      rewrite Forall_forall in *. intros soil Hin.
      destruct (Hlayers soil Hin) as [Hds Hcontent].
      split; [exact Hds |]. split; [now apply HN | exact Hcontent].
Qed.

End Calculation.

(** ** The sample sites *)

Section Samples.

Lemma default_layers_valid (data : site_data) :
  particle_content_choice data = s_rho_c ->
  Forall (valid_layer data) default_layers.
Proof.
  intros Hc. unfold default_layers.
  repeat constructor; unfold valid_layer; rewrite ?Hc, ?pystr_eqb_refl;
    simpl; lra.
Qed.

Lemma with_amax_valid (amax : R) :
  0.09 <= amax <= 0.41 -> valid_site (with_amax default_site_data amax).
Proof.
  intros Hr. split; [intros _; exact Hr |].
  now apply default_layers_valid.
Qed.

Lemma default_site_valid : valid_site default_site_data.
Proof.
  split; [intros _; simpl; lra |]. now apply default_layers_valid.
Qed.

Lemma intensity_site_valid (i : Z) : valid_site (intensity_site_data i).
Proof.
  split; [intros H; discriminate H |]. now apply default_layers_valid.
Qed.

Lemma intensity_site_mode (i : Z) :
  acceleration_intensity_choice (intensity_site_data i) <> s_amax.
Proof. discriminate. Qed.

End Samples.

(** Case analysis on the equality tests of a float-keyed lookup. *)
Ltac decide_keys :=
  repeat match goal with
  | |- context [Req_dec_T ?a ?b] => destruct (Req_dec_T a b); try lra
  end.

(** ** Step 2 in amax mode: the range test *)

(** The spec sentence for C1 rejects the two bounds themselves. The test in
    the source is [not (0.09 <= amax <= 0.41)], so a peak acceleration of
    exactly 0.09 g or 0.41 g passes and the default layers are calculated. *)
Lemma amax_bounds_accepted :
  (exists r, calculate_liquefaction_index (with_amax default_site_data 0.09) = Ok r) /\
  (exists r, calculate_liquefaction_index (with_amax default_site_data 0.41) = Ok r) /\
  (forall e, calculate_liquefaction_index (with_amax default_site_data 0.09) <> Raise e) /\
  (forall e, calculate_liquefaction_index (with_amax default_site_data 0.41) <> Raise e).
Proof.
  destruct (calculate_defined _ (with_amax_valid 0.09 ltac:(lra))) as [r1 H1].
  destruct (calculate_defined _ (with_amax_valid 0.41 ltac:(lra))) as [r2 H2].
  repeat split; eauto; intros e He; congruence.
Qed.

(** C1, as the code has it: in amax mode the calculation raises the range
    [ValueError] exactly when [amax < 0.09] or [amax > 0.41], the closed
    interval [0.09, 0.41] being accepted; on layers that are valid (positive
    depth, blow count at most 2000 so that [math.exp] does not overflow,
    content at its floor or above) the calculation then returns a result
    exactly for [0.09 <= amax <= 0.41], in particular for 0.10 and 0.40. *)
Theorem amax_range_check (data : site_data) :
  acceleration_intensity_choice data = s_amax ->
  let amax := surface_peak_acceleration_amax data in
  (calculate_liquefaction_index data = Raise (ValueError (AmaxOutOfRange amax))
   <-> amax < 0.09 \/ 0.41 < amax) /\
  (Forall (valid_layer data) (soil_layer_data data) ->
   ((exists r, calculate_liquefaction_index data = Ok r) <-> 0.09 <= amax <= 0.41)).
Proof.
  intros Hmode amax.
  destruct (step2_amax_mode data Hmode) as [Hin Hout]. fold amax in Hin, Hout.
  assert (Hraise : amax < 0.09 \/ 0.41 < amax ->
            calculate_liquefaction_index data
            = Raise (ValueError (AmaxOutOfRange amax))).
  { intros H. unfold calculate_liquefaction_index. now rewrite (Hout H). }
  split; [split |].
  - intros H.
    apply calculate_raises in H as [H | [H | [H | [H _]]]]; try discriminate.
    destruct (Rle_dec 0.09 amax); [| lra].
    destruct (Rle_dec amax 0.41); [| lra].
    rewrite Hin in H by lra. discriminate.
  - exact Hraise.
  - intros Hlayers. split.
    + intros [r Hr].
      destruct (Rle_dec 0.09 amax); [| rewrite Hraise in Hr by lra; discriminate].
      destruct (Rle_dec amax 0.41); [| rewrite Hraise in Hr by lra; discriminate].
      lra.
    + intros Hr. apply calculate_defined. split; [intros _; exact Hr | exact Hlayers].
Qed.

(** The range check at 0.10 g, 0.40 g, 0.09 g and 0.41 g on the default
    layers, and at 0.08 g and 0.42 g. *)
Lemma amax_range_check_witness :
  (exists r, calculate_liquefaction_index (with_amax default_site_data 0.10) = Ok r) /\
  (exists r, calculate_liquefaction_index (with_amax default_site_data 0.40) = Ok r) /\
  calculate_liquefaction_index (with_amax default_site_data 0.08)
  = Raise (ValueError (AmaxOutOfRange 0.08)) /\
  calculate_liquefaction_index (with_amax default_site_data 0.42)
  = Raise (ValueError (AmaxOutOfRange 0.42)).
Proof.
  repeat split.
  - apply (amax_range_check (with_amax default_site_data 0.10) eq_refl).
    + now apply default_layers_valid.
    + simpl. lra.
  - apply (amax_range_check (with_amax default_site_data 0.40) eq_refl).
    + now apply default_layers_valid.
    + simpl. lra.
  - apply (amax_range_check (with_amax default_site_data 0.08) eq_refl).
    simpl. lra.
  - apply (amax_range_check (with_amax default_site_data 0.42) eq_refl).
    simpl. lra.
Defined.

(** ** Step 1: the coefficient beta *)

(** C6: with the method "group", group "1" gives 0.80, "2" gives 0.95, "3"
    gives 1.05 and every other group value gives 0.80; with any other method
    beta is [0.20 * Ms - 0.50] clamped into [0.80, 1.05]. Step 1 has no
    raising operation, and the returned dictionary reports this beta. *)
Theorem beta_coefficient (data : site_data) :
  (beta_calculation_method data = s_group ->
     (design_earthquake_group data = str "1" -> step1_beta data = 0.80) /\
     (design_earthquake_group data = str "2" -> step1_beta data = 0.95) /\
     (design_earthquake_group data = str "3" -> step1_beta data = 1.05) /\
     (design_earthquake_group data <> str "1" ->
      design_earthquake_group data <> str "2" ->
      design_earthquake_group data <> str "3" -> step1_beta data = 0.80)) /\
  (beta_calculation_method data <> s_group ->
     step1_beta data
     = Rmax 0.80 (Rmin 1.05 (0.20 * surface_wave_magnitude_Ms data - 0.50)) /\
     0.80 <= step1_beta data <= 1.05) /\
  (forall r, calculate_liquefaction_index data = Ok r ->
     design_earthquake_adjustment_coefficient_beta r = step1_beta data).
Proof.
  split; [| split].
  - intros Hm. unfold step1_beta. rewrite Hm, pystr_eqb_refl.
    split; [| split; [| split]].
    + now intros ->.
    + now intros ->.
    + now intros ->.
    + intros H1 H2 H3.
      apply pystr_eqb_neq in H1, H2, H3. now rewrite H1, H2, H3.
  - intros Hm. unfold step1_beta. apply pystr_eqb_neq in Hm. rewrite Hm.
    rewrite max_Rmax, min_Rmin. split; [reflexivity |]. split.
    + apply Rmax_l.
    + apply Rmax_lub; [lra | apply Rmin_l].
  - intros r Hr. now destruct (calculate_inv data r Hr).
Qed.

(** Beta of the default site (group "1"), of the same site with the formula
    method at Ms = 7.0, and the value the result reports. *)
Lemma beta_coefficient_witness :
  step1_beta default_site_data = 0.80 /\
  step1_beta (with_beta_inputs default_site_data (str "formula") (str "1") 7.0 0.1)
  = Rmax 0.80 (Rmin 1.05 (0.20 * 7.0 - 0.50)) /\
  exists r, calculate_liquefaction_index default_site_data = Ok r /\
            design_earthquake_adjustment_coefficient_beta r = 0.80.
Proof.
  destruct (beta_coefficient default_site_data) as (Hgroup & _ & Hres).
  destruct (Hgroup eq_refl) as (H1 & _).
  split; [apply H1; reflexivity |]. split.
  - destruct (beta_coefficient
                (with_beta_inputs default_site_data (str "formula") (str "1") 7.0 0.1))
      as (_ & Hformula & _).
    apply Hformula. discriminate.
  - destruct (calculate_defined _ default_site_valid) as [r Hr].
    exists r. split; [exact Hr |].
    rewrite (Hres r Hr). apply H1. reflexivity.
Defined.

(** ** Step 2 in intensity mode: the two tables *)

Lemma intensity_amax_table :
  intensity_amax 7 = 0.10 /\ intensity_amax 8 = 0.20 /\ intensity_amax 9 = 0.40 /\
  forall i : Z, i <> 7%Z -> i <> 8%Z -> i <> 9%Z -> intensity_amax i = 0.10.
Proof.
  repeat split; try (unfold intensity_amax, dict_get_default; simpl; lra).
  intros i H7 H8 H9.
  unfold intensity_amax, dict_get_default, amax_mapping, dict_get.
  destruct (Z.eqb_spec 7 i); [congruence |].
  destruct (Z.eqb_spec 8 i); [congruence |].
  destruct (Z.eqb_spec 9 i); [congruence | lra].
Qed.

Lemma intensity_N_prime_table :
  intensity_N_prime 0.10 = 16%Z /\ intensity_N_prime 0.15 = 20%Z /\
  intensity_N_prime 0.20 = 23%Z /\ intensity_N_prime 0.30 = 31%Z /\
  intensity_N_prime 0.40 = 37%Z /\
  forall amax : R,
    amax <> 0.10 -> amax <> 0.15 -> amax <> 0.20 -> amax <> 0.30 -> amax <> 0.40 ->
    intensity_N_prime amax = 16%Z.
Proof.
  unfold intensity_N_prime, dict_get_default, N_prime_mapping, dict_get, Req_bool.
  repeat split; intros; decide_keys; reflexivity.
Qed.

(** C7: in intensity mode step 2 cannot raise; amax is read from the table
    7 -> 0.10, 8 -> 0.20, 9 -> 0.40 with 0.10 for any other intensity, and N'
    from the table 0.10 -> 16, 0.15 -> 20, 0.20 -> 23, 0.30 -> 31, 0.40 -> 37
    with 16 for an amax that is no key. So intensity 7 gives N' = 16, 8 gives
    23, 9 gives 37 and any other intensity gives amax = 0.10 and N' = 16. *)
Theorem intensity_mode_parameters (data : site_data) :
  acceleration_intensity_choice data <> s_amax ->
  let i := seismic_intensity data in
  exists amax N_prime,
    step2_seismic data = Ok (amax, N_prime) /\
    amax = intensity_amax i /\
    N_prime = intensity_N_prime amax /\
    (i = 7%Z -> amax = 0.10 /\ N_prime = 16%Z) /\
    (i = 8%Z -> amax = 0.20 /\ N_prime = 23%Z) /\
    (i = 9%Z -> amax = 0.40 /\ N_prime = 37%Z) /\
    (i <> 7%Z -> i <> 8%Z -> i <> 9%Z -> amax = 0.10 /\ N_prime = 16%Z) /\
    intensity_N_prime 0.10 = 16%Z /\ intensity_N_prime 0.15 = 20%Z /\
    intensity_N_prime 0.20 = 23%Z /\ intensity_N_prime 0.30 = 31%Z /\
    intensity_N_prime 0.40 = 37%Z /\
    (forall a : R,
        a <> 0.10 -> a <> 0.15 -> a <> 0.20 -> a <> 0.30 -> a <> 0.40 ->
        intensity_N_prime a = 16%Z).
Proof.
  intros Hmode i.
  destruct intensity_amax_table as (A7 & A8 & A9 & Aother).
  pose proof intensity_N_prime_table as Htable.
  destruct Htable as (N10 & _ & N20 & _ & N40 & _).
  exists (intensity_amax i), (intensity_N_prime (intensity_amax i)).
  split; [now apply step2_intensity_mode |].
  split; [reflexivity |]. split; [reflexivity |].
  split; [| split; [| split; [| split; [| exact intensity_N_prime_table]]]].
  - intros ->. now rewrite A7, N10.
  - intros ->. now rewrite A8, N20.
  - intros ->. now rewrite A9, N40.
  - intros H7 H8 H9. now rewrite (Aother i H7 H8 H9), N10.
Qed.

(** Step 2 of the default site switched to intensity 8, and to the
    intensity 6 that is in no table. *)
Lemma intensity_mode_parameters_witness :
  step2_seismic (intensity_site_data 8) = Ok (0.20, 23%Z) /\
  step2_seismic (intensity_site_data 6) = Ok (0.10, 16%Z).
Proof.
  split.
  - destruct (intensity_mode_parameters (intensity_site_data 8)
                (intensity_site_mode 8))
      as (amax & N_prime & Hs & _ & _ & _ & H8 & _).
    destruct (H8 eq_refl) as [-> ->]. exact Hs.
  - destruct (intensity_mode_parameters (intensity_site_data 6)
                (intensity_site_mode 6))
      as (amax & N_prime & Hs & _ & _ & _ & _ & _ & Hother & _).
    destruct Hother as [-> ->]; try discriminate. exact Hs.
Defined.

(** ** Step 1.1: the critical blow count *)

Lemma step_Ncr_inv (data : site_data) (beta amax : R) (N_prime : Z)
    (soil : soil_layer) (v : R) :
  step_Ncr data beta amax N_prime soil = Ok v ->
  v = Ncr_formula
        (pystr_eqb (acceleration_intensity_choice data) s_amax)
        (pystr_eqb (particle_content_choice data) s_rho_c)
        beta amax (IZR N_prime)
        (groundwater_depth_dw data) (ds soil) (content_value soil).
Proof.
  unfold step_Ncr, Ncr_formula. intros H.
  destruct (pystr_eqb (acceleration_intensity_choice data) s_amax).
  - apply bind_Ok in H as (term1 & H1 & H).
    apply bind_Ok in H as (q3 & H3 & H).
    apply div_inv in H1 as [_ ->]. apply div_inv in H3 as [_ ->].
    destruct (pystr_eqb (particle_content_choice data) s_rho_c);
      apply bind_Ok in H as (q4 & H4 & H);
      apply bind_Ok in H as (term4 & Hs & H);
      apply div_inv in H4 as [_ ->]; apply sqrt_inv in Hs as [_ ->];
      now injection H as <-.
  - apply bind_Ok in H as (q3 & H3 & H).
    apply div_inv in H3 as [_ ->]. now injection H as <-.
Qed.

Lemma step2_amax_mode_inv (data : site_data) (amax : R) (N_prime : Z) :
  acceleration_intensity_choice data = s_amax ->
  step2_seismic data = Ok (amax, N_prime) ->
  amax = surface_peak_acceleration_amax data.
Proof.
  intros Hm Hs. unfold step2_seismic in Hs.
  rewrite Hm, pystr_eqb_refl in Hs.
  destruct (Rle_dec 0.09 _); [| discriminate].
  destruct (Rle_dec _ 0.41); [| discriminate]. now injection Hs as <- _.
Qed.

(** C2: every layer result of a returned calculation carries
    [Ncr = max(1.0, formula)], the formula being, in amax mode with clay
    content, beta * (69 amax / (amax + 0.40)) * (1 - 0.02 dw)
    * (0.21 + 0.79 ds / (ds + 6.2)) * sqrt(3 / content); in amax mode with
    fine content the same without beta and with sqrt(12 / (content - 3)); in
    intensity mode 0.79 N' * (1 - 0.02 dw) * (0.27 + ds / (ds + 6.2)). Here
    amax is the input field in amax mode and N' the table value in intensity
    mode. *)
Theorem critical_blow_count (data : site_data) (r : site_result) :
  calculate_liquefaction_index data = Ok r ->
  exists amax N_prime,
    step2_seismic data = Ok (amax, N_prime) /\
    (acceleration_intensity_choice data = s_amax ->
       amax = surface_peak_acceleration_amax data) /\
    (acceleration_intensity_choice data <> s_amax ->
       N_prime = intensity_N_prime (intensity_amax (seismic_intensity data))) /\
    Forall2
      (fun soil d =>
         Ncr d = Rmax 1.0
                   (Ncr_formula
                      (pystr_eqb (acceleration_intensity_choice data) s_amax)
                      (pystr_eqb (particle_content_choice data) s_rho_c)
                      (step1_beta data) amax (IZR N_prime)
                      (groundwater_depth_dw data) (ds soil) (content_value soil)))
      (soil_layer_data data) (soil_layer_calculation_details r).
Proof.
  intros Hr.
  destruct (calculate_inv data r Hr) as [(amax & N_prime & Hs & Hall) _ _ _].
  exists amax, N_prime. split; [exact Hs |]. split; [| split].
  - intros Hm. eapply step2_amax_mode_inv; eassumption.
  - intros Hm.
    rewrite (step2_intensity_mode data Hm) in Hs. now injection Hs as _ <-.
  - eapply Forall2_impl; [| exact Hall].
    intros soil d Hd. simpl in Hd.
    destruct (soil_layer_step_inv _ _ _ _ _ _ Hd) as [(Ncr0 & H0 & ->) _ _ _ _ _ _ _].
    apply step_Ncr_inv in H0 as ->. replace 1.0 with 1 by lra. reflexivity.
Qed.

(** The critical blow counts of the default site: amax mode at 0.1 g with
    clay content and beta = 0.80. *)
Lemma critical_blow_count_witness :
  exists r,
    calculate_liquefaction_index default_site_data = Ok r /\
    Forall2
      (fun soil d =>
         Ncr d = Rmax 1.0
                   (0.80 * (69 * 0.1 / (0.1 + 0.40)) * (1 - 0.02 * 2.0)
                    * (0.21 + 0.79 * ds soil / (ds soil + 6.2))
                    * R_sqrt.sqrt (3 / content_value soil)))
      default_layers (soil_layer_calculation_details r).
Proof.
  destruct (calculate_defined _ default_site_valid) as [r Hr].
  exists r. split; [exact Hr |].
  destruct (critical_blow_count default_site_data r Hr)
    as (amax & N_prime & _ & Hamax & _ & Hall).
  rewrite (Hamax eq_refl) in Hall. exact Hall.
Defined.

(** ** Steps 1.2 and 1.3: probability and its critical value *)

(** C5: every layer result of a returned calculation has
    [PL = 1 / (1 + exp(0.32 (N - Ncr)))] clamped to [0, 1], and [Ncr_PL] is
    [max(0.1, .)] of [N + 20.0] when [PL <= 0.001], of [N - 20.0] when
    [PL >= 0.999], and of [Ncr - ln(PL / (1 - PL)) / 0.32] otherwise. *)
Theorem probability_and_critical_value (data : site_data) (r : site_result) :
  calculate_liquefaction_index data = Ok r ->
  Forall2
    (fun soil d =>
       let N := SPT_N soil in
       PL d = PL_formula N (Ncr d) /\
       (PL d <= 0.001 -> Ncr_PL d = Rmax 0.1 (N + 20.0)) /\
       (PL d >= 0.999 -> Ncr_PL d = Rmax 0.1 (N - 20.0)) /\
       (0.001 < PL d < 0.999 ->
        Ncr_PL d = Rmax 0.1 (Ncr d - ln (PL d / (1 - PL d)) / 0.32)))
    (soil_layer_data data) (soil_layer_calculation_details r).
Proof.
  intros Hr.
  destruct (calculate_inv data r Hr) as [(amax & N_prime & _ & Hall) _ _ _].
  eapply Forall2_impl; [| exact Hall].
  intros soil d Hd. simpl in Hd.
  destruct (soil_layer_step_inv _ _ _ _ _ _ Hd) as [_ HPL HNcr_PL _ _ _ _ _].
  split.
  - rewrite HPL. unfold PL_formula.
    pose proof (logistic_pos (0.32 * (SPT_N soil - Ncr d))).
    pose proof (logistic_lt_1 (0.32 * (SPT_N soil - Ncr d))).
    rewrite Rmin_right, Rmax_right; lra.
  - exact (step_Ncr_PL_cases _ _ _ _ HNcr_PL).
Qed.

(** Steps 1.2 and 1.3 on the layers of the default site. *)
Lemma probability_and_critical_value_witness :
  exists r,
    calculate_liquefaction_index default_site_data = Ok r /\
    Forall2
      (fun soil d =>
         PL d = PL_formula (SPT_N soil) (Ncr d) /\
         (0.001 < PL d < 0.999 ->
          Ncr_PL d = Rmax 0.1 (Ncr d - ln (PL d / (1 - PL d)) / 0.32)))
      default_layers (soil_layer_calculation_details r).
Proof.
  destruct (calculate_defined _ default_site_valid) as [r Hr].
  exists r. split; [exact Hr |].
  pose proof (probability_and_critical_value default_site_data r Hr) as Hall.
  eapply Forall2_impl; [| exact Hall].
  intros soil d (HPL & _ & _ & Hmid). now split.
Defined.

(** ** Steps 1.4 and 1.5: weight, contribution, index and grade *)

Lemma step_grade_cases (ILE : R) (depth : Z) :
  (ILE <= 0 -> step_grade ILE depth = str "No Liquefaction") /\
  (depth = 15%Z ->
     (0 < ILE <= 5 -> step_grade ILE depth = str "Slight Liquefaction") /\
     (5 < ILE <= 15 -> step_grade ILE depth = str "Moderate Liquefaction") /\
     (15 < ILE -> step_grade ILE depth = str "Severe Liquefaction")) /\
  (depth <> 15%Z ->
     (0 < ILE <= 6 -> step_grade ILE depth = str "Slight Liquefaction") /\
     (6 < ILE <= 18 -> step_grade ILE depth = str "Moderate Liquefaction") /\
     (18 < ILE -> step_grade ILE depth = str "Severe Liquefaction")).
Proof.
  unfold step_grade. split; [| split].
  - intros H. destruct (Rle_dec ILE 0); [reflexivity | lra].
  - intros ->. simpl.
    destruct (Rle_dec ILE 0), (Rle_dec ILE 5), (Rle_dec ILE 15);
      repeat split; intros; try lra; reflexivity.
  - intros Hd. apply Z.eqb_neq in Hd. rewrite Hd.
    destruct (Rle_dec ILE 0), (Rle_dec ILE 6), (Rle_dec ILE 18);
      repeat split; intros; try lra; reflexivity.
Qed.

(** C3: in a returned calculation each layer has the step weight (10.0 up to
    5 m, 5.0 up to 15 m, 2.0 up to 20 m, 0.0 below) and the contribution
    [PL * 3.0 * wi]; the index is the sum of the contributions; the grade is
    No Liquefaction for [ILE <= 0], else Slight / Moderate / Severe with the
    thresholds 5 and 15 at depth 15 and 6 and 18 at depth 20. At depth 15 the
    indices 5.000, 5.0001, 15.000, 15.0001 and 0 are graded Slight, Moderate,
    Moderate, Severe and No Liquefaction. *)
Theorem weight_index_and_grade (data : site_data) (r : site_result) :
  calculate_liquefaction_index data = Ok r ->
  let ILE := liquefaction_index_ILE r in
  let grade := liquefaction_grade r in
  Forall2
    (fun soil d =>
       (ds soil <= 5 -> wi d = 10.0) /\
       (5 < ds soil <= 15 -> wi d = 5.0) /\
       (15 < ds soil <= 20 -> wi d = 2.0) /\
       (20 < ds soil -> wi d = 0.0) /\
       contribution_value d = PL d * 3.0 * wi d)
    (soil_layer_data data) (soil_layer_calculation_details r) /\
  ILE = sum_contributions (soil_layer_calculation_details r) /\
  (ILE <= 0 -> grade = str "No Liquefaction") /\
  (discrimination_depth data = 15%Z ->
     (0 < ILE <= 5 -> grade = str "Slight Liquefaction") /\
     (5 < ILE <= 15 -> grade = str "Moderate Liquefaction") /\
     (15 < ILE -> grade = str "Severe Liquefaction")) /\
  (discrimination_depth data = 20%Z ->
     (0 < ILE <= 6 -> grade = str "Slight Liquefaction") /\
     (6 < ILE <= 18 -> grade = str "Moderate Liquefaction") /\
     (18 < ILE -> grade = str "Severe Liquefaction")) /\
  step_grade 5.000 15 = str "Slight Liquefaction" /\
  step_grade 5.0001 15 = str "Moderate Liquefaction" /\
  step_grade 15.000 15 = str "Moderate Liquefaction" /\
  step_grade 15.0001 15 = str "Severe Liquefaction" /\
  step_grade 0 15 = str "No Liquefaction".
Proof.
  intros Hr ILE grade.
  destruct (calculate_inv data r Hr) as [(amax & N_prime & _ & Hall) _ HILE Hgrade].
  fold ILE in HILE, Hgrade. fold grade in Hgrade.
  destruct (step_grade_cases ILE (discrimination_depth data)) as (G0 & G15 & G20).
  split; [| split; [exact HILE |]].
  { eapply Forall2_impl; [| exact Hall].
    intros soil d Hd. simpl in Hd.
    destruct (soil_layer_step_inv _ _ _ _ _ _ Hd) as [_ _ _ Hwi Hc _ _ _].
    destruct (step_wi_cases (ds soil)) as (W1 & W2 & W3 & W4).
    rewrite Hwi. repeat split; auto. now rewrite <- Hwi. }
  rewrite Hgrade.
  split; [exact G0 |]. split; [exact G15 |].
  split; [intros H20; apply G20; lia |].
  unfold step_grade. simpl Z.eqb.
  repeat split;
    repeat match goal with
    | |- context [Rle_dec ?a ?b] => destruct (Rle_dec a b); try lra
    end; reflexivity.
Qed.

(** Weights, contributions, index and grade of the default site, whose five
    layers lie at 1.5 m to 13.5 m and whose depth is 15. *)
Lemma weight_index_and_grade_witness :
  exists r,
    calculate_liquefaction_index default_site_data = Ok r /\
    Forall2 (fun soil d => contribution_value d = PL d * 3.0 * wi d)
      default_layers (soil_layer_calculation_details r) /\
    liquefaction_index_ILE r
    = sum_contributions (soil_layer_calculation_details r) /\
    (5 < liquefaction_index_ILE r <= 15 ->
     liquefaction_grade r = str "Moderate Liquefaction").
Proof.
  destruct (calculate_defined _ default_site_valid) as [r Hr].
  exists r. split; [exact Hr |].
  destruct (weight_index_and_grade default_site_data r Hr)
    as (Hall & HILE & _ & H15 & _).
  split; [| split; [exact HILE |]].
  - eapply Forall2_impl; [| exact Hall].
    now intros soil d (_ & _ & _ & _ & Hc).
  - now destruct (H15 eq_refl) as (_ & Hmod & _).
Defined.

(** ** Bounds on the layer results *)

Lemma soil_layer_step_bounds (data : site_data) (beta amax : R) (N_prime : Z)
    (soil : soil_layer) (d : layer_detail) :
  soil_layer_step data beta amax N_prime soil = Ok d -> layer_bounds d.
Proof.
  intros Hd.
  destruct (soil_layer_step_inv _ _ _ _ _ _ Hd)
    as [(Ncr0 & _ & HNcr) HPL HNcr_PL Hwi _ _ _ _].
  unfold layer_bounds. repeat split.
  - rewrite HPL. apply Rlt_le, logistic_pos.
  - rewrite HPL. apply Rlt_le, logistic_lt_1.
  - rewrite HNcr. replace 1.0 with 1 by lra. apply Rmax_l.
  - eapply step_Ncr_PL_floor, HNcr_PL.
  - rewrite Hwi. apply step_wi_values.
Qed.

Lemma calculate_bounds (data : site_data) (r : site_result) :
  calculate_liquefaction_index data = Ok r ->
  Forall layer_bounds (soil_layer_calculation_details r) /\
  List.length (soil_layer_calculation_details r) = List.length (soil_layer_data data).
Proof.
  intros Hr.
  destruct (calculate_inv data r Hr) as [(amax & N_prime & _ & Hall) _ _ _].
  split.
  - induction Hall as [| soil d layers details Hd _ IH]; constructor.
    + eapply soil_layer_step_bounds, Hd.
    + exact IH.
  - symmetry. eapply Forall2_length, Hall.
Qed.

(** C8: every layer result that the calculation returns has
    [0 <= PL <= 1], [Ncr >= 1.0], [Ncr_PL >= 0.1] and [wi] in {0, 2, 5, 10},
    with one result per layer; and a valid site (in amax mode
    [0.09 <= amax <= 0.41]; every layer with a positive depth, a blow count
    of at most 2000, below which [math.exp] cannot overflow, and a content
    value at or above the floor of its mode) is calculated without an
    exception, so that its layers do get these results. *)
Theorem layer_results_bounded (data : site_data) :
  (forall r,
      calculate_liquefaction_index data = Ok r ->
      List.length (soil_layer_calculation_details r)
      = List.length (soil_layer_data data) /\
      Forall
        (fun d =>
           0 <= PL d <= 1 /\ 1.0 <= Ncr d /\ 0.1 <= Ncr_PL d /\
           (wi d = 0 \/ wi d = 2 \/ wi d = 5 \/ wi d = 10))
        (soil_layer_calculation_details r)) /\
  (valid_site data -> exists r, calculate_liquefaction_index data = Ok r).
Proof.
  split.
  - intros r Hr. destruct (calculate_bounds data r Hr) as [Hb Hlen].
    split; assumption.
  - apply calculate_defined.
Qed.

(** The bounds on the five layer results of the default site. *)
Lemma layer_results_bounded_witness :
  exists r,
    calculate_liquefaction_index default_site_data = Ok r /\
    List.length (soil_layer_calculation_details r) = 5%nat /\
    Forall layer_bounds (soil_layer_calculation_details r).
Proof.
  destruct (layer_results_bounded default_site_data) as [Hbounds Hdefined].
  destruct (Hdefined default_site_valid) as [r Hr].
  exists r. split; [exact Hr |]. exact (Hbounds r Hr).
Defined.

(** ** Intensity mode: the inputs of step 1 do not reach the outputs *)

Section IntensityMode.

Variable data : site_data.
Variables method group : pystr.
Variables Ms amax_field : R.

Let data' := with_beta_inputs data method group Ms amax_field.

Hypothesis Hmode : acceleration_intensity_choice data <> s_amax.

Lemma soil_layer_step_intensity (beta beta' amax : R) (N_prime : Z)
    (soil : soil_layer) :
  soil_layer_step data' beta' amax N_prime soil
  = soil_layer_step data beta amax N_prime soil.
Proof.
  unfold soil_layer_step, step_Ncr. simpl.
  apply pystr_eqb_neq in Hmode. now rewrite Hmode.
Qed.

Lemma soil_layer_loop_intensity (beta beta' amax : R) (N_prime : Z)
    (layers : list soil_layer) :
  forall total details,
    soil_layer_loop data' beta' amax N_prime layers total details
    = soil_layer_loop data beta amax N_prime layers total details.
Proof.
  induction layers as [| soil rest IH]; intros total details; [reflexivity |].
  cbn [soil_layer_loop].
  rewrite (soil_layer_step_intensity beta beta').
  destruct (soil_layer_step data beta amax N_prime soil) as [d | e]; simpl;
    [apply IH | reflexivity].
Qed.

Lemma calculate_intensity :
  fmap engine_outputs (calculate_liquefaction_index data')
  = fmap engine_outputs (calculate_liquefaction_index data).
Proof.
  unfold calculate_liquefaction_index.
  rewrite (step2_intensity_mode data Hmode).
  rewrite (step2_intensity_mode data') by exact Hmode.
  cbn [bind].
  change (soil_layer_data data') with (soil_layer_data data).
  change (seismic_intensity data') with (seismic_intensity data).
  rewrite (soil_layer_loop_intensity (step1_beta data) (step1_beta data')).
  destruct (soil_layer_loop data (step1_beta data) _ _ _ _ _) as [[total details] | e];
    reflexivity.
Qed.

End IntensityMode.

(** C10: in intensity mode two runs whose inputs differ only in the beta
    method, the earthquake group, the surface wave magnitude or the amax
    field either raise the same exception or return the same layer details
    (Ncr, PL, Ncr_PL, wi, contribution), the same index and the same grade. *)
Theorem intensity_mode_ignores_beta_inputs
    (data : site_data) (method group : pystr) (Ms amax_field : R) :
  acceleration_intensity_choice data <> s_amax ->
  fmap engine_outputs
    (calculate_liquefaction_index (with_beta_inputs data method group Ms amax_field))
  = fmap engine_outputs (calculate_liquefaction_index data).
Proof.
  intros Hmode. now apply calculate_intensity.
Qed.

(** The default site at intensity 8, against the same site with the formula
    method, group "3", Ms = 8.0 and an amax field of 0.3: both runs return,
    with the same outputs, while the reported beta goes from 0.80 to 1.05. *)
Lemma intensity_mode_ignores_beta_inputs_witness :
  exists r r',
    calculate_liquefaction_index (intensity_site_data 8) = Ok r /\
    calculate_liquefaction_index
      (with_beta_inputs (intensity_site_data 8) (str "formula") (str "3") 8.0 0.3)
    = Ok r' /\
    engine_outputs r' = engine_outputs r /\
    design_earthquake_adjustment_coefficient_beta r = 0.80 /\
    design_earthquake_adjustment_coefficient_beta r' = 1.05.
Proof.
  destruct (calculate_defined _ (intensity_site_valid 8)) as [r Hr].
  pose proof (intensity_mode_ignores_beta_inputs (intensity_site_data 8)
                (str "formula") (str "3") 8.0 0.3 (intensity_site_mode 8)) as Heq.
  rewrite Hr in Heq.
  destruct (calculate_liquefaction_index
              (with_beta_inputs (intensity_site_data 8) (str "formula") (str "3") 8.0 0.3))
    as [r' | e] eqn:Hr'; [| discriminate Heq].
  exists r, r'. injection Heq as Hdetails HILE Hgrade.
  split; [exact Hr |]. split; [reflexivity |].
  split; [unfold engine_outputs; congruence |].
  destruct (calculate_inv _ _ Hr) as [_ Hb _ _].
  destruct (calculate_inv _ _ Hr') as [_ Hb' _ _].
  rewrite Hb, Hb'. split.
  - reflexivity.
  - unfold step1_beta. simpl. rewrite max_Rmax, min_Rmin.
    rewrite Rmin_left by lra. rewrite Rmax_right by lra. reflexivity.
Defined.

(** ** The column resolver on three headers *)

(** The alias "N" of the blow count column is standardized to "n", and the
    fuzzy step asks whether an alias occurs inside the header. *)
Remark alias_N_inside_notes :
  _standardize_text (str "N") = str "n" /\
  _standardize_text (str "Notes") = str "notes" /\
  contains (str "n") (str "notes") = true.
Proof. vm_compute. repeat split. Qed.

(** The spec sentence for C4 leaves the header "Notes" unresolved for all six
    canonical columns. On the code it is taken for the blow count column. *)
Lemma notes_header_is_resolved :
  resolved (_auto_recognize_column_names [str "Notes"]) Blow_Count
  = Some (Some (str "Notes")) /\
  ~ Forall (fun entry => snd entry = None)
      (_auto_recognize_column_names [str "Notes"]).
Proof.
  split; [vm_compute; reflexivity |].
  intros H. rewrite Forall_forall in H.
  specialize (H (Blow_Count, Some (str "Notes"))).
  assert (Hin : In (Blow_Count, Some (str "Notes"))
                  (_auto_recognize_column_names [str "Notes"])).
  { vm_compute. right. right. left. reflexivity. }
  specialize (H Hin). discriminate H.
Qed.

(** C4, as the code has it: the header "Fc" is resolved to the particle
    content column and "N value" to the blow count column; the header "Notes"
    is left unresolved by five canonical columns and is resolved to the blow
    count column, whose alias "N" is contained in it after standardization. *)
Theorem column_resolution :
  _standardize_text (str "N value") = str "nvalue" /\
  _standardize_text (str "Clay Content " ++ rho :: str "c(%)") = str "claycontentc" /\
  resolved (_auto_recognize_column_names [str "Fc"]) Particle_Content
  = Some (Some (str "Fc")) /\
  resolved (_auto_recognize_column_names [str "N value"]) Blow_Count
  = Some (Some (str "N value")) /\
  _auto_recognize_column_names [str "Notes"]
  = [ (Site_Number, None); (Saturated_Depth, None);
      (Blow_Count, Some (str "Notes")); (Particle_Content, None);
      (Peak_Acceleration, None); (Seismic_Intensity, None) ].
Proof. vm_compute. repeat split. Qed.

(** The resolver is total and answers for the six canonical columns, in
    the order of [column_name_mapping], whatever the headers are. *)
Remark resolver_answers_every_column (column_name_list : list pystr) :
  map fst (_auto_recognize_column_names column_name_list)
  = [ Site_Number; Saturated_Depth; Blow_Count; Particle_Content;
      Peak_Acceleration; Seismic_Intensity ].
Proof.
  unfold _auto_recognize_column_names. rewrite map_map. reflexivity.
Qed.

(** In a table that has the three headers together, the exact alias
    "N value" wins the blow count column and no column takes "Notes". *)
Remark three_headers_together :
  _auto_recognize_column_names [str "Fc"; str "N value"; str "Notes"]
  = [ (Site_Number, None); (Saturated_Depth, None);
      (Blow_Count, Some (str "N value")); (Particle_Content, Some (str "Fc"));
      (Peak_Acceleration, None); (Seismic_Intensity, None) ].
Proof. vm_compute. reflexivity. Qed.

(** * Further properties of the column resolver *)

(** ** Standardized text *)

Section Standardize.

Lemma _standardize_text_eq (text : pystr) :
  _standardize_text text = map lower (filter kept text).
Proof. now destruct text. Qed.

Ltac compare_chars :=
  unfold kept, lower, standard_char, between in *;
  repeat match goal with
  | |- context [N.leb ?a ?b] => destruct (N.leb_spec a b)
  | H : context [N.leb ?a ?b] |- _ => destruct (N.leb_spec a b)
  end; simpl in *; try reflexivity; try discriminate; try lia.

Lemma lower_of_kept (c : N) : kept c = true -> standard_char (lower c) = true.
Proof. intros H. compare_chars. Qed.

Lemma kept_of_standard (c : N) : standard_char c = true -> kept c = true.
Proof. intros H. compare_chars. Qed.

Lemma lower_of_standard (c : N) : standard_char c = true -> lower c = c.
Proof. intros H. compare_chars. Qed.

Lemma standardized_chars (text : pystr) :
  Forall (fun c => standard_char c = true) (_standardize_text text).
Proof.
  rewrite _standardize_text_eq. apply Forall_forall. intros c Hc.
  apply in_map_iff in Hc as (c0 & <- & Hc0).
  apply filter_In in Hc0 as [_ Hk]. now apply lower_of_kept.
Qed.

Lemma standard_text_fixed (text : pystr) :
  Forall (fun c => standard_char c = true) text -> _standardize_text text = text.
Proof.
  rewrite _standardize_text_eq.
  induction 1 as [| c rest Hc _ IH]; [reflexivity |].
  simpl. rewrite (kept_of_standard c Hc). simpl.
  now rewrite (lower_of_standard c Hc), IH.
Qed.

End Standardize.

(** X1: the standardized form of any text consists of lower-case ASCII
    letters, digits and ideographs only, a text of that form is its own
    standardized form, and so standardizing twice changes nothing. *)
Theorem standardize_text_canonical (text : pystr) :
  Forall (fun c => standard_char c = true) (_standardize_text text) /\
  (Forall (fun c => standard_char c = true) text -> _standardize_text text = text) /\
  _standardize_text (_standardize_text text) = _standardize_text text.
Proof.
  split; [apply standardized_chars |]. split; [apply standard_text_fixed |].
  apply standard_text_fixed, standardized_chars.
Qed.

(** A header in capitals with spaces and brackets, and its standardized form
    which is made of standard characters. *)
Lemma standardize_text_canonical_witness :
  _standardize_text (str "Sand Depth DS (m)") = str "sanddepthdsm" /\
  _standardize_text (str "sanddepthdsm") = str "sanddepthdsm".
Proof.
  split; [vm_compute; reflexivity |].
  destruct (standardize_text_canonical (str "sanddepthdsm")) as (_ & Hfixed & _).
  apply Hfixed. repeat constructor.
Defined.

(** ** Insertion-ordered dictionaries *)

Section DictFacts.

Context {K V : Type} (eqb : K -> K -> bool).
Hypothesis eqb_eq : forall a b, eqb a b = true <-> a = b.

Lemma eqb_refl (a : K) : eqb a a = true.
Proof. now apply eqb_eq. Qed.

Lemma dict_get_set (d : dict (K := K) (V := V)) (k k' : K) (v : V) :
  dict_get eqb (dict_set eqb d k v) k'
  = if eqb k k' then Some v else dict_get eqb d k'.
Proof.
  induction d as [| [k0 v0] d IH]; simpl; [reflexivity |].
  destruct (eqb k0 k) eqn:E0; simpl.
  - apply eqb_eq in E0 as ->. now destruct (eqb k k').
  - rewrite IH. destruct (eqb k0 k') eqn:E1; [| reflexivity].
    apply eqb_eq in E1 as ->.
    destruct (eqb k k') eqn:E2; [| reflexivity].
    apply eqb_eq in E2 as ->. rewrite eqb_refl in E0. discriminate.
Qed.

Lemma dict_set_In (d : dict (K := K) (V := V)) (k k' : K) (v v' : V) :
  In (k', v') (dict_set eqb d k v) -> In (k', v') d \/ (k' = k /\ v' = v).
Proof.
  induction d as [| [k0 v0] d IH]; simpl.
  - intros [[= <- <-] | []]. now right.
  - destruct (eqb k0 k) eqn:E0; simpl.
    + apply eqb_eq in E0 as ->. intros [[= <- <-] | H]; auto.
    + intros [H | H]; auto. apply IH in H as [H | H]; auto.
Qed.

Lemma dict_get_In (d : dict (K := K) (V := V)) (k : K) (v : V) :
  dict_get eqb d k = Some v -> In (k, v) d.
Proof.
  induction d as [| [k0 v0] d IH]; simpl; [discriminate |].
  destruct (eqb k0 k) eqn:E0.
  - apply eqb_eq in E0 as ->. intros [= ->]. now left.
  - intros H. right. now apply IH.
Qed.

Lemma dict_get_map {W : Type} (g : K -> V -> W)
    (d : dict (K := K) (V := V)) (k : K) :
  dict_get eqb (map (fun '(k0, v0) => (k0, g k0 v0)) d) k
  = option_map (g k) (dict_get eqb d k).
Proof.
  induction d as [| [k0 v0] d IH]; simpl; [reflexivity |].
  destruct (eqb k0 k) eqn:E0; [| exact IH].
  apply eqb_eq in E0 as ->. reflexivity.
Qed.

End DictFacts.

(** ** The dictionary of standardized headers *)

Section StandardizedColumns.

Lemma find_app {A : Type} (p : A -> bool) (l1 l2 : list A) :
  find p (l1 ++ l2)
  = match find p l1 with Some x => Some x | None => find p l2 end.
Proof.
  induction l1 as [| a l1 IH]; simpl; [reflexivity |].
  now destruct (p a).
Qed.

Let add (d : dict (K := pystr) (V := pystr)) (col_name : pystr) :=
  dict_set pystr_eqb d (_standardize_text col_name) col_name.

Lemma fold_columns_get (cols : list pystr) :
  forall d k,
    dict_get pystr_eqb (fold_left add cols d) k
    = match find (has_form k) (rev cols) with
      | Some c => Some c
      | None => dict_get pystr_eqb d k
      end.
Proof.
  induction cols as [| c cols IH]; intros d k; simpl; [reflexivity |].
  rewrite IH, find_app. destruct (find (has_form k) (rev cols)); [reflexivity |].
  unfold add. rewrite (dict_get_set pystr_eqb pystr_eqb_eq). simpl.
  unfold has_form. now destruct (pystr_eqb (_standardize_text c) k).
Qed.

Lemma fold_columns_In (cols : list pystr) :
  forall d k v,
    In (k, v) (fold_left add cols d) ->
    In (k, v) d \/ (In v cols /\ k = _standardize_text v).
Proof.
  induction cols as [| c cols IH]; intros d k v H; simpl in *; [now left |].
  apply IH in H as [H | [H ->]]; [| now right; split; [right |]].
  unfold add in H. apply (dict_set_In pystr_eqb pystr_eqb_eq) in H as [H | [-> ->]];
    [now left | right; split; [now left | reflexivity]].
Qed.

(** Looking a standardized form up gives the last header with that form. *)
Lemma standardize_columns_get (cols : list pystr) (k : pystr) :
  dict_get pystr_eqb (standardize_columns cols) k = find (has_form k) (rev cols).
Proof.
  unfold standardize_columns. fold add. rewrite fold_columns_get.
  now destruct (find (has_form k) (rev cols)).
Qed.

Lemma standardize_columns_In (cols : list pystr) (k v : pystr) :
  In (k, v) (standardize_columns cols) -> In v cols /\ k = _standardize_text v.
Proof.
  unfold standardize_columns. fold add. intros H.
  apply fold_columns_In in H as [[] | H]. exact H.
Qed.

(** Every header has its standardized form among the keys. *)
Lemma standardize_columns_key (cols : list pystr) (h : pystr) :
  In h cols ->
  exists v, In (_standardize_text h, v) (standardize_columns cols).
Proof.
  intros Hh.
  destruct (find (has_form (_standardize_text h)) (rev cols)) as [v |] eqn:E.
  - exists v. apply (dict_get_In pystr_eqb pystr_eqb_eq).
    now rewrite standardize_columns_get.
  - apply find_none with (x := h) in E; [| now apply in_rev in Hh].
    unfold has_form in E. now rewrite pystr_eqb_refl in E.
Qed.

End StandardizedColumns.

(** ** The three steps of the recognition *)

Section Recognition.

Variable cols : list pystr.
Let d := standardize_columns cols.

Lemma match_aliases_In (aliases : list pystr) (h : pystr) :
  match_aliases d aliases = Some h -> In h cols.
Proof.
  induction aliases as [| alias rest IH]; simpl; [discriminate |].
  destruct (dict_get pystr_eqb d (_standardize_text alias)) as [v |] eqn:E.
  - intros [= <-]. apply (dict_get_In pystr_eqb pystr_eqb_eq) in E.
    now apply standardize_columns_In in E.
  - exact IH.
Qed.

Lemma fuzzy_match_In (ssc : pystr) (aliases : list pystr)
    (items : list (pystr * pystr)) (best : option pystr) (h : pystr) :
  fuzzy_match ssc aliases items best = Some h ->
  (exists k, In (k, h) items) \/ best = Some h.
Proof.
  induction items as [| [k v] items IH]; simpl; [now right |].
  destruct (_ || _).
  - intros [= <-]. left. exists k. now left.
  - intros H. apply IH in H as [[k' H] | H]; [left; exists k'; now right | now right].
Qed.

Lemma fuzzy_match_hit (ssc : pystr) (aliases : list pystr)
    (items : list (pystr * pystr)) (best : option pystr) (k v : pystr) :
  In (k, v) items ->
  contains ssc k
  || existsb (fun alias => contains (_standardize_text alias) k) aliases = true ->
  exists k' v', In (k', v') items /\
                fuzzy_match ssc aliases items best = Some v'.
Proof.
  induction items as [| [k0 v0] items IH]; simpl; [intros [] |].
  intros [[= -> ->] | Hin] Htest.
  - rewrite Htest. exists k, v. split; [now left | reflexivity].
  - destruct (contains ssc k0
              || existsb (fun alias => contains (_standardize_text alias) k0) aliases)
      eqn:E0.
    + exists k0, v0. split; [now left | reflexivity].
    + destruct (IH Hin Htest) as (k' & v' & Hin' & Hf).
      exists k', v'. split; [now right | exact Hf].
Qed.

Lemma recognize_column_In (field : pystr) (aliases : list pystr) (h : pystr) :
  recognize_column d field aliases = Some h -> In h cols.
Proof.
  unfold recognize_column.
  destruct (dict_get pystr_eqb d (_standardize_text field)) as [v |] eqn:E.
  - intros [= <-]. apply (dict_get_In pystr_eqb pystr_eqb_eq) in E.
    now apply standardize_columns_In in E.
  - destruct (truthy (match_aliases d aliases)) eqn:Et.
    + apply match_aliases_In.
    + intros H. apply fuzzy_match_In in H as [[k H] | H].
      * now apply standardize_columns_In in H.
      * now apply match_aliases_In in H.
Qed.

Lemma recognize_column_exact (field : pystr) (aliases : list pystr) (h : pystr) :
  find (has_form (_standardize_text field)) (rev cols) = Some h ->
  recognize_column d field aliases = Some h.
Proof.
  intros H. unfold recognize_column, d.
  now rewrite standardize_columns_get, H.
Qed.

Lemma recognize_column_contained (field : pystr) (aliases : list pystr)
    (h : pystr) :
  In h cols ->
  contains (_standardize_text field) (_standardize_text h)
  || existsb (fun alias => contains (_standardize_text alias) (_standardize_text h))
             aliases = true ->
  exists h', recognize_column d field aliases = Some h'.
Proof.
  intros Hh Htest. unfold recognize_column.
  destruct (dict_get pystr_eqb d (_standardize_text field)) as [v |];
    [now exists v |].
  destruct (match_aliases d aliases) as [[| c best] |] eqn:Em; simpl.
  - destruct (standardize_columns_key cols h Hh) as [v Hv].
    destruct (fuzzy_match_hit (_standardize_text field) aliases d (Some [])
                (_standardize_text h) v Hv Htest) as (k' & v' & _ & Hf).
    now exists v'.
  - now exists (c :: best).
  - destruct (standardize_columns_key cols h Hh) as [v Hv].
    destruct (fuzzy_match_hit (_standardize_text field) aliases d None
                (_standardize_text h) v Hv Htest) as (k' & v' & _ & Hf).
    now exists v'.
Qed.

(** The entry of a canonical column in the returned mapping. *)
Lemma recognized_entry (field : pystr) (aliases : list pystr) :
  In (field, aliases) column_name_mapping ->
  In (field, recognize_column d field aliases) (_auto_recognize_column_names cols).
Proof.
  intros H. unfold _auto_recognize_column_names. fold d.
  apply in_map_iff. exists (field, aliases). now split.
Qed.

Lemma recognized_entry_inv (field : pystr) (best : option pystr) :
  In (field, best) (_auto_recognize_column_names cols) ->
  exists aliases,
    In (field, aliases) column_name_mapping /\
    best = recognize_column d field aliases.
Proof.
  unfold _auto_recognize_column_names. fold d. intros H.
  apply in_map_iff in H as ([f aliases] & [= -> <-] & Hin).
  now exists aliases.
Qed.

End Recognition.

(** ** What the callers read from the mapping *)

Section MappingGet.

Lemma column_name_mapping_get (field : pystr) (aliases : list pystr) :
  In (field, aliases) column_name_mapping ->
  dict_get pystr_eqb column_name_mapping field = Some aliases.
Proof.
  unfold column_name_mapping. simpl.
  intros H.
  repeat (destruct H as [H | H];
          [injection H as <- <-; vm_compute; reflexivity |]).
  contradiction.
Qed.

Lemma mapping_get_recognized (cols : list pystr) (field : pystr)
    (aliases : list pystr) :
  In (field, aliases) column_name_mapping ->
  mapping_get (_auto_recognize_column_names cols) field
  = recognize_column (standardize_columns cols) field aliases.
Proof.
  intros H. unfold mapping_get, _auto_recognize_column_names.
  rewrite (dict_get_map pystr_eqb pystr_eqb_eq
             (fun k a => recognize_column (standardize_columns cols) k a)).
  now rewrite (column_name_mapping_get field aliases H).
Qed.

Lemma canonical_name_not_blank (field : pystr) (aliases : list pystr) :
  In (field, aliases) column_name_mapping -> _standardize_text field <> [].
Proof.
  unfold column_name_mapping. simpl. intros H.
  repeat (destruct H as [H | H]; [injection H as <- <-; discriminate |]).
  contradiction.
Qed.

Lemma last_header_of_form (cols : list pystr) (k h : pystr) :
  In h cols -> _standardize_text h = k ->
  exists h', find (has_form k) (rev cols) = Some h' /\
             In h' cols /\ _standardize_text h' = k.
Proof.
  intros Hh Hk.
  destruct (find (has_form k) (rev cols)) as [h' |] eqn:E.
  - exists h'. split; [reflexivity |].
    apply find_some in E as [Hin Hform]. split; [now apply in_rev |].
    now apply pystr_eqb_eq.
  - apply find_none with (x := h) in E; [| now apply in_rev in Hh].
    unfold has_form in E. rewrite Hk, pystr_eqb_refl in E. discriminate.
Qed.

End MappingGet.

(** X2: whatever header list is given, a canonical column is only ever
    resolved to one of the given headers; on an empty header list every
    column is left unresolved. *)
Theorem recognized_header_is_a_header (cols : list pystr) :
  (forall field h,
      In (field, Some h) (_auto_recognize_column_names cols) -> In h cols) /\
  (cols = [] ->
   Forall (fun entry => snd entry = None) (_auto_recognize_column_names cols)).
Proof.
  assert (Hsound : forall field h,
             In (field, Some h) (_auto_recognize_column_names cols) -> In h cols).
  { intros field h H.
    apply recognized_entry_inv in H as (aliases & _ & H).
    eapply recognize_column_In. symmetry. exact H. }
  split; [exact Hsound |].
  intros ->. apply Forall_forall. intros [field [h |]] H; [| reflexivity].
  destruct (Hsound field h H).
Qed.

(** The table with the headers "Fc" and "N value": the particle content
    column is resolved to "Fc", which is one of the two headers. *)
Lemma recognized_header_is_a_header_witness :
  In (str "Fc") [str "Fc"; str "N value"].
Proof.
  destruct (recognized_header_is_a_header [str "Fc"; str "N value"]) as [Hsound _].
  apply (Hsound Particle_Content).
  vm_compute. right. right. right. left. reflexivity.
Defined.

(** X3: a header that equals the canonical name of a column once both are
    standardized (letter case, spaces and punctuation aside) is always
    resolved to that column, before any alias or containment; when several
    headers do, the last of them in the table is taken. *)
Theorem exact_header_is_recognized (cols : list pystr) (field : pystr)
    (aliases : list pystr) (h : pystr) :
  In (field, aliases) column_name_mapping ->
  In h cols ->
  _standardize_text h = _standardize_text field ->
  exists h',
    mapping_get (_auto_recognize_column_names cols) field = Some h' /\
    find (has_form (_standardize_text field)) (rev cols) = Some h' /\
    In h' cols /\
    _standardize_text h' = _standardize_text field.
Proof.
  intros Hfield Hh Hform.
  destruct (last_header_of_form cols (_standardize_text field) h Hh Hform)
    as (h' & Hfind & Hin & Hform').
  exists h'. rewrite (mapping_get_recognized cols field aliases Hfield).
  rewrite (recognize_column_exact cols field aliases h' Hfind). auto.
Qed.

(** Two headers with the form of the site number column, among others: the
    later one is taken. *)
Lemma exact_header_is_recognized_witness :
  mapping_get
    (_auto_recognize_column_names
       [str "SITE NUMBER"; str "Fc"; str "site_number"; str "Notes"])
    Site_Number
  = Some (str "site_number").
Proof.
  destruct (exact_header_is_recognized
              [str "SITE NUMBER"; str "Fc"; str "site_number"; str "Notes"]
              Site_Number
              [str "Site Number"; str "Site ID"; str "Measurement Point Number";
               str "ID"; str "Point No"; str "Point ID"]
              (str "SITE NUMBER"))
    as (h' & Hget & Hfind & _).
  - left. reflexivity.
  - left. reflexivity.
  - vm_compute. reflexivity.
  - rewrite Hget. vm_compute in Hfind. injection Hfind as <-. reflexivity.
Defined.

(** X4: a column is resolved as soon as one header contains, after
    standardization, one of its aliases (or its canonical name); the header
    it is resolved to is one of the table. The one-letter aliases "N" and
    "ds" make this a weak test. *)
Theorem header_containing_alias_is_recognized (cols : list pystr)
    (field : pystr) (aliases : list pystr) (alias h : pystr) :
  In (field, aliases) column_name_mapping ->
  In alias (field :: aliases) ->
  In h cols ->
  contains (_standardize_text alias) (_standardize_text h) = true ->
  exists h',
    mapping_get (_auto_recognize_column_names cols) field = Some h' /\
    In h' cols.
Proof.
  intros Hfield Halias Hh Hc.
  destruct (recognize_column_contained cols field aliases h Hh) as [h' Hr].
  { apply orb_true_iff. destruct Halias as [<- | Halias]; [now left | right].
    apply existsb_exists. now exists alias. }
  exists h'. rewrite (mapping_get_recognized cols field aliases Hfield).
  split; [exact Hr |]. eapply recognize_column_In, Hr.
Qed.

(** A table whose only header with the letter n is "Remarks and notes": the
    blow count column is resolved to it through the alias "N". *)
Lemma header_containing_alias_is_recognized_witness :
  exists h',
    mapping_get
      (_auto_recognize_column_names [str "Fc"; str "Remarks and notes"])
      Blow_Count = Some h' /\
    In h' [str "Fc"; str "Remarks and notes"].
Proof.
  apply (header_containing_alias_is_recognized
           [str "Fc"; str "Remarks and notes"] Blow_Count
           [str "Measured SPT Blow Count N"; str "N value";
            str "Measured Penetration Value"; str "Standard Penetration N";
            str "N"; str "Blow Count N"]
           (str "N") (str "Remarks and notes")).
  - right. right. left. reflexivity.
  - right. right. right. right. right. left. reflexivity.
  - right. left. reflexivity.
  - vm_compute. reflexivity.
Defined.

(** ** The guards of the import tab *)

Section Guards.

Lemma truthy_py_or (a b : option pystr) :
  truthy (py_or a b) = truthy a || truthy b.
Proof. unfold py_or. now destruct (truthy a) eqn:E; rewrite ?E. Qed.

Lemma exact_header_truthy (cols : list pystr) (field : pystr)
    (aliases : list pystr) :
  In (field, aliases) column_name_mapping ->
  (exists h, In h cols /\ _standardize_text h = _standardize_text field) ->
  truthy (mapping_get (_auto_recognize_column_names cols) field) = true.
Proof.
  intros Hfield (h & Hh & Hform).
  destruct (last_header_of_form cols (_standardize_text field) h Hh Hform)
    as (h' & Hfind & _ & Hform').
  rewrite (mapping_get_recognized cols field aliases Hfield).
  rewrite (recognize_column_exact cols field aliases h' Hfind).
  destruct h' as [| c rest]; [| reflexivity].
  exfalso. apply (canonical_name_not_blank field aliases Hfield).
  now rewrite <- Hform'.
Qed.

End Guards.

(** X5: the guards of [import_calculation] are at least as strict as those of
    [preview_file] and of the batch calculation: a mapping that lets the
    single-site import proceed lets the batch proceed, and both report the
    same missing necessary columns. *)
Theorem import_guard_stricter (choice : pystr)
    (mapping : list (pystr * option pystr)) :
  (import_guard choice mapping = Proceed -> batch_guard mapping = Proceed) /\
  (forall missing,
      import_guard choice mapping = Warn_missing_columns missing <->
      batch_guard mapping = Warn_missing_columns missing).
Proof.
  unfold import_guard, batch_guard, guard.
  destruct (missing_columns mapping) as [| col rest].
  - split.
    + unfold seismic_param_column_for, seismic_param_column_any.
      rewrite truthy_py_or.
      destruct (pystr_eqb choice (str "amax"));
        destruct (truthy (mapping_get mapping (str "Surface Peak Acceleration amax(g)")));
        destruct (truthy (mapping_get mapping (str "Seismic Intensity")));
        simpl; congruence.
    + intros missing.
      destruct (truthy (seismic_param_column_for choice mapping)),
               (truthy (seismic_param_column_any mapping)); split; discriminate.
  - split; [discriminate |]. intros missing. reflexivity.
Qed.

(** A table with the four necessary columns and an intensity column, read
    with the intensity choice: both guards let the calculation proceed. *)
Lemma import_guard_stricter_witness :
  batch_guard
    (_auto_recognize_column_names
       [str "ID"; str "ds"; str "N"; str "Fc"; str "Intensity"])
  = Proceed.
Proof.
  apply (import_guard_stricter (str "intensity")).
  vm_compute. reflexivity.
Defined.

(** X6: a table that has, for each of the four necessary columns and for the
    column of the selected seismic parameter, a header equal to the canonical
    name up to standardization passes the guards of the import tab, whatever
    other headers it has and in whatever order. *)
Theorem canonical_headers_pass_guards (cols : list pystr) (choice : pystr) :
  (forall field,
      In field (seismic_param_name choice :: core_columns) ->
      exists h, In h cols /\ _standardize_text h = _standardize_text field) ->
  import_guard choice (_auto_recognize_column_names cols) = Proceed /\
  batch_guard (_auto_recognize_column_names cols) = Proceed.
Proof.
  intros Hcols.
  assert (Himport : import_guard choice (_auto_recognize_column_names cols) = Proceed).
  { unfold import_guard, guard, missing_columns.
    change core_columns
      with [Site_Number; Saturated_Depth; Blow_Count; Particle_Content].
    cbn [filter].
    rewrite (exact_header_truthy cols Site_Number) with (aliases := snd (nth 0 column_name_mapping ([], [])));
      [| left; reflexivity | apply Hcols; simpl; auto 10].
    rewrite (exact_header_truthy cols Saturated_Depth) with (aliases := snd (nth 1 column_name_mapping ([], [])));
      [| right; left; reflexivity | apply Hcols; simpl; auto 10].
    rewrite (exact_header_truthy cols Blow_Count) with (aliases := snd (nth 2 column_name_mapping ([], [])));
      [| do 2 right; left; reflexivity | apply Hcols; simpl; auto 10].
    rewrite (exact_header_truthy cols Particle_Content) with (aliases := snd (nth 3 column_name_mapping ([], [])));
      [| do 3 right; left; reflexivity | apply Hcols; simpl; auto 10].
    cbn [negb].
    unfold seismic_param_column_for.
    specialize (Hcols (seismic_param_name choice) (or_introl eq_refl)).
    unfold seismic_param_name in Hcols.
    change (str "Surface Peak Acceleration amax(g)") with Peak_Acceleration in *.
    change (str "Seismic Intensity") with Seismic_Intensity in *.
    destruct (pystr_eqb choice (str "amax")).
    - rewrite (exact_header_truthy cols Peak_Acceleration) with (aliases := snd (nth 4 column_name_mapping ([], [])));
        [reflexivity | do 4 right; left; reflexivity | exact Hcols].
    - rewrite (exact_header_truthy cols Seismic_Intensity) with (aliases := snd (nth 5 column_name_mapping ([], [])));
        [reflexivity | do 5 right; left; reflexivity | exact Hcols]. }
  split; [exact Himport |].
  unfold import_guard, batch_guard, guard in *.
  destruct (missing_columns _); [| discriminate].
  unfold seismic_param_column_for, seismic_param_column_any in *.
  rewrite truthy_py_or.
  destruct (pystr_eqb choice (str "amax"));
    destruct (truthy (mapping_get _ (str "Surface Peak Acceleration amax(g)")));
    destruct (truthy (mapping_get _ (str "Seismic Intensity")));
    simpl in *; congruence.
Qed.

(** The canonical names in capitals, with an extra column, in another
    order, read with the amax choice. *)
Lemma canonical_headers_pass_guards_witness :
  import_guard (str "amax")
    (_auto_recognize_column_names
       [ str "MEASURED SPT BLOW COUNT N"; str "Notes"; str "SITE NUMBER";
         str "SURFACE PEAK ACCELERATION AMAX (G)";
         str "CLAY/FINE PARTICLE CONTENT (%)";
         str "SATURATED SAND DEPTH DS (M)" ])
  = Proceed.
Proof.
  apply canonical_headers_pass_guards.
  intros field [<- | [<- | [<- | [<- | [<- | []]]]]].
  - exists (str "SURFACE PEAK ACCELERATION AMAX (G)").
    split; [simpl; auto 10 | vm_compute; reflexivity].
  - exists (str "SITE NUMBER").
    split; [simpl; auto 10 | vm_compute; reflexivity].
  - exists (str "SATURATED SAND DEPTH DS (M)").
    split; [simpl; auto 10 | vm_compute; reflexivity].
  - exists (str "MEASURED SPT BLOW COUNT N").
    split; [simpl; auto 10 | vm_compute; reflexivity].
  - exists (str "CLAY/FINE PARTICLE CONTENT (%)").
    split; [simpl; auto 10 | vm_compute; reflexivity].
Defined.

(** * Further properties of the liquefaction engine *)

(** ** Sign of the index *)

Section IndexSign.

Variable data : site_data.
Variables beta amax : R.
Variable N_prime : Z.

Lemma contribution_sign (soil : soil_layer) (d : layer_detail) :
  soil_layer_step data beta amax N_prime soil = Ok d ->
  0 <= contribution_value d <= 30 /\
  (0 < contribution_value d <-> ds soil <= 20).
Proof.
  intros Hd.
  destruct (soil_layer_step_inv _ _ _ _ _ _ Hd) as [_ HPL _ Hwi Hc _ _ _].
  pose proof (logistic_pos (0.32 * (SPT_N soil - Ncr d))) as Hp.
  pose proof (logistic_lt_1 (0.32 * (SPT_N soil - Ncr d))) as Hq.
  rewrite <- HPL in Hp, Hq. rewrite Hc, Hwi. unfold step_wi.
  destruct (Rle_dec (ds soil) 5), (Rle_dec (ds soil) 15), (Rle_dec (ds soil) 20);
    split; try split; intros; nra.
Qed.

Lemma contributions_sign (layers : list soil_layer) (details : list layer_detail) :
  Forall2 (fun soil d => soil_layer_step data beta amax N_prime soil = Ok d)
    layers details ->
  0 <= sum_contributions details <= 30 * INR (List.length layers) /\
  (sum_contributions details <= 0 <-> Forall (fun soil => 20 < ds soil) layers).
Proof.
  induction 1 as [| soil d layers details Hd _ IH].
  - simpl. split; [lra |]. split; [constructor | lra].
  - destruct (contribution_sign soil d Hd) as [Hb Hpos].
    destruct IH as [IHb IHz].
    change (sum_contributions (d :: details))
      with (contribution_value d + sum_contributions details).
    change (List.length (soil :: layers)) with (S (List.length layers)).
    rewrite S_INR. split; [lra |]. split.
    + intros Hz. constructor.
      * apply Rnot_le_lt. intros Hc. apply Hpos in Hc. lra.
      * apply IHz. lra.
    + intros Hall. inversion Hall as [| ? ? Hdeep Hrest]; subst.
      apply IHz in Hrest.
      assert (~ 0 < contribution_value d) by (intros Hc; apply Hpos in Hc; lra).
      lra.
Qed.

End IndexSign.

(** X8: the index of a returned result lies between 0 and 30 per layer, and
    the grade is "No Liquefaction" exactly when no layer lies at 20 m or
    above: a layer within the top 20 m always contributes, however large its
    blow count, because the probability of step 1.2 is never zero. *)
Theorem no_liquefaction_only_below_20m (data : site_data) (r : site_result) :
  calculate_liquefaction_index data = Ok r ->
  0 <= liquefaction_index_ILE r
    <= 30 * INR (List.length (soil_layer_data data)) /\
  (liquefaction_grade r = str "No Liquefaction" <->
   Forall (fun soil => 20 < ds soil) (soil_layer_data data)).
Proof.
  intros Hr.
  destruct (calculate_inv data r Hr) as [(amax & N_prime & _ & Hall) _ HILE Hgrade].
  destruct (contributions_sign _ _ _ _ _ _ Hall) as [Hb Hz].
  rewrite <- HILE in Hb, Hz. split; [exact Hb |].
  rewrite Hgrade, <- Hz. unfold step_grade.
  destruct (Rle_dec (liquefaction_index_ILE r) 0) as [H0 | H0].
  - split; auto.
  - split; [| intros; contradiction].
    destruct (Z.eqb _ 15);
      repeat match goal with
      | |- context [Rle_dec ?a ?b] => destruct (Rle_dec a b)
      end; intros H; discriminate H.
Qed.

(** The default site, with layers between 1.5 m and 13.5 m, is never graded
    "No Liquefaction". *)
Lemma no_liquefaction_only_below_20m_witness :
  exists r,
    calculate_liquefaction_index default_site_data = Ok r /\
    0 < liquefaction_index_ILE r <= 150 /\
    liquefaction_grade r <> str "No Liquefaction".
Proof.
  destruct (calculate_defined _ default_site_valid) as [r Hr].
  exists r. split; [exact Hr |].
  destruct (no_liquefaction_only_below_20m default_site_data r Hr) as [Hb Hg].
  assert (Hno : liquefaction_grade r <> str "No Liquefaction").
  { intros H. apply Hg in H. inversion H as [| ? ? Hdeep _]; subst.
    simpl in Hdeep. lra. }
  split; [| exact Hno].
  simpl in Hb. split; [| lra].
  destruct (calculate_inv _ r Hr) as [_ _ _ Hgrade].
  apply Rnot_le_lt. intros Hc. apply Hno. rewrite Hgrade.
  unfold step_grade. destruct (Rle_dec (liquefaction_index_ILE r) 0); [reflexivity | lra].
Defined.

(** ** Comparing two calculations of the same layers *)

Section Comparison.

Lemma scaled_floor_le (s1 s2 K : R) :
  0 < s1 <= s2 -> Rmax 1 (s1 * K) <= Rmax 1 (s2 * K).
Proof.
  intros Hs. unfold Rmax.
  destruct (Rle_dec 1 (s1 * K)), (Rle_dec 1 (s2 * K)); nra.
Qed.

Lemma floor_scaled_le (s1 s2 K : R) :
  s1 <= s2 -> 0 <= K -> Rmax 1 (s1 * K) <= Rmax 1 (s2 * K).
Proof.
  intros Hs HK. unfold Rmax.
  destruct (Rle_dec 1 (s1 * K)), (Rle_dec 1 (s2 * K)); nra.
Qed.

Variables data1 data2 : site_data.
Variables beta1 beta2 amax1 amax2 : R.
Variables N_prime1 N_prime2 : Z.

Let step1 := soil_layer_step data1 beta1 amax1 N_prime1.
Let step2 := soil_layer_step data2 beta2 amax2 N_prime2.

Lemma layer_order (soil : soil_layer) (d1 d2 : layer_detail) :
  step1 soil = Ok d1 -> step2 soil = Ok d2 ->
  Ncr d1 <= Ncr d2 -> no_less_critical d1 d2.
Proof.
  intros H1 H2 HNcr.
  destruct (soil_layer_step_inv _ _ _ _ _ _ H1) as [_ HPL1 _ Hw1 Hc1 _ _ _].
  destruct (soil_layer_step_inv _ _ _ _ _ _ H2) as [_ HPL2 _ Hw2 Hc2 _ _ _].
  assert (HPL : PL d1 <= PL d2).
  { rewrite HPL1, HPL2. destruct HNcr as [Hlt | ->]; [| lra].
    apply Rlt_le, logistic_decreasing. lra. }
  assert (Hw : wi d1 = wi d2) by congruence.
  unfold no_less_critical. repeat split; try assumption.
  rewrite Hc1, Hc2, Hw.
  destruct (step_wi_values (ds soil)) as [E | [E | [E | E]]];
    rewrite Hw2, E; lra.
Qed.

Lemma details_order (layers : list soil_layer) :
  (forall soil d1 d2,
      In soil layers -> step1 soil = Ok d1 -> step2 soil = Ok d2 ->
      Ncr d1 <= Ncr d2) ->
  forall details1 details2,
    Forall2 (fun soil d => step1 soil = Ok d) layers details1 ->
    Forall2 (fun soil d => step2 soil = Ok d) layers details2 ->
    Forall2 no_less_critical details1 details2 /\
    sum_contributions details1 <= sum_contributions details2.
Proof.
  intros Horder details1 details2 H1. revert details2.
  induction H1 as [| soil d1 layers details1 Hd1 _ IH]; intros details2 H2.
  - inversion H2; subst. split; [constructor | simpl; lra].
  - inversion H2 as [| ? d2 ? rest2 Hd2 Hrest2]; subst.
    destruct (IH (fun s a b Hin => Horder s a b (or_intror Hin)) rest2 Hrest2)
      as [Hall Hsum].
    pose proof (layer_order soil d1 d2 Hd1 Hd2
                  (Horder soil d1 d2 (or_introl eq_refl) Hd1 Hd2)) as Hl.
    split; [now constructor |].
    destruct Hl as (_ & _ & _ & Hc). simpl. lra.
Qed.

End Comparison.

(** Comparison of two returned results whose layers are the same. *)
Lemma results_order (data1 data2 : site_data) (r1 r2 : site_result) :
  soil_layer_data data1 = soil_layer_data data2 ->
  calculate_liquefaction_index data1 = Ok r1 ->
  calculate_liquefaction_index data2 = Ok r2 ->
  (forall amax1 N1 amax2 N2 soil v1 v2,
      step2_seismic data1 = Ok (amax1, N1) ->
      step2_seismic data2 = Ok (amax2, N2) ->
      In soil (soil_layer_data data1) ->
      step_Ncr data1 (step1_beta data1) amax1 N1 soil = Ok v1 ->
      step_Ncr data2 (step1_beta data2) amax2 N2 soil = Ok v2 ->
      Rmax 1 v1 <= Rmax 1 v2) ->
  Forall2 no_less_critical
    (soil_layer_calculation_details r1) (soil_layer_calculation_details r2) /\
  liquefaction_index_ILE r1 <= liquefaction_index_ILE r2.
Proof.
  intros Hlayers Hr1 Hr2 Horder.
  destruct (calculate_inv data1 r1 Hr1) as [(amax1 & N1 & Hs1 & Hall1) _ HILE1 _].
  destruct (calculate_inv data2 r2 Hr2) as [(amax2 & N2 & Hs2 & Hall2) _ HILE2 _].
  rewrite <- Hlayers in Hall2. rewrite HILE1, HILE2.
  eapply details_order; [| exact Hall1 | exact Hall2].
  intros soil d1 d2 Hin H1 H2.
  destruct (soil_layer_step_inv _ _ _ _ _ _ H1) as [(v1 & Hv1 & ->) _ _ _ _ _ _ _].
  destruct (soil_layer_step_inv _ _ _ _ _ _ H2) as [(v2 & Hv2 & ->) _ _ _ _ _ _ _].
  eapply Horder; eassumption.
Qed.

(** ** Calculations that agree pass by pass *)

Section Agreement.

Variables data1 data2 : site_data.

Lemma soil_layer_loop_ext (beta1 beta2 amax1 amax2 : R) (N1 N2 : Z)
    (layers1 layers2 : list soil_layer) :
  Forall2
    (fun s1 s2 =>
       soil_layer_step data1 beta1 amax1 N1 s1
       = soil_layer_step data2 beta2 amax2 N2 s2)
    layers1 layers2 ->
  forall total details,
    soil_layer_loop data1 beta1 amax1 N1 layers1 total details
    = soil_layer_loop data2 beta2 amax2 N2 layers2 total details.
Proof.
  induction 1 as [| s1 s2 layers1 layers2 Hs _ IH]; intros total details;
    [reflexivity |].
  cbn [soil_layer_loop]. rewrite Hs.
  destruct (soil_layer_step data2 beta2 amax2 N2 s2) as [d | e]; simpl;
    [apply IH | reflexivity].
Qed.

Lemma calculate_ext (seismic : R * Z) :
  step2_seismic data1 = Ok seismic ->
  step2_seismic data2 = Ok seismic ->
  discrimination_depth data1 = discrimination_depth data2 ->
  Forall2
    (fun s1 s2 =>
       soil_layer_step data1 (step1_beta data1) (fst seismic) (snd seismic) s1
       = soil_layer_step data2 (step1_beta data2) (fst seismic) (snd seismic) s2)
    (soil_layer_data data1) (soil_layer_data data2) ->
  fmap engine_outputs (calculate_liquefaction_index data1)
  = fmap engine_outputs (calculate_liquefaction_index data2).
Proof.
  intros Hs1 Hs2 Hdepth Hall. unfold calculate_liquefaction_index.
  rewrite Hs1, Hs2. destruct seismic as [amax N_prime]. cbn [bind fst snd] in *.
  rewrite (soil_layer_loop_ext _ _ _ _ _ _ _ _ Hall).
  destruct (soil_layer_loop data2 _ _ _ _ _ _) as [[total details] | e];
    [| reflexivity].
  unfold fmap, engine_outputs. simpl. now rewrite Hdepth.
Qed.

End Agreement.

Lemma Forall2_same {A : Type} (P : A -> A -> Prop) (l : list A) :
  (forall a, In a l -> P a a) -> Forall2 P l l.
Proof.
  induction l as [| a l IH]; intros H; constructor.
  - apply H. now left.
  - apply IH. intros b Hb. apply H. now right.
Qed.

Lemma step1_beta_range (data : site_data) : 0.80 <= step1_beta data <= 1.05.
Proof.
  unfold step1_beta.
  destruct (pystr_eqb _ s_group).
  - destruct (pystr_eqb _ (str "1")); [lra |].
    destruct (pystr_eqb _ (str "2")); [lra |].
    destruct (pystr_eqb _ (str "3")); lra.
  - rewrite max_Rmax, min_Rmin. split; [apply Rmax_l |].
    apply Rmax_lub; [lra | apply Rmin_l].
Qed.

Lemma intensity_levels (i1 i2 : Z) :
  (7 <= i1 <= i2)%Z -> (i2 <= 9)%Z ->
  0 < IZR (intensity_N_prime (intensity_amax i1))
    <= IZR (intensity_N_prime (intensity_amax i2)).
Proof.
  intros H1 H2.
  destruct intensity_amax_table as (A7 & A8 & A9 & _).
  destruct intensity_N_prime_table as (N10 & _ & N20 & _ & N40 & _).
  assert (C1 : i1 = 7%Z \/ i1 = 8%Z \/ i1 = 9%Z) by lia.
  assert (C2 : i2 = 7%Z \/ i2 = 8%Z \/ i2 = 9%Z) by lia.
  destruct C1 as [-> | [-> | ->]], C2 as [-> | [-> | ->]]; try lia;
    rewrite ?A7, ?A8, ?A9, ?N10, ?N20, ?N40; lra.
Qed.

Lemma step2_N_prime_pos (data : site_data) (amax : R) (N_prime : Z) :
  step2_seismic data = Ok (amax, N_prime) -> 0 < IZR N_prime.
Proof.
  unfold step2_seismic.
  destruct (pystr_eqb _ s_amax).
  - destruct (Rle_dec 0.09 _); [| discriminate].
    destruct (Rle_dec _ 0.41); [| discriminate].
    intros [= _ <-]. lra.
  - intros [= _ <-].
    destruct intensity_N_prime_table as (N10 & _ & N20 & _ & N40 & _).
    replace 0.10 with 0.1 in N10 by lra.
    replace 0.20 with 0.2 in N20 by lra.
    replace 0.40 with 0.4 in N40 by lra.
    destruct (intensity_amax_values (seismic_intensity data)) as [-> | [-> | ->]];
      rewrite ?N10, ?N20, ?N40; lra.
Qed.

(** X10: in intensity mode a higher intensity among 7, 8 and 9 never lowers
    the hazard: layer by layer Ncr, the probability and the contribution are
    at least as large, and so is the index. *)
Theorem higher_intensity_never_lowers_hazard (data : site_data) (i1 i2 : Z)
    (r1 r2 : site_result) :
  acceleration_intensity_choice data <> s_amax ->
  (7 <= i1 <= i2)%Z -> (i2 <= 9)%Z ->
  calculate_liquefaction_index (with_intensity data i1) = Ok r1 ->
  calculate_liquefaction_index (with_intensity data i2) = Ok r2 ->
  Forall2 no_less_critical
    (soil_layer_calculation_details r1) (soil_layer_calculation_details r2) /\
  liquefaction_index_ILE r1 <= liquefaction_index_ILE r2.
Proof.
  intros Hmode H1 H2 Hr1 Hr2.
  apply (results_order (with_intensity data i1) (with_intensity data i2)
           r1 r2 eq_refl Hr1 Hr2).
  intros amax1 N1 amax2 N2 soil v1 v2 Hs1 Hs2 _ Hv1 Hv2.
  rewrite (step2_intensity_mode (with_intensity data i1) Hmode) in Hs1.
  rewrite (step2_intensity_mode (with_intensity data i2) Hmode) in Hs2.
  injection Hs1 as _ <-. injection Hs2 as _ <-. simpl.
  apply step_Ncr_inv in Hv1, Hv2. simpl in Hv1, Hv2.
  apply pystr_eqb_neq in Hmode. rewrite Hmode in Hv1, Hv2.
  unfold Ncr_formula in Hv1, Hv2.
  pose proof (intensity_levels i1 i2 H1 H2) as Hlevels.
  set (K := 0.79 * (1 - 0.02 * groundwater_depth_dw data)
            * (0.27 + ds soil / (ds soil + 6.2))).
  replace v1 with (IZR (intensity_N_prime (intensity_amax i1)) * K)
    by (subst v1; unfold K; ring).
  replace v2 with (IZR (intensity_N_prime (intensity_amax i2)) * K)
    by (subst v2; unfold K; ring).
  now apply scaled_floor_le.
Qed.

(** The default layers at intensity 7 and at intensity 9. *)
Lemma higher_intensity_never_lowers_hazard_witness :
  exists r1 r2,
    calculate_liquefaction_index (intensity_site_data 7) = Ok r1 /\
    calculate_liquefaction_index (intensity_site_data 9) = Ok r2 /\
    liquefaction_index_ILE r1 <= liquefaction_index_ILE r2.
Proof.
  destruct (calculate_defined _ (intensity_site_valid 7)) as [r1 Hr1].
  destruct (calculate_defined _ (intensity_site_valid 9)) as [r2 Hr2].
  exists r1, r2. split; [exact Hr1 |]. split; [exact Hr2 |].
  apply (higher_intensity_never_lowers_hazard (intensity_site_data 7) 7 9 r1 r2);
    [discriminate | lia | lia | exact Hr1 | exact Hr2].
Defined.

(** X11: in intensity mode an intensity that is neither 8 nor 9 is calculated
    as intensity 7: the calculation raises the same exception or returns the
    same layer details, index and grade. In particular an intensity of 10
    gives the outputs of the lowest level. *)
Theorem unlisted_intensity_counts_as_7 (data : site_data) (i : Z) :
  acceleration_intensity_choice data <> s_amax ->
  i <> 8%Z -> i <> 9%Z ->
  fmap engine_outputs (calculate_liquefaction_index (with_intensity data i))
  = fmap engine_outputs (calculate_liquefaction_index (with_intensity data 7)).
Proof.
  intros Hmode H8 H9.
  assert (Ea : intensity_amax i = intensity_amax 7).
  { destruct intensity_amax_table as (A7 & _ & _ & Aother).
    destruct (Z.eq_dec i 7) as [-> | H7]; [reflexivity |].
    now rewrite A7, (Aother i H7 H8 H9). }
  apply (calculate_ext _ _
           (intensity_amax 7, intensity_N_prime (intensity_amax 7))).
  - rewrite (step2_intensity_mode (with_intensity data i) Hmode). simpl.
    now rewrite Ea.
  - now rewrite (step2_intensity_mode (with_intensity data 7) Hmode).
  - reflexivity.
  - apply Forall2_same. intros soil _. reflexivity.
Qed.

(** The default layers at intensity 10 and at intensity 7. *)
Lemma unlisted_intensity_counts_as_7_witness :
  fmap engine_outputs (calculate_liquefaction_index (intensity_site_data 10))
  = fmap engine_outputs (calculate_liquefaction_index (intensity_site_data 7)).
Proof.
  apply (unlisted_intensity_counts_as_7 (intensity_site_data 7) 10);
    [discriminate | lia | lia].
Defined.

(** ** Groundwater depth *)

Lemma depth_ratio_nonneg (ds : R) : 0 < ds -> 0 <= ds / (ds + 6.2).
Proof.
  intros H. apply Rlt_le, Rdiv_lt_0_compat; lra.
Qed.

(** X12: a deeper groundwater table never raises the hazard of layers at
    positive depths: of two returned calculations that differ only in dw, the
    one with the larger dw has, layer by layer, an Ncr, a probability and a
    contribution at most as large, and an index at most as large. *)
Theorem deeper_groundwater_never_raises_hazard (data : site_data)
    (dw1 dw2 : R) (r1 r2 : site_result) :
  Forall (fun soil => 0 < ds soil) (soil_layer_data data) ->
  dw1 <= dw2 ->
  calculate_liquefaction_index (with_groundwater data dw1) = Ok r1 ->
  calculate_liquefaction_index (with_groundwater data dw2) = Ok r2 ->
  Forall2 no_less_critical
    (soil_layer_calculation_details r2) (soil_layer_calculation_details r1) /\
  liquefaction_index_ILE r2 <= liquefaction_index_ILE r1.
Proof.
  intros Hds Hdw Hr1 Hr2.
  apply (results_order (with_groundwater data dw2) (with_groundwater data dw1)
           r2 r1 eq_refl Hr2 Hr1).
  intros amax2 N2 amax1 N1 soil v2 v1 Hs2 Hs1 Hin Hv2 Hv1.
  change (step2_seismic (with_groundwater data dw2)) with (step2_seismic data) in Hs2.
  change (step2_seismic (with_groundwater data dw1)) with (step2_seismic data) in Hs1.
  assert (amax1 = amax2 /\ N1 = N2) as [-> ->] by (split; congruence).
  pose proof (step2_amax_nonneg _ _ _ Hs2) as Hrange.
  pose proof (step2_N_prime_pos _ _ _ Hs2) as HN.
  pose proof (step1_beta_range data) as Hbeta.
  simpl in Hin. rewrite Forall_forall in Hds. specialize (Hds soil Hin).
  pose proof (depth_ratio_nonneg (ds soil) Hds) as Hratio.
  apply step_Ncr_inv in Hv1, Hv2. simpl in Hv1, Hv2.
  change (step1_beta (with_groundwater data dw1)) with (step1_beta data) in Hv1.
  change (step1_beta (with_groundwater data dw2)) with (step1_beta data) in Hv2.
  unfold Ncr_formula in Hv1, Hv2.
  assert (Ht1 : 0 <= 69 * amax2 / (amax2 + 0.40)).
  { apply Rlt_le, Rdiv_lt_0_compat; lra. }
  assert (Ht3 : 0 <= 0.21 + 0.79 * ds soil / (ds soil + 6.2)).
  { unfold Rdiv in *. rewrite Rmult_assoc. nra. }
  destruct (pystr_eqb (acceleration_intensity_choice data) s_amax).
  - destruct (pystr_eqb (particle_content_choice data) s_rho_c).
    + pose proof (sqrt_pos (3 / content_value soil)) as Ht4.
      set (K := step1_beta data * (69 * amax2 / (amax2 + 0.40))
                * (0.21 + 0.79 * ds soil / (ds soil + 6.2))
                * R_sqrt.sqrt (3 / content_value soil)).
      assert (HK : 0 <= K).
      { unfold K.
        apply Rmult_le_pos; [apply Rmult_le_pos; [apply Rmult_le_pos |] |]; lra. }
      replace v1 with ((1 - 0.02 * dw1) * K) by (subst v1; unfold K; ring).
      replace v2 with ((1 - 0.02 * dw2) * K) by (subst v2; unfold K; ring).
      apply floor_scaled_le; lra.
    + pose proof (sqrt_pos (12 / (content_value soil - 3))) as Ht4.
      set (K := (69 * amax2 / (amax2 + 0.40))
                * (0.21 + 0.79 * ds soil / (ds soil + 6.2))
                * R_sqrt.sqrt (12 / (content_value soil - 3))).
      assert (HK : 0 <= K).
      { unfold K. apply Rmult_le_pos; [apply Rmult_le_pos |]; lra. }
      replace v1 with ((1 - 0.02 * dw1) * K) by (subst v1; unfold K; ring).
      replace v2 with ((1 - 0.02 * dw2) * K) by (subst v2; unfold K; ring).
      apply floor_scaled_le; lra.
  - set (K := 0.79 * IZR N2 * (0.27 + ds soil / (ds soil + 6.2))).
    assert (HK : 0 <= K).
    { unfold K. apply Rmult_le_pos; [apply Rmult_le_pos |]; lra. }
    replace v1 with ((1 - 0.02 * dw1) * K) by (subst v1; unfold K; ring).
    replace v2 with ((1 - 0.02 * dw2) * K) by (subst v2; unfold K; ring).
    apply floor_scaled_le; lra.
Qed.

(** The default site with the groundwater at 2 m and at 6 m. *)
Lemma deeper_groundwater_never_raises_hazard_witness :
  exists r1 r2,
    calculate_liquefaction_index (with_groundwater default_site_data 2) = Ok r1 /\
    calculate_liquefaction_index (with_groundwater default_site_data 6) = Ok r2 /\
    liquefaction_index_ILE r2 <= liquefaction_index_ILE r1.
Proof.
  assert (Hvalid : forall dw, valid_site (with_groundwater default_site_data dw)).
  { intros dw. split; [intros _; simpl; lra | now apply default_layers_valid]. }
  destruct (calculate_defined _ (Hvalid 2)) as [r1 Hr1].
  destruct (calculate_defined _ (Hvalid 6)) as [r2 Hr2].
  exists r1, r2. split; [exact Hr1 |]. split; [exact Hr2 |].
  apply (deeper_groundwater_never_raises_hazard default_site_data 2 6 r1 r2);
    [| lra | exact Hr1 | exact Hr2].
  repeat constructor; simpl; lra.
Defined.

(** * Properties of the result tab and of the export *)

(** ** Possibility tiers *)

(** Closes a goal whose hypothesis equates two different string literals. *)
Ltac different_strings H :=
  lazymatch type of H with
  | (_ <= _)%R => fail
  | (_ < _)%R => fail
  | _ /\ _ => fail
  | _ => exfalso; vm_compute in H; discriminate H
  end.

Section Tiers.

Lemma liquefaction_possibility_cases (p : R) :
  (liquefaction_possibility p = str "High" <-> 0.5 <= p) /\
  (liquefaction_possibility p = str "Medium" <-> 0.3 <= p < 0.5) /\
  (liquefaction_possibility p = str "Low" <-> p < 0.3).
Proof.
  unfold liquefaction_possibility.
  destruct (Rge_dec p 0.5); [| destruct (Rle_dec 0.3 p); [destruct (Rlt_dec p 0.5) |]];
    (split; [| split]); split; intros Hx; try lra; try reflexivity;
    different_strings Hx.
Qed.

Lemma overall_liquefaction_possibility_cases (p : R) :
  (overall_liquefaction_possibility p = str "High Possibility" <-> 0.5 <= p) /\
  (overall_liquefaction_possibility p = str "Medium Possibility" <-> 0.3 <= p < 0.5) /\
  (overall_liquefaction_possibility p = str "Low Possibility" <-> p < 0.3).
Proof.
  unfold overall_liquefaction_possibility.
  destruct (Rge_dec p 0.5); [| destruct (Rle_dec 0.3 p); [destruct (Rlt_dec p 0.5) |]];
    (split; [| split]); split; intros Hx; try lra; try reflexivity;
    different_strings Hx.
Qed.

(** Two points of the logistic curve of step 1.2: at a non-positive
    exponent the probability is at least one half; from the exponent 0.96,
    that is three blows above the critical count, it is below 0.3. *)
Lemma logistic_high (x : R) : x <= 0 -> 0.5 <= 1 / (1 + exp x).
Proof.
  intros Hx. pose proof (exp_pos x) as He.
  assert (Hle : exp x <= 1).
  { rewrite <- exp_0. destruct Hx as [Hx | ->]; [| lra].
    left. now apply exp_increasing. }
  assert (H : / 2 <= / (1 + exp x)) by (apply Rinv_le_contravar; lra).
  unfold Rdiv. lra.
Qed.

Lemma exp_above_7_3 : 7 / 3 < exp 0.96.
Proof.
  replace 0.96 with (0.24 + 0.24 + (0.24 + 0.24)) by lra.
  rewrite !exp_plus.
  pose proof (exp_ineq1_le 0.24) as H.
  set (a := exp 0.24) in *.
  assert (H2 : 1.5376 <= a * a) by nra.
  nra.
Qed.

Lemma logistic_low (x : R) : 0.96 <= x -> 1 / (1 + exp x) < 0.3.
Proof.
  intros Hx. pose proof exp_above_7_3 as H73.
  assert (Hle : exp 0.96 <= exp x).
  { destruct Hx as [Hx | <-]; [| lra]. left. now apply exp_increasing. }
  assert (H : / (1 + exp x) < / (10 / 3)).
  { apply Rinv_lt_contravar; [| lra].
    apply Rmult_lt_0_compat; lra. }
  unfold Rdiv. lra.
Qed.

Lemma py_sum_bounds (lo hi : R) (l : list R) :
  Forall (fun p => lo <= p <= hi) l ->
  forall acc,
    acc + lo * INR (List.length l) <= fold_left Rplus l acc
    <= acc + hi * INR (List.length l).
Proof.
  induction 1 as [| p l Hp _ IH]; intros acc.
  - simpl. lra.
  - cbn [fold_left]. change (List.length (p :: l)) with (S (List.length l)).
    rewrite S_INR. specialize (IH (acc + p)). lra.
Qed.

Lemma average_PL_bounds (lo hi : R) (l : list R) :
  l <> [] ->
  Forall (fun p => lo <= p <= hi) l ->
  exists a, average_PL l = Ok a /\ lo <= a <= hi.
Proof.
  intros Hne Hall. destruct l as [| p l]; [contradiction |].
  unfold average_PL. set (n := INR (List.length (p :: l))).
  assert (Hn : 0 < n) by (apply lt_0_INR; simpl; lia).
  rewrite div_defined by lra.
  eexists. split; [reflexivity |].
  pose proof (py_sum_bounds lo hi (p :: l) Hall 0) as Hb.
  change (fold_left Rplus (p :: l) 0) with (py_sum (p :: l)) in Hb.
  change (INR (List.length (p :: l))) with n in Hb.
  set (s := py_sum (p :: l)) in *.
  assert (Hinv : n * / n = 1) by (apply Rinv_r; lra).
  assert (Hpos : 0 < / n) by (apply Rinv_0_lt_compat; lra).
  unfold Rdiv. split.
  - apply Rmult_le_reg_r with (r := n); [lra |].
    rewrite Rmult_assoc, (Rmult_comm (/ n)), Hinv. lra.
  - apply Rmult_le_reg_r with (r := n); [lra |].
    rewrite Rmult_assoc, (Rmult_comm (/ n)), Hinv. lra.
Qed.

End Tiers.

(** X13: in the details table of a returned result a layer whose blow
    count does not exceed its critical blow count is shown with a "High"
    possibility, and a layer whose blow count exceeds the critical one by
    three blows or more with a "Low" one; so a "Medium" layer has its blow
    count strictly between Ncr and Ncr + 3. *)
Theorem possibility_tier_of_layer (data : site_data) (r : site_result) :
  calculate_liquefaction_index data = Ok r ->
  Forall2
    (fun soil d =>
       let N := SPT_N soil in
       (N <= Ncr d -> liquefaction_possibility (PL d) = str "High") /\
       (Ncr d + 3 <= N -> liquefaction_possibility (PL d) = str "Low") /\
       (liquefaction_possibility (PL d) = str "Medium" ->
        Ncr d < N < Ncr d + 3))
    (soil_layer_data data) (soil_layer_calculation_details r).
Proof.
  intros Hr.
  destruct (calculate_inv data r Hr) as [(amax & N_prime & _ & Hall) _ _ _].
  eapply Forall2_impl; [| exact Hall].
  intros soil d Hd. simpl in Hd.
  destruct (soil_layer_step_inv _ _ _ _ _ _ Hd) as [_ HPL _ _ _ _ _ _].
  destruct (liquefaction_possibility_cases (PL d)) as (Hhigh & Hmed & Hlow).
  assert (E5 : SPT_N soil <= Ncr d -> 0.5 <= PL d).
  { intros HN. rewrite HPL. apply logistic_high. lra. }
  assert (E3 : Ncr d + 3 <= SPT_N soil -> PL d < 0.3).
  { intros HN. rewrite HPL. apply logistic_low. lra. }
  cbv zeta. split; [| split].
  - intros HN. apply Hhigh, E5, HN.
  - intros HN. apply Hlow, E3, HN.
  - intros Hm. apply Hmed in Hm. split.
    + apply Rnot_le_lt. intros Hc. apply E5 in Hc. lra.
    + apply Rnot_le_lt. intros Hc. apply E3 in Hc. lra.
Qed.

(** The layers of the default site whose blow count does not exceed the
    critical one are shown as "High". *)
Lemma possibility_tier_of_layer_witness :
  exists r,
    calculate_liquefaction_index default_site_data = Ok r /\
    Forall2
      (fun soil d =>
         SPT_N soil <= Ncr d -> liquefaction_possibility (PL d) = str "High")
      default_layers (soil_layer_calculation_details r).
Proof.
  destruct (calculate_defined _ default_site_valid) as [r Hr].
  exists r. split; [exact Hr |].
  pose proof (possibility_tier_of_layer default_site_data r Hr) as Hall.
  eapply Forall2_impl; [| exact Hall].
  now intros soil d (Hhigh & _).
Defined.

(** X14: the average probability of a returned result is computed without
    an exception and is itself a probability; for a result without layers it
    is 0 and the overall possibility is "Low Possibility"; when every layer
    of the result is "High" the overall possibility is "High Possibility". *)
Theorem overall_possibility_of_result (data : site_data) (r : site_result) :
  calculate_liquefaction_index data = Ok r ->
  let details := soil_layer_calculation_details r in
  exists a,
    average_PL (map PL details) = Ok a /\
    overall_possibility r = Ok (overall_liquefaction_possibility a) /\
    0 <= a <= 1 /\
    (soil_layer_data data = [] ->
     a = 0 /\ overall_liquefaction_possibility a = str "Low Possibility") /\
    (soil_layer_data data <> [] ->
     Forall (fun d => liquefaction_possibility (PL d) = str "High") details ->
     overall_liquefaction_possibility a = str "High Possibility").
Proof.
  intros Hr details.
  destruct (calculate_bounds data r Hr) as [Hb Hlen]. fold details in Hb, Hlen.
  assert (Hprob : Forall (fun p => 0 <= p <= 1) (map PL details)).
  { apply Forall_map. eapply Forall_impl; [| exact Hb].
    intros d (HPL & _). exact HPL. }
  unfold overall_possibility. fold details.
  destruct details as [| d0 rest] eqn:Ed.
  - exists 0.0. simpl. split; [reflexivity |]. split; [reflexivity |].
    split; [lra |]. split.
    + intros _. split; [lra |].
      apply overall_liquefaction_possibility_cases. lra.
    + intros Hne. exfalso. apply Hne.
      destruct (soil_layer_data data); [reflexivity | discriminate Hlen].
  - rewrite <- Ed in *.
    assert (Hne : map PL details <> []) by (rewrite Ed; discriminate).
    destruct (average_PL_bounds 0 1 (map PL details) Hne Hprob) as (a & Ha & Hr01).
    exists a. split; [exact Ha |]. rewrite Ha. split; [reflexivity |].
    split; [exact Hr01 |]. split.
    + intros Hnil. rewrite Hnil, Ed in Hlen. discriminate Hlen.
    + intros _ Hall.
      apply overall_liquefaction_possibility_cases.
      destruct (average_PL_bounds 0.5 1 (map PL details) Hne) as (a' & Ha' & Hb').
      * apply Forall_map. rewrite Forall_forall in *. intros d Hd.
        specialize (Hall d Hd). apply liquefaction_possibility_cases in Hall.
        specialize (Hprob (PL d) (in_map PL _ d Hd)). simpl in Hprob. lra.
      * assert (a' = a) by congruence. lra.
Qed.

(** The average probability of the default site. *)
Lemma overall_possibility_of_result_witness :
  exists r a,
    calculate_liquefaction_index default_site_data = Ok r /\
    average_PL (map PL (soil_layer_calculation_details r)) = Ok a /\
    0 <= a <= 1.
Proof.
  destruct (calculate_defined _ default_site_valid) as [r Hr].
  destruct (overall_possibility_of_result default_site_data r Hr)
    as (a & Ha & _ & Hr01 & _).
  exists r, a. split; [exact Hr |]. split; [exact Ha | exact Hr01].
Defined.

(** ** Measures *)

Section MeasuresTable.

Lemma step_grade_values (ILE : R) (depth : Z) :
  (ILE <= 0 /\ step_grade ILE depth = str "No Liquefaction") \/
  (0 < ILE /\
   (step_grade ILE depth = str "Slight Liquefaction" \/
    step_grade ILE depth = str "Moderate Liquefaction" \/
    step_grade ILE depth = str "Severe Liquefaction")).
Proof.
  unfold step_grade.
  destruct (Rle_dec ILE 0); [left; split; [lra | reflexivity] |].
  right. split; [lra |].
  destruct (Z.eqb depth 15);
    repeat match goal with
    | |- context [Rle_dec ?a ?b] => destruct (Rle_dec a b)
    end; auto.
Qed.

Lemma unknown_class (building_class : pystr) :
  building_class <> str "Class B" ->
  building_class <> str "Class C" ->
  building_class <> str "Class D" ->
  dict_get pystr_eqb measures_mapping building_class = None.
Proof.
  intros HB HC HD. unfold measures_mapping, dict_get.
  assert (E : forall k, building_class <> k -> pystr_eqb k building_class = false).
  { intros k Hk. apply pystr_eqb_neq. congruence. }
  now rewrite (E _ HB), (E _ HC), (E _ HD).
Qed.

End MeasuresTable.

(** X15: every grade the calculation can return is answered by the measures
    widget for the classes B, C and D: for "No Liquefaction" with the request
    to calculate first, and for the three other grades with an entry of
    [measures_mapping], never with "No corresponding measures"; that entry is
    the cell the export writes for the same class and grade. For any other
    class and a grade other than "No Liquefaction" the access raises
    [KeyError]. *)
Theorem every_grade_has_a_measure (ILE : R) (depth : Z) (building_class : pystr) :
  let grade := step_grade ILE depth in
  (ILE <= 0 ->
   measures_text grade building_class
   = Found (str "Please calculate valid liquefaction grade first")) /\
  (0 < ILE ->
   In building_class [str "Class B"; str "Class C"; str "Class D"] ->
   exists measure text,
     recommended_measure building_class grade = Found measure /\
     measure <> str "No corresponding measures" /\
     exported_measure building_class grade = Some measure /\
     measures_text grade building_class = Found text) /\
  (0 < ILE ->
   ~ In building_class [str "Class B"; str "Class C"; str "Class D"] ->
   measures_text grade building_class = KeyError building_class).
Proof.
  intros grade. unfold grade.
  destruct (step_grade_values ILE depth) as [[H0 ->] | [Hpos Hg]].
  - split; [reflexivity |]. split; intros; lra.
  - split; [intros; lra |]. split.
    + intros _ Hclass. simpl in Hclass.
      destruct Hclass as [<- | [<- | [<- | []]]];
        destruct Hg as [-> | [-> | ->]];
        (eexists; eexists;
         split; [vm_compute; reflexivity |];
         split; [intros Hx; vm_compute in Hx; discriminate Hx |];
         split; vm_compute; reflexivity).
    + intros _ Hclass. simpl in Hclass.
      assert (Hnone : dict_get pystr_eqb measures_mapping building_class = None).
      { apply unknown_class; intros ->; apply Hclass; auto. }
      unfold measures_text, recommended_measure. rewrite Hnone.
      destruct Hg as [-> | [-> | ->]]; reflexivity.
Qed.

(** The widget for an index of 7.5 at depth 15 and a building of class C,
    and for a class that is not in the table. *)
Lemma every_grade_has_a_measure_witness :
  recommended_measure (str "Class C") (step_grade 7.5 15)
  = Found (str "Treat foundation and superstructure, or take stricter measures") /\
  measures_text (step_grade 7.5 15) (str "Class A") = KeyError (str "Class A").
Proof.
  destruct (every_grade_has_a_measure 7.5 15 (str "Class C")) as (_ & Hfound & _).
  destruct (every_grade_has_a_measure 7.5 15 (str "Class A")) as (_ & _ & Hkey).
  split.
  - destruct Hfound as (measure & text & Hm & _ & Hexp & _);
      [lra | simpl; auto |].
    rewrite Hm. f_equal.
    assert (Hgrade : step_grade 7.5 15 = str "Moderate Liquefaction").
    { unfold step_grade. simpl Z.eqb.
      repeat match goal with
      | |- context [Rle_dec ?a ?b] => destruct (Rle_dec a b); try lra
      end; reflexivity. }
    rewrite Hgrade in Hexp. vm_compute in Hexp. now injection Hexp as <-.
  - apply Hkey; [lra |].
    intros [H | [H | [H | []]]]; vm_compute in H; discriminate H.
Defined.

(** ** Worksheet names *)

Section WorksheetNames.

Let clean (c : N) : N := if illegal c then 95%N else c.

Lemma clean_legal (c : N) : illegal (clean c) = false.
Proof.
  unfold clean. destruct (illegal c) eqn:E; [reflexivity | exact E].
Qed.

Lemma clean_fixed (c : N) : illegal c = false -> clean c = c.
Proof. unfold clean. now intros ->. Qed.

Lemma map_clean_fixed (l : pystr) :
  Forall (fun c => illegal c = false) l -> map clean l = l.
Proof.
  induction 1 as [| c l Hc _ IH]; [reflexivity |].
  simpl. now rewrite (clean_fixed c Hc), IH.
Qed.

Lemma worksheet_name_legal (name : pystr) :
  Forall (fun c => illegal c = false) (worksheet_name name).
Proof.
  unfold worksheet_name. apply Forall_map, Forall_forall.
  intros c _. apply clean_legal.
Qed.

Lemma worksheet_name_length (name : pystr) :
  List.length (worksheet_name name) = Nat.min 31 (List.length name).
Proof.
  unfold worksheet_name. now rewrite length_map, length_firstn.
Qed.

Lemma worksheet_name_fixed (name : pystr) :
  (List.length name <= 31)%nat ->
  Forall (fun c => illegal c = false) name ->
  worksheet_name name = name.
Proof.
  intros Hlen Hlegal. unfold worksheet_name.
  rewrite (firstn_all2 name) by exact Hlen. now apply map_clean_fixed.
Qed.

End WorksheetNames.

(** X16: the worksheet name the export derives from a site name has at most
    31 characters (the first 31 of the name), holds none of the characters
    backslash, slash, asterisk, question mark, colon and square brackets, and
    is the name itself when the name already is such a name; deriving a name
    from a derived name changes nothing. *)
Theorem worksheet_name_is_valid (site_number : pystr) :
  List.length (worksheet_name site_number)
  = Nat.min 31 (List.length site_number) /\
  Forall (fun c => illegal c = false) (worksheet_name site_number) /\
  ((List.length site_number <= 31)%nat ->
   Forall (fun c => illegal c = false) site_number ->
   worksheet_name site_number = site_number) /\
  worksheet_name (worksheet_name site_number) = worksheet_name site_number.
Proof.
  split; [apply worksheet_name_length |].
  split; [apply worksheet_name_legal |].
  split; [apply worksheet_name_fixed |].
  apply worksheet_name_fixed; [| apply worksheet_name_legal].
  rewrite worksheet_name_length. apply Nat.le_min_l.
Qed.

(** The name of an imported site with a slash and brackets, and the name of
    a manual site, which is kept. *)
Lemma worksheet_name_is_valid_witness :
  worksheet_name (str "Imported Site A/1 [north]")
  = str "Imported Site A_1 _north_" /\
  worksheet_name (str "Site 1") = str "Site 1".
Proof.
  split; [vm_compute; reflexivity |].
  destruct (worksheet_name_is_valid (str "Site 1")) as (_ & _ & Hfixed & _).
  apply Hfixed; [simpl; lia | repeat constructor].
Defined.

(** * Properties of the manual input tab *)

Section ManualInput.

Lemma floored_content_floor (choice : pystr) (c : R) :
  if pystr_eqb choice s_rho_c
  then 3 <= floored_content choice c else 15 <= floored_content choice c.
Proof.
  unfold floored_content.
  destruct (pystr_eqb choice s_rho_c); rewrite max_Rmax.
  - replace 3 with 3.0 at 1 by lra. apply Rmax_l.
  - replace 15 with 15.0 at 1 by lra. apply Rmax_l.
Qed.

Lemma floored_content_idempotent (choice : pystr) (c : R) :
  floored_content choice (floored_content choice c) = floored_content choice c.
Proof.
  unfold floored_content.
  destruct (pystr_eqb choice s_rho_c); rewrite !max_Rmax;
    apply Rmax_right, Rmax_l.
Qed.





End ManualInput.



(** X18: a content value entered below the floor of the content type is
    calculated as the floor: the manual calculation of the entries and that
    of the entries with floored contents give the same outcome. *)
Theorem content_below_floor_counts_as_floor (g : manual_inputs) :
  manual_calculation
    (with_entries g
       (floored_entries (manual_particle_content_choice g) (soil_layer_entries g)))
  = manual_calculation g.
Proof.
  unfold manual_calculation. f_equal.
  unfold get_manual_input_data, with_entries, floored_entries.
  cbn [manual_acceleration_intensity_choice manual_particle_content_choice
       manual_beta_calculation_choice amax_var intensity_var depth_var
       groundwater_var magnitude_var earthquake_group_var soil_layer_entries].
  destruct (pystr_eqb (manual_acceleration_intensity_choice g) s_amax);
    f_equal; rewrite map_map; apply map_ext;
    intros [[ds N] c]; now rewrite floored_content_idempotent.
Qed.

(** Clay contents of 0 and 2.9 against the floor 3.0. *)
Lemma content_below_floor_counts_as_floor_witness :
  manual_calculation
    (with_entries cleared_inputs [ (1.5, 12, 3.0); (4.5, 14, 3.0) ])
  = manual_calculation
      (with_entries cleared_inputs [ (1.5, 12, 0); (4.5, 14, 2.9) ]).
Proof.
  rewrite <- (content_below_floor_counts_as_floor
                (with_entries cleared_inputs [ (1.5, 12, 0); (4.5, 14, 2.9) ])).
  unfold manual_calculation. f_equal.
  unfold get_manual_input_data, with_entries, floored_entries, floored_content.
  cbn. rewrite !max_Rmax.
  rewrite (Rmax_left 3.0 0) by lra. rewrite (Rmax_left 3.0 2.9) by lra.
  rewrite !Rmax_left by lra. reflexivity.
Defined.

(** ** The layer buttons *)

Section LayerButtons.

(** Every layer sits at the place of its index in the progression, and there
    is at least one layer. *)
Let regular (layers : list stored_layer) : Prop :=
  layers <> [] /\
  forall i l, nth_error layers i = Some l -> progression i l.

Lemma default_stored_layers_regular : regular default_stored_layers.
Proof.
  split; [discriminate |].
  intros i l H. unfold default_stored_layers in H.
  do 5 (destruct i as [| i]; [injection H as <-; split; simpl; lra |]).
  simpl in H. destruct i; discriminate H.
Qed.

Lemma add_soil_layer_regular (content_type : pystr) (layers : list stored_layer) :
  regular layers -> regular (add_soil_layer content_type layers).
Proof.
  intros [Hne Hprog]. unfold add_soil_layer.
  destruct (exists_last Hne) as (front & last_layer & ->).
  rewrite rev_app_distr. cbn [rev app].
  split; [now destruct front |].
  intros i l H.
  set (n := List.length (front ++ [last_layer])) in *.
  destruct (Nat.lt_ge_cases i n) as [Hlt | Hge].
  - rewrite nth_error_app1 in H by exact Hlt. now apply Hprog.
  - rewrite nth_error_app2 in H by exact Hge.
    change (List.length (front ++ [last_layer])) with n in H.
    destruct (i - n)%nat as [| k] eqn:Ek;
      [| simpl in H; destruct k; discriminate H].
    injection H as <-. assert (i = n) as -> by lia.
    assert (Hlast : progression (List.length front) last_layer).
    { apply Hprog. rewrite nth_error_app2 by lia.
      now rewrite Nat.sub_diag. }
    destruct Hlast as [Hds _].
    assert (En : n = S (List.length front)).
    { unfold n. rewrite length_app. simpl. lia. }
    split; cbn [s_ds s_N]; rewrite ?Hds, En, S_INR; lra.
Qed.

Lemma delete_last_layer_regular (layers : list stored_layer) :
  regular layers -> regular (delete_last_layer layers).
Proof.
  intros [Hne Hprog]. unfold delete_last_layer.
  destruct (Nat.leb_spec (List.length layers) 1) as [Hle | Hgt];
    [now split |].
  destruct (exists_last Hne) as (front & last_layer & ->).
  rewrite removelast_last. rewrite length_app in Hgt. simpl in Hgt.
  split; [destruct front; [simpl in Hgt; lia | discriminate] |].
  intros i l H. apply Hprog.
  rewrite nth_error_app1; [exact H |].
  apply nth_error_Some. congruence.
Qed.

Lemma layer_step_regular (layers : list stored_layer) (a : layer_action) :
  regular layers -> regular (layer_step layers a).
Proof.
  destruct a; simpl.
  - apply add_soil_layer_regular.
  - apply delete_last_layer_regular.
  - intros _. apply default_stored_layers_regular.
Qed.

Lemma layer_steps_regular (actions : list layer_action) :
  forall layers, regular layers -> regular (fold_left layer_step actions layers).
Proof.
  induction actions as [| a actions IH]; intros layers H; [exact H |].
  simpl. apply IH, layer_step_regular, H.
Qed.

Lemma layer_step_nonempty (layers : list stored_layer) (a : layer_action) :
  layers <> [] -> layer_step layers a <> [].
Proof.
  intros Hne. destruct a; simpl.
  - unfold add_soil_layer. now destruct layers.
  - unfold delete_last_layer.
    destruct (Nat.leb_spec (List.length layers) 1) as [Hle | Hgt]; [exact Hne |].
    destruct (exists_last Hne) as (front & last_layer & ->).
    rewrite removelast_last. rewrite length_app in Hgt. simpl in Hgt.
    destruct front; [simpl in Hgt; lia | discriminate].
  - discriminate.
Qed.

End LayerButtons.

(** X19: whatever sequence of the buttons "add layer", "delete last layer"
    and "clear" is pressed on a non-empty layer list, the list never becomes
    empty (so the fallback depth of [add_soil_layer] is never used); deleting
    right after adding restores the list; and starting from the default
    layers every layer keeps the depth 1.5 + 3 i and the blow count
    12 + 2 i of its index i. *)
Theorem layer_buttons_keep_the_list_regular (actions : list layer_action) :
  (forall layers,
      layers <> [] -> fold_left layer_step actions layers <> []) /\
  (forall content_type layers,
      layers <> [] ->
      delete_last_layer (add_soil_layer content_type layers) = layers) /\
  (forall i l,
      nth_error (fold_left layer_step actions default_stored_layers) i = Some l ->
      progression i l).
Proof.
  split; [| split].
  - induction actions as [| a actions IH]; intros layers Hne; [exact Hne |].
    simpl. apply IH, layer_step_nonempty, Hne.
  - intros content_type layers Hne.
    unfold delete_last_layer, add_soil_layer.
    rewrite length_app. simpl.
    destruct (Nat.leb_spec (List.length layers + 1) 1) as [Hle | Hgt].
    + destruct layers; [contradiction | simpl in Hle; lia].
    + apply removelast_last.
  - apply (layer_steps_regular actions default_stored_layers).
    apply default_stored_layers_regular.
Qed.

(** Two layers added to the defaults, one deleted, in the fine content type:
    six layers, the sixth at 16.5 m with 22 blows. *)
Lemma layer_buttons_keep_the_list_regular_witness :
  exists l,
    nth_error
      (fold_left layer_step
         [Add_layer (str "Fc"); Add_layer (str "Fc"); Delete_last_layer]
         default_stored_layers) 5 = Some l /\
    s_ds l = 16.5 /\ s_N l = 22.
Proof.
  eexists. split; [reflexivity |].
  destruct (layer_buttons_keep_the_list_regular
              [Add_layer (str "Fc"); Add_layer (str "Fc"); Delete_last_layer])
    as (_ & _ & Hprog).
  destruct (Hprog 5%nat _ eq_refl) as [Hds HN].
  rewrite Hds, HN. simpl. split; lra.
Defined.

(** * Properties of the import tab *)

Section ImportedData.


Lemma py_int_IZR (n : Z) : py_int (IZR n) = n.
Proof.
  unfold py_int, Int_part.
  destruct (Rle_dec 0 (IZR n)) as [H | H].
  - rewrite <- (up_tech (IZR n) n); [lia | lra |].
    rewrite plus_IZR. lra.
  - rewrite <- opp_IZR. rewrite <- (up_tech (IZR (- n)) (- n)); [lia | lra |].
    rewrite plus_IZR. lra.
Qed.

(** A pass of the loop reads the depth, the blow count and the content of a
    layer, and the two choices and the groundwater depth of the site. *)
Lemma soil_layer_step_reads (data1 data2 : site_data) (beta amax : R)
    (N_prime : Z) (s1 s2 : soil_layer) :
  acceleration_intensity_choice data1 = acceleration_intensity_choice data2 ->
  particle_content_choice data1 = particle_content_choice data2 ->
  groundwater_depth_dw data1 = groundwater_depth_dw data2 ->
  same_measurements s1 s2 ->
  soil_layer_step data1 beta amax N_prime s1
  = soil_layer_step data2 beta amax N_prime s2.
Proof.
  intros Hc Hp Hw (Hds & HN & Hcv).
  unfold soil_layer_step, step_Ncr. now rewrite Hc, Hp, Hw, Hds, HN, Hcv.
Qed.

Lemma calculate_agree (data1 data2 : site_data) :
  step2_seismic data1 = step2_seismic data2 ->
  step1_beta data1 = step1_beta data2 ->
  discrimination_depth data1 = discrimination_depth data2 ->
  acceleration_intensity_choice data1 = acceleration_intensity_choice data2 ->
  particle_content_choice data1 = particle_content_choice data2 ->
  groundwater_depth_dw data1 = groundwater_depth_dw data2 ->
  Forall2 same_measurements (soil_layer_data data1) (soil_layer_data data2) ->
  fmap engine_outputs (calculate_liquefaction_index data1)
  = fmap engine_outputs (calculate_liquefaction_index data2).
Proof.
  intros Hs Hb Hd Hc Hp Hw Hall.
  destruct (step2_seismic data2) as [seismic | e] eqn:E2.
  - apply (calculate_ext data1 data2 seismic Hs E2 Hd).
    rewrite Hb. eapply Forall2_impl; [| exact Hall].
    intros s1 s2 Hsame. now apply soil_layer_step_reads.
  - unfold calculate_liquefaction_index. now rewrite Hs, E2.
Qed.

Lemma map_same_measurements {A : Type} (f g : A -> soil_layer) (l1 l2 : list A)
    (P : A -> A -> Prop) :
  (forall a b, P a b -> same_measurements (f a) (g b)) ->
  Forall2 P l1 l2 ->
  Forall2 same_measurements (map f l1) (map g l2).
Proof.
  intros H. induction 1; simpl; constructor; auto.
Qed.

End ImportedData.

Section ImportTab.

Variable g : import_inputs.
Variable mapping : list (pystr * option pystr).

Let choice := import_acceleration_intensity_choice g.



End ImportTab.



(** X21: of the seismic parameter cells of the rows of a site only the one of
    the last row reaches the calculation: two groups of rows that differ only
    in the seismic cells of the rows before the last give, in the import
    calculation and in the batch calculation, the same exception or the same
    layer details, index and grade. *)
Theorem only_last_seismic_cell_counts (g : import_inputs)
    (earlier earlier' : list table_row) (last : table_row) :
  Forall2 same_but_seismic earlier earlier' ->
  fmap engine_outputs
    (calculate_liquefaction_index (import_calculation_data g earlier last))
  = fmap engine_outputs
      (calculate_liquefaction_index (import_calculation_data g earlier' last)) /\
  fmap engine_outputs
    (calculate_liquefaction_index (batch_calculation_data g earlier last))
  = fmap engine_outputs
      (calculate_liquefaction_index (batch_calculation_data g earlier' last)).
Proof.
  intros Hrows.
  assert (Hall : Forall2 same_but_seismic (earlier ++ [last]) (earlier' ++ [last])).
  { apply Forall2_app; [exact Hrows |]. constructor; [| constructor].
    repeat split. }
  split; apply calculate_agree; try reflexivity.
  - unfold import_calculation_data. cbn [soil_layer_data].
    apply (map_same_measurements _ _ _ _ same_but_seismic); [| exact Hall].
    intros a b (Hds & HN & Hc). unfold same_measurements. simpl.
    now rewrite Hds, HN, Hc.
  - unfold batch_calculation_data. cbn [soil_layer_data].
    apply (map_same_measurements _ _ _ _ same_but_seismic); [| exact Hall].
    intros a b (Hds & HN & Hc). unfold same_measurements. simpl.
    now rewrite Hds, HN, Hc.
Qed.

(** Two rows with amax cells 0.4 and 0.3 against the same rows with 0.1 and
    0.3: the site is calculated with 0.3 in both cases. *)
Lemma only_last_seismic_cell_counts_witness :
  fmap engine_outputs
    (calculate_liquefaction_index
       (import_calculation_data (sample_import_inputs s_amax)
          [sample_row 1.5 12 (Some 0.4); sample_row 4.5 14 (Some 0.4)]
          (sample_row 7.5 16 (Some 0.3))))
  = fmap engine_outputs
      (calculate_liquefaction_index
         (import_calculation_data (sample_import_inputs s_amax)
            [sample_row 1.5 12 (Some 0.1); sample_row 4.5 14 None]
            (sample_row 7.5 16 (Some 0.3)))).
Proof.
  apply only_last_seismic_cell_counts.
  repeat constructor.
Defined.

Section ImportedLayers.

Lemma imported_content_floor (choice : pystr) (cell : option R) :
  if pystr_eqb choice s_rho_c
  then 3 <= imported_content choice cell else 15 <= imported_content choice cell.
Proof.
  destruct cell as [c |]; simpl; [apply floored_content_floor |].
  destruct (pystr_eqb choice s_rho_c); lra.
Qed.

Lemma import_layers_sound (g : import_inputs)
    (earlier : list table_row) (last : table_row) :
  Forall (fun row => 0 < row_ds row) (earlier ++ [last]) ->
  let data := import_calculation_data g earlier last in
  Forall (fun soil =>
            0 < ds soil /\
            (if pystr_eqb (particle_content_choice data) s_rho_c
             then 3 <= content_value soil else 15 <= content_value soil))
         (soil_layer_data data).
Proof.
  intros Hds. unfold import_calculation_data.
  cbn [soil_layer_data particle_content_choice].
  apply Forall_map. eapply Forall_impl; [| exact Hds].
  intros row Hpos. split; [exact Hpos |]. cbn.
  apply imported_content_floor.
Qed.

(** The blow counts of the layers are those of the rows. *)
Lemma import_blow_counts (g : import_inputs)
    (earlier : list table_row) (last : table_row) (P : R -> Prop) :
  let data := import_calculation_data g earlier last in
  (Forall (fun soil => P (SPT_N soil)) (soil_layer_data data)
   <-> Forall (fun row => P (row_N row)) (earlier ++ [last])) /\
  (Exists (fun soil => P (SPT_N soil)) (soil_layer_data data)
   <-> Exists (fun row => P (row_N row)) (earlier ++ [last])).
Proof.
  unfold import_calculation_data. cbn [soil_layer_data].
  rewrite Forall_map, Exists_map. split; reflexivity.
Qed.

End ImportedLayers.

(** X22: the import calculation of a site whose rows have positive depths
    fails for two reasons only: in amax mode, an amax of the last row (0.1
    for an empty cell) outside [0.09, 0.41], or the overflow of [math.exp]
    on a row whose blow count exceeds 2000. Empty content cells and contents
    below the floor are replaced by the floor of the content type, so that
    step 1.1 never raises on them. With blow counts of at most 2000 the
    calculation returns a result exactly when the range test passes. *)
Theorem import_calculation_returns (g : import_inputs)
    (earlier : list table_row) (last : table_row) :
  Forall (fun row => 0 < row_ds row) (earlier ++ [last]) ->
  let outcome :=
    calculate_liquefaction_index (import_calculation_data g earlier last) in
  let amax := seismic_as_amax (row_seismic last) in
  (forall e,
      outcome = Raise e ->
      (e = ValueError (AmaxOutOfRange amax) /\
       import_acceleration_intensity_choice g = s_amax /\
       ~ 0.09 <= amax <= 0.41) \/
      (e = OverflowError /\
       Exists (fun row => 2000 < row_N row) (earlier ++ [last]))) /\
  (Forall (fun row => row_N row <= 2000) (earlier ++ [last]) ->
   ((exists r, outcome = Ok r) <->
    (import_acceleration_intensity_choice g = s_amax ->
     0.09 <= amax <= 0.41))).
Proof.
  intros Hds outcome amax. unfold outcome.
  destruct (calculate_outcome (import_calculation_data g earlier last)
              (import_layers_sound g earlier last Hds)) as [Hraise Hreturn].
  set (data := import_calculation_data g earlier last) in *.
  change (acceleration_intensity_choice data)
    with (import_acceleration_intensity_choice g) in Hraise, Hreturn.
  assert (Hamax : import_acceleration_intensity_choice g = s_amax ->
                  surface_peak_acceleration_amax data = amax).
  { intros Hm. unfold data, import_calculation_data.
    cbn [surface_peak_acceleration_amax]. now rewrite Hm, pystr_eqb_refl. }
  split.
  - intros e He. destruct (Hraise e He) as [(-> & Hm & Hout) | [-> HN]].
    + left. rewrite (Hamax Hm) in *. auto.
    + right. split; [reflexivity |].
      now apply (import_blow_counts g earlier last (fun N => 2000 < N)).
  - intros HN.
    apply (import_blow_counts g earlier last (fun N => N <= 2000)) in HN.
    fold data in HN. rewrite (Hreturn HN).
    split; intros H Hm; specialize (H Hm); rewrite (Hamax Hm) in *; exact H.
Qed.

(** Three rows with empty content cells and an empty amax cell in the last
    row, in amax mode. *)
Lemma import_calculation_returns_witness :
  exists r,
    calculate_liquefaction_index
      (import_calculation_data (sample_import_inputs s_amax)
         [sample_row 1.5 12 (Some 0.4); sample_row 4.5 14 (Some 0.4)]
         (sample_row 7.5 16 None))
    = Ok r.
Proof.
  apply (import_calculation_returns (sample_import_inputs s_amax)
           [sample_row 1.5 12 (Some 0.4); sample_row 4.5 14 (Some 0.4)]
           (sample_row 7.5 16 None)).
  - repeat constructor; simpl; lra.
  - repeat constructor; simpl; lra.
  - intros _. simpl. lra.
Defined.
